(** * ciao: controller instance lifecycle, admission and the SSNTP test agent

    A shallow embedding of
      - ciao-controller/instance.go   (instance creation, admission, cleanup),
      - the compute API handlers that act on one named instance,
      - the testutil SSNTP client (waiter tables and the Start handler),
    together with the properties the specification states about them. *)

From Stdlib Require Import ZArith Lia Bool.
From Stdlib Require Import Strings.String Strings.Ascii Strings.Byte.
From Stdlib Require Import DecimalString.
From stdpp Require Import base option list gmap strings fin_maps.

Local Open Scope string_scope.
Local Open Scope list_scope.
Local Open Scope Z_scope.

(* ===================================================================== *)
(** ** Go's [net] package: IP addresses and hardware addresses            *)
(* ===================================================================== *)

Module Net.

(** [net.IP] and [net.HardwareAddr] are byte slices.  The nil slice is
    the empty list: [To4] never returns an empty non-nil slice. *)
Definition IP := list byte.
Definition HardwareAddr := list byte.

Definition IPv4len : nat := 4.
Definition IPv6len : nat := 16.

Definition byte_eqb (a b : byte) : bool := Byte.eqb a b.

(** [a | b] on [uint8]. *)
Definition byte_lor (a b : byte) : byte :=
  match Byte.of_N (N.lor (Byte.to_N a) (Byte.to_N b)) with
  | Some c => c
  | None => x00
  end.

Definition isZeros (p : list byte) : bool :=
  forallb (fun b => byte_eqb b x00) p.

(** [s[lo:hi]] for [lo <= hi <= len(s)]. *)
Definition slice {A} (s : list A) (lo hi : nat) : list A :=
  take (hi - lo) (drop lo s).

(** [ip.To4()]: a 4-byte address is returned as it is, an IPv4-mapped
    16-byte address yields its last four bytes, anything else is nil. *)
Definition To4 (ip : IP) : IP :=
  if Nat.eqb (length ip) IPv4len then ip
  else if Nat.eqb (length ip) IPv6len
            && isZeros (slice ip 0 10)
            && byte_eqb (nth 10 ip x00) xff
            && byte_eqb (nth 11 ip x00) xff
       then slice ip 12 16
       else [].

(** [copy(buf[lo:hi], src)]: the destination window aliases [buf]; the
    number of bytes copied is the smaller of the two lengths. *)
Definition copy_into (buf : list byte) (lo hi : nat) (src : list byte)
  : list byte :=
  let n := Nat.min (length (slice buf lo hi)) (length src) in
  take lo buf ++ take n src ++ drop (lo + n) buf.

End Net.

(* ===================================================================== *)
(** ** ciao-controller/instance.go: hardware address of a tenant instance *)
(* ===================================================================== *)

Module HwAddr.
Import Net.

Definition newTenantHardwareAddr (ip : IP) : HardwareAddr :=
  let buf := replicate 6 x00 in
  let ipBytes := To4 ip in
  let buf := <[0%nat := byte_lor (nth 0 buf x00) x02]> buf in
  let buf := <[1%nat := x00]> buf in
  copy_into buf 2 6 ipBytes.

(** The two encodings of an IPv4 address that [To4] accepts. *)
Definition ipv4 (a b c d : byte) : IP := [a; b; c; d].
Definition ipv4_mapped (a b c d : byte) : IP :=
  replicate 10 x00 ++ [xff; xff; a; b; c; d].

End HwAddr.

(* ===================================================================== *)
(** ** Go values shared by the packages below                             *)
(* ===================================================================== *)

(** A Go [error] is its message; [nil] is [None]. *)
Definition error := string.

(** The result of running Go code: it returns, it panics (a nil
    pointer dereference, a send on a closed channel), or it never
    returns because it blocks for ever in a send that no goroutine
    receives. *)
Inductive outcome (A : Type) : Type :=
| Ret (a : A)
| Panic (msg : string)
| Blocked.
Arguments Ret {A} a.
Arguments Panic {A} msg.
Arguments Blocked {A}.

(** Code that reads and updates a state [S]. *)
Definition M (S A : Type) : Type := S → outcome (A * S).

Global Instance M_ret {S} : MRet (M S) :=
  λ A (a : A) (s : S), Ret (a, s).
Global Instance M_bind {S} : MBind (M S) :=
  λ A B (f : A → M S B) (m : M S A) (s : S),
    match m s with
    | Ret (a, s') => f a s'
    | Panic msg => Panic msg
    | Blocked => Blocked
    end.

Definition get {S} : M S S := λ s, Ret (s, s).
Definition modify {S} (f : S → S) : M S unit := λ s, Ret (tt, f s).
Definition panic {S A} (msg : string) : M S A := λ _, Panic msg.

(** Dereference of a pointer that may be nil. *)
Definition deref {S A} (p : option A) : M S A :=
  match p with
  | Some a => mret a
  | None => panic "invalid memory address or nil pointer dereference"
  end.

Definition newline : string := String (ascii_of_nat 10) EmptyString.

(* ===================================================================== *)
(** ** payloads and ciao-controller/types: the data of an instance        *)
(* ===================================================================== *)

Module Payloads.

(** [payloads.Resource] is a string type. *)
Definition Resource := string.

Record RequestedResource := {
  Type_ : Resource;
  Value : Z;
  Mandatory : bool;
}.

Record NetworkResources := {
  VnicMAC : string;
  VnicUUID : string;
  ConcentratorUUID : string;
  ConcentratorIP : string;
  Subnet : string;
  PrivateIP : string;
}.

Record StorageResources := {
  sr_ID : string;
  sr_Bootable : bool;
}.

Record StartCmd := {
  TenantUUID : string;
  InstanceUUID : string;
  ImageUUID : string;
  DockerImage : string;
  FWType : string;
  InstancePersistence : string;
  VMType : string;
  RequestedResources : list RequestedResource;
  Networking : NetworkResources;
  Storage : StorageResources;
}.

Record Start := { Start_ : StartCmd }.

(** The constants of the package that the controller names.  Their
    values play no role below, so they are kept abstract. *)
Class Consts := {
  NetworkNode : Resource;
  Pending : string;
  Running : string;
  Host : string;
  Docker : string;
  ComputeStatusStopped : string;
  ComputeStatusRunning : string;
}.

End Payloads.

Module Types.

(** [types.Resource]: one quota line of a tenant. *)
Record Resource := {
  Rname : string;
  Rtype : Z;
  Limit : Z;
  Usage : Z;
}.

Record Tenant := {
  CNCIID : string;
  CNCIMAC : string;
  CNCIIP : string;
  Resources : list Resource;
}.

Record StorageResource := {
  s_ID : string;
  s_Bootable : bool;
  s_Size : Z;
}.

Record Workload := {
  w_ID : string;
  w_FWType : string;
  w_VMType : string;
  w_ImageID : string;
  w_ImageName : string;
  w_Config : string;
  w_Defaults : list Payloads.RequestedResource;
  w_Storage : option StorageResource;
}.

Record Instance := {
  ID : string;
  TenantID : string;
  State : string;
  WorkloadID : string;
  NodeID : string;
  MACAddress : string;
  IPAddress : string;
  SSHIP : string;
  SSHPort : Z;
  CNCI : bool;
  i_Usage : gmap string Z;
}.

Record BlockDevice := { bd_ID : string }.

Record BlockData := {
  b_BlockDevice : BlockDevice;
  b_Size : Z;
  b_CreateTime : Z;
  b_TenantID : string;
}.

(** Modelled from the spec: [types.Resource.OverLimit], which is not
    part of the sources at hand.  The specification admits a request
    when [requested ≤ limit − usage] (for the instance count:
    [usage + 1 ≤ limit]); [OverLimit] is the negation of that test. *)
Definition OverLimit (r : Resource) (request : Z) : bool :=
  negb (request <=? Limit r - Usage r).

End Types.

(* ===================================================================== *)
(** ** What the controller code calls but does not define                 *)
(* ===================================================================== *)

(** Library functions ([net], [yaml], [json], [uuid]) whose results are
    only passed along. *)
Class GoLib := {
  IP_String : Net.IP → string;
  IP_Mask : Net.IP → list byte → Net.IP;
  IPNet_String : Net.IP → list byte → string;
  HardwareAddr_String : Net.HardwareAddr → string;
  yaml_Marshal_Start : Payloads.Start → string * option error;
  json_MarshalIndent_UserData : string → string → string * option error;
  (** [uuid.Generate().String()], as a stream of identifiers *)
  uuid_Generate : nat → string;
}.

(** The collaborators behind [context]: the datastore [context.ds], the
    identity service [context.id], the block device driver and the
    lifecycle operations of the controller.  [W] is their joint state.
    Reads do not change it; every call may fail with an error. *)
Class Backend (W : Type) := {
  GetTenant : string → W → option Types.Tenant * option error;
  GetInstance : string → W → option Types.Instance * option error;
  GetWorkload : string → W → option Types.Workload * option error;
  GetAllInstancesFromTenant : string → W → list Types.Instance * option error;
  AddInstance : Types.Instance → W → option error * W;
  AddTenantCNCI : string → string → string → W → option error * W;
  AllocateTenantIP : string → W → (Net.IP * option error) * W;
  ReleaseTenantIP : string → string → W → option error * W;
  AddBlockDevice : Types.BlockData → W → option error * W;
  CreateBlockDevice : string → Z → W → (Types.BlockDevice * option error) * W;
  DeleteBlockDevice : string → W → option error * W;
  validateService : string → string → string → string → W → bool;
  validateProjectRole : string → string → string → W → bool;
  restartInstance : string → W → option error * W;
  stopInstance : string → W → option error * W;
  deleteInstance : string → W → option error * W;
}.

(** The calls the controller makes on its collaborators, in order. *)
Inductive Call : Type :=
| CGetTenant (tenantID : string)
| CGetInstance (instanceID : string)
| CGetWorkload (workloadID : string)
| CGetAllInstancesFromTenant (tenantID : string)
| CAddInstance (i : Types.Instance)
| CAddTenantCNCI (tenantID instanceID mac : string)
| CAllocateTenantIP (tenantID : string)
| CReleaseTenantIP (tenantID ip : string)
| CAddBlockDevice (data : Types.BlockData)
| CCreateBlockDevice (imageID : string) (size : Z)
| CDeleteBlockDevice (id : string)
| CrestartInstance (instanceID : string)
| CstopInstance (instanceID : string)
| CdeleteInstance (instanceID : string).

(** The [controller] a handler or an instance works in: the state of the
    collaborators, the calls made so far, the lines printed or logged, the
    number of UUIDs drawn and the clock. *)
Record controller (W : Type) := mkController {
  world : W;
  calls : list Call;
  logs : list string;
  uuids : nat;
  clock : Z;
}.
Arguments mkController {W}.
Arguments world {W}.
Arguments calls {W}.
Arguments logs {W}.
Arguments uuids {W}.
Arguments clock {W}.

Section Context_.
Context {W : Type} `{Backend W} `{GoLib}.

Definition record_call (c : Call) : M (controller W) unit :=
  modify (λ s, mkController (world s) (calls s ++ [c]) (logs s) (uuids s) (clock s)).

(** [fmt.Println] and [glog.Warning]. *)
Definition log_line (l : string) : M (controller W) unit :=
  modify (λ s, mkController (world s) (calls s) (logs s ++ [l]) (uuids s) (clock s)).

Definition time_Now : M (controller W) Z :=
  s ← get; mret (clock s).

Definition uuid_Generate_String : M (controller W) string :=
  s ← get;
  _ ← modify (λ s, mkController (world s) (calls s) (logs s) (S (uuids s)) (clock s));
  mret (uuid_Generate (uuids s)).

(** A call that only reads. *)
Definition read {A} (c : Call) (f : W → A) : M (controller W) A :=
  _ ← record_call c;
  s ← get;
  mret (f (world s)).

(** A call that may update the collaborators' state. *)
Definition update {A} (c : Call) (f : W → A * W) : M (controller W) A :=
  _ ← record_call c;
  s ← get;
  let '(a, w') := f (world s) in
  _ ← modify (λ s, mkController w' (calls s) (logs s) (uuids s) (clock s));
  mret a.

Definition ds_GetTenant (tenantID : string) :=
  read (CGetTenant tenantID) (GetTenant tenantID).
Definition ds_GetInstance (instanceID : string) :=
  read (CGetInstance instanceID) (GetInstance instanceID).
Definition ds_GetWorkload (workloadID : string) :=
  read (CGetWorkload workloadID) (GetWorkload workloadID).
Definition ds_GetAllInstancesFromTenant (tenantID : string) :=
  read (CGetAllInstancesFromTenant tenantID) (GetAllInstancesFromTenant tenantID).
Definition ds_AddInstance (i : Types.Instance) :=
  update (CAddInstance i) (AddInstance i).
Definition ds_AddTenantCNCI (tenantID instanceID mac : string) :=
  update (CAddTenantCNCI tenantID instanceID mac)
         (AddTenantCNCI tenantID instanceID mac).
Definition ds_AllocateTenantIP (tenantID : string) :=
  update (CAllocateTenantIP tenantID) (AllocateTenantIP tenantID).
Definition ds_ReleaseTenantIP (tenantID ip : string) :=
  update (CReleaseTenantIP tenantID ip) (ReleaseTenantIP tenantID ip).
Definition ds_AddBlockDevice (data : Types.BlockData) :=
  update (CAddBlockDevice data) (AddBlockDevice data).
Definition c_CreateBlockDevice (imageID : string) (size : Z) :=
  update (CCreateBlockDevice imageID size) (CreateBlockDevice imageID size).
Definition c_DeleteBlockDevice (id : string) :=
  update (CDeleteBlockDevice id) (DeleteBlockDevice id).
Definition c_restartInstance (instanceID : string) :=
  update (CrestartInstance instanceID) (restartInstance instanceID).
Definition c_stopInstance (instanceID : string) :=
  update (CstopInstance instanceID) (stopInstance instanceID).
Definition c_deleteInstance (instanceID : string) :=
  update (CdeleteInstance instanceID) (deleteInstance instanceID).

End Context_.

(* ===================================================================== *)
(** ** ciao-controller/instance.go                                        *)
(* ===================================================================== *)

Module Controller.
Import HwAddr.

Record config := mkConfig {
  sc : Payloads.Start;
  config_ : string;
  cnci : bool;
  mac : string;
  ip : string;
}.

Record instance := mkInstance {
  Instance : Types.Instance;
  newConfig_ : config;
  startTime : Z;
}.

(** The zero values the Go code starts from. *)
Definition zeroNetworking : Payloads.NetworkResources :=
  Payloads.Build_NetworkResources "" "" "" "" "" "".
Definition zeroStorage : Payloads.StorageResources :=
  Payloads.Build_StorageResources "" false.
Definition zeroStart : Payloads.Start :=
  Payloads.Build_Start
    (Payloads.Build_StartCmd "" "" "" "" "" "" "" [] zeroNetworking zeroStorage).
Definition zeroConfig : config := mkConfig zeroStart "" false "" "".

Definition IPv4Mask (a b c d : byte) : list byte := [a; b; c; d].

(** The loop of [Allowed] over [tenant.Resources]: the instance count
    (resource type 1) is checked for one more instance, every other
    resource for the quantity the instance asks for; a missing key of
    the usage map reads as 0.  The first resource over its limit ends
    the loop. *)
Fixpoint Allowed_loop (usage : gmap string Z) (rs : list Types.Resource)
  : bool :=
  match rs with
  | [] => true
  | res :: rs' =>
      if Types.Rtype res =? 1 then
        if Types.OverLimit res 1 then false else Allowed_loop usage rs'
      else if Types.OverLimit res (default 0 (usage !! Types.Rname res))
           then false
           else Allowed_loop usage rs'
  end.

Definition GetResources (c : config) : gmap string Z :=
  foldl (λ resources r, <[Payloads.Type_ r := Payloads.Value r]> resources)
        ∅ (Payloads.RequestedResources (Payloads.Start_ (sc c))).

Section WithContext.
Context {W : Type} `{Backend W} `{GoLib} `{Payloads.Consts}.

Definition isCNCIWorkload (workload : Types.Workload) : bool :=
  existsb (λ r, String.eqb (Payloads.Type_ r) Payloads.NetworkNode)
          (Types.w_Defaults workload).

Definition getStorage (wl : Types.Workload) (tenant : string)
  : M (controller W) (Payloads.StorageResources * option error) :=
  s ← deref (Types.w_Storage wl);
  let bd := Types.Build_BlockDevice "" in
  if String.eqb (Types.s_ID s) "" then
    '(device, err) ← c_CreateBlockDevice (Types.w_ImageID wl) (Types.s_Size s);
    match err with
    | Some e => mret (zeroStorage, Some e)
    | None =>
        now ← time_Now;
        let data :=
          Types.Build_BlockData bd (Types.s_Size s) now tenant in
        err ← ds_AddBlockDevice data;
        match err with
        | Some e =>
            _ ← c_DeleteBlockDevice (Types.bd_ID bd);
            mret (zeroStorage, Some e)
        | None =>
            let bd := device in
            mret (Payloads.Build_StorageResources
                    (Types.bd_ID bd) (Types.s_Bootable s), None)
        end
    end
  else
    mret (Payloads.Build_StorageResources
            (Types.bd_ID bd) (Types.s_Bootable s), None).

Definition warn (prefix : string) (err : option error)
  : M (controller W) unit :=
  match err with
  | Some e => log_line (prefix ++ e)%string
  | None => mret tt
  end.

Definition newConfig (wl : Types.Workload) (instanceID tenantID : string)
  : M (controller W) (config * option error) :=
  let baseConfig := Types.w_Config wl in
  let defaults := Types.w_Defaults wl in
  let imageID := Types.w_ImageID wl in
  let fwType := Types.w_FWType wl in
  '(tenant, err) ← ds_GetTenant tenantID;
  _ ← match err with
      | Some _ => log_line "unable to get tenant"
      | None => mret tt
      end;
  let cnci := isCNCIWorkload wl in
  vnicUUID ← uuid_Generate_String;
  r ← (if negb cnci then
         '(ipAddress, err) ← ds_AllocateTenantIP tenantID;
         match err with
         | Some e =>
             _ ← log_line ("Unable to allocate IP address:  " ++ e)%string;
             mret (inl (mkConfig zeroStart "" cnci "" "", Some e))
         | None =>
             let vnicMAC :=
               HardwareAddr_String (newTenantHardwareAddr ipAddress) in
             let mask := IPv4Mask xff xff xff x00 in
             let subnet := IPNet_String (IP_Mask ipAddress mask) mask in
             t ← deref tenant;
             let networking :=
               Payloads.Build_NetworkResources
                 vnicMAC vnicUUID (Types.CNCIID t) (Types.CNCIIP t)
                 subnet (IP_String ipAddress) in
             storage ← match Types.w_Storage wl with
                       | Some _ =>
                           '(st, err) ← getStorage wl tenantID;
                           _ ← warn "" err;
                           mret st
                       | None => mret zeroStorage
                       end;
             mret (inr (networking, storage, instanceID,
                        IP_String ipAddress))
         end
       else
         t ← deref tenant;
         let networking :=
           Payloads.Build_NetworkResources
             (Types.CNCIMAC t) vnicUUID "" "" "" "" in
         mret (inr (networking, zeroStorage,
                    ("cnci-" ++ tenantID)%string, "")));
  match r with
  | inl early => mret early
  | inr (networking, storage, hostname, ip) =>
      let startCmd :=
        Payloads.Build_StartCmd
          tenantID instanceID imageID
          (if String.eqb (Types.w_VMType wl) Payloads.Docker
           then Types.w_ImageName wl else "")
          fwType Payloads.Host (Types.w_VMType wl)
          defaults networking storage in
      let cmd := Payloads.Build_Start startCmd in
      let '(y, err) := yaml_Marshal_Start cmd in
      _ ← warn "error marshalling config: " err;
      let '(b, err) := json_MarshalIndent_UserData instanceID hostname in
      _ ← warn "error marshalling user data: " err;
      mret (mkConfig cmd
              ("---" ++ newline ++ y ++ "..." ++ newline ++ baseConfig
               ++ "---" ++ newline ++ b ++ newline ++ "..." ++ newline)%string
              cnci (Payloads.VnicMAC networking) ip,
            err)
  end.

Definition newInstance (tenantID : string) (workload : Types.Workload)
  : M (controller W) (option instance * option error) :=
  id ← uuid_Generate_String;
  '(config, err) ← newConfig workload id tenantID;
  match err with
  | Some e => mret (None, Some e)
  | None =>
      let usage := GetResources config in
      let newInstance :=
        {| Types.TenantID := tenantID;
           Types.WorkloadID := Types.w_ID workload;
           Types.State := Payloads.Pending;
           Types.ID := id;
           Types.CNCI := cnci config;
           Types.IPAddress := ip config;
           Types.MACAddress := mac config;
           Types.i_Usage := usage;
           Types.NodeID := "";
           Types.SSHIP := "";
           Types.SSHPort := 0 |} in
      mret (Some (mkInstance newInstance config 0), None)
  end.

Definition Add (i : instance) : M (controller W) (option error) :=
  _ ← (if negb (Types.CNCI (Instance i)) then
         _ ← ds_AddInstance (Instance i); mret tt
       else
         _ ← ds_AddTenantCNCI (Types.TenantID (Instance i))
                              (Types.ID (Instance i))
                              (Types.MACAddress (Instance i));
         mret tt);
  mret None.

Definition Clean (i : instance) : M (controller W) (option error) :=
  _ ← (if negb (Types.CNCI (Instance i)) then
         _ ← ds_ReleaseTenantIP (Types.TenantID (Instance i))
                                (Types.IPAddress (Instance i));
         mret tt
       else mret tt);
  mret None.

Definition Allowed (i : instance) : M (controller W) (bool * option error) :=
  if Types.CNCI (Instance i) then mret (true, None)
  else
    '(tenant, err) ← ds_GetTenant (Types.TenantID (Instance i));
    match err with
    | Some e => mret (false, Some e)
    | None =>
        t ← deref tenant;
        mret (Allowed_loop (Types.i_Usage (Instance i)) (Types.Resources t),
              None)
    end.

End WithContext.
End Controller.

(* ===================================================================== *)
(** ** A reference environment to run the code in                         *)
(* ===================================================================== *)

Module Ref.

Definition dec (b : byte) : string :=
  NilZero.string_of_uint (N.to_uint (Byte.to_N b)).

Definition hexdigit (n : N) : string :=
  String.substring (N.to_nat n) 1 "0123456789abcdef".

Definition hex2 (b : byte) : string :=
  (hexdigit (Byte.to_N b / 16) ++ hexdigit (Byte.to_N b mod 16))%string.

Fixpoint join (sep : string) (l : list string) : string :=
  match l with
  | [] => ""
  | [x] => x
  | x :: l' => (x ++ sep ++ join sep l')%string
  end.

Definition byte_land (a b : byte) : byte :=
  match Byte.of_N (N.land (Byte.to_N a) (Byte.to_N b)) with
  | Some c => c
  | None => x00
  end.

(** Printers for IPv4 addresses and hardware addresses; the marshalled
    documents are stand-ins that keep the identifying fields. *)
Global Instance lib : GoLib := {|
  IP_String ip :=
    match Net.To4 ip with
    | [] => "<nil>"
    | p => join "." (dec <$> p)
    end;
  IP_Mask ip mask := zip_with byte_land (Net.To4 ip) mask;
  IPNet_String ip mask := (join "." (dec <$> ip) ++ "/24")%string;
  HardwareAddr_String a := join ":" (hex2 <$> a);
  yaml_Marshal_Start cmd :=
    (("start: " ++ Payloads.InstanceUUID (Payloads.Start_ cmd)
       ++ newline)%string, None);
  json_MarshalIndent_UserData uuid hostname :=
    (("{" ++ uuid ++ "," ++ hostname ++ "}")%string, None);
  uuid_Generate n := ("uuid-" ++ NilZero.string_of_uint (Nat.to_uint n))%string;
|}.

Global Instance consts : Payloads.Consts := {|
  Payloads.NetworkNode := "network_node";
  Payloads.Pending := "pending";
  Payloads.Running := "active";
  Payloads.Host := "host";
  Payloads.Docker := "docker";
  Payloads.ComputeStatusStopped := "exited";
  Payloads.ComputeStatusRunning := "active";
|}.

(** Modelled from the spec: the persistence and identity collaborators
    of the controller (datastore, block devices, token validation,
    lifecycle dispatch), which are not part of the sources at hand.
    Tenants, instances and workloads are kept by identifier; every
    tenant has a pool of free addresses and a list of leased ones;
    [AllocateTenantIP] leases the first free address and
    [ReleaseTenantIP] returns a leased address to the pool; a lifecycle
    operation dispatches a command and leaves the records alone until
    the agent answers.  When [failing] is set every call fails with a
    StorageError and changes nothing. *)
Record store := mkStore {
  tenants : gmap string Types.Tenant;
  instances : gmap string Types.Instance;
  workloads : gmap string Types.Workload;
  cncis : gmap string (string * string);
  pool : gmap string (list Net.IP);
  leased : gmap string (list Net.IP);
  blocks : list Types.BlockData;
  devices : nat;
  tokens : list (string * string);
  admins : list string;
  dispatched : list (string * string);
  failing : bool;
}.

Definition StorageError : error := "StorageError".

Definition set_instances f (s : store) : store :=
  mkStore (tenants s) (f (instances s)) (workloads s) (cncis s) (pool s)
          (leased s) (blocks s) (devices s) (tokens s) (admins s)
          (dispatched s) (failing s).
Definition set_cncis f (s : store) : store :=
  mkStore (tenants s) (instances s) (workloads s) (f (cncis s)) (pool s)
          (leased s) (blocks s) (devices s) (tokens s) (admins s)
          (dispatched s) (failing s).
Definition set_addresses p l (s : store) : store :=
  mkStore (tenants s) (instances s) (workloads s) (cncis s) p
          l (blocks s) (devices s) (tokens s) (admins s)
          (dispatched s) (failing s).
Definition set_blocks f (s : store) : store :=
  mkStore (tenants s) (instances s) (workloads s) (cncis s) (pool s)
          (leased s) (f (blocks s)) (devices s) (tokens s) (admins s)
          (dispatched s) (failing s).
Definition set_devices n (s : store) : store :=
  mkStore (tenants s) (instances s) (workloads s) (cncis s) (pool s)
          (leased s) (blocks s) n (tokens s) (admins s)
          (dispatched s) (failing s).
Definition dispatch (cmd id : string) (s : store) : store :=
  mkStore (tenants s) (instances s) (workloads s) (cncis s) (pool s)
          (leased s) (blocks s) (devices s) (tokens s) (admins s)
          (dispatched s ++ [(cmd, id)]) (failing s).

Definition lookup_rec {A} (m : gmap string A) (k : string) (s : store)
  : option A * option error :=
  if failing s then (None, Some StorageError)
  else match m !! k with
       | Some a => (Some a, None)
       | None => (None, Some ("not found: " ++ k)%string)
       end.

Definition fallible (s : store) (s' : store) : option error * store :=
  if failing s then (Some StorageError, s) else (None, s').

Global Instance backend : Backend store := {|
  GetTenant tenantID s := lookup_rec (tenants s) tenantID s;
  GetInstance instanceID s := lookup_rec (instances s) instanceID s;
  GetWorkload workloadID s := lookup_rec (workloads s) workloadID s;
  GetAllInstancesFromTenant tenantID s :=
    if failing s then ([], Some StorageError)
    else (filter (λ i, Types.TenantID i = tenantID)
                 (snd <$> map_to_list (instances s)), None);
  AddInstance i s :=
    fallible s (set_instances (insert (Types.ID i) i) s);
  AddTenantCNCI tenantID instanceID mac s :=
    fallible s (set_cncis (insert tenantID (instanceID, mac)) s);
  AllocateTenantIP tenantID s :=
    if failing s then (([], Some StorageError), s)
    else match default [] (pool s !! tenantID) with
         | [] => (([], Some "no address left"), s)
         | a :: free =>
             ((a, None),
              set_addresses
                (<[tenantID := free]> (pool s))
                (<[tenantID := a :: default [] (leased s !! tenantID)]>
                   (leased s)) s)
         end;
  ReleaseTenantIP tenantID ip s :=
    let mine := default [] (leased s !! tenantID) in
    let back := filter (λ a, IP_String a = ip) mine in
    let kept := filter (λ a, IP_String a ≠ ip) mine in
    fallible s
      (set_addresses
         (<[tenantID := back ++ default [] (pool s !! tenantID)]> (pool s))
         (<[tenantID := kept]> (leased s)) s);
  AddBlockDevice data s := fallible s (set_blocks (λ l, l ++ [data]) s);
  CreateBlockDevice imageID size s :=
    if failing s then ((Types.Build_BlockDevice "", Some StorageError), s)
    else ((Types.Build_BlockDevice (uuid_Generate (devices s)), None),
          set_devices (S (devices s)) s);
  DeleteBlockDevice id s := fallible s s;
  validateService token tenant serviceType serviceName s :=
    bool_decide ((token, tenant) ∈ tokens s);
  validateProjectRole token project role s :=
    bool_decide (token ∈ admins s);
  restartInstance instanceID s := fallible s (dispatch "RESTART" instanceID s);
  stopInstance instanceID s := fallible s (dispatch "STOP" instanceID s);
  deleteInstance instanceID s := fallible s (dispatch "DELETE" instanceID s);
|}.

Definition start (s : store) : controller store := mkController s [] [] 0 0.

End Ref.

(* ===================================================================== *)
(** ** The compute API handlers that act on one named instance            *)
(* ===================================================================== *)

Module Compute.

(** What a handler reads of the [*http.Request]: the route variables
    ([mux.Vars]), the header and the result of reading the body. *)
Record Request := mkRequest {
  Vars : gmap string string;
  Header : gmap string (list string);
  Body : string * option error;
}.

(** What a handler leaves in the [http.ResponseWriter]. *)
Record ResponseWriter := mkResponse {
  status : Z;
  contentType : string;
  written : string;
}.

Definition StatusOK : Z := 200.
Definition StatusAccepted : Z := 202.
Definition StatusBadRequest : Z := 400.
Definition StatusUnauthorized : Z := 401.
Definition StatusNotFound : Z := 404.
Definition StatusInternalServerError : Z := 500.
Definition StatusServiceUnavailable : Z := 503.

Record CiaoServersAction := {
  Action : string;
  ServerIDs : list string;
}.

(** [payloads.Server], with the nested flavor, image and address
    records flattened. *)
Record Server := {
  HostID : string;
  srv_ID : string;
  srv_TenantID : string;
  FlavorID : string;
  ImageID : string;
  Status : string;
  Addr : string;
  OSEXTIPSMACMacAddr : string;
  srv_SSHIP : string;
  srv_SSHPort : Z;
}.

Inductive action := computeActionStart | computeActionStop | computeActionDelete.

(** [net/http], [fmt] and [encoding/json] as the handlers use them;
    the arguments that the handlers format are strings. *)
Class WebLib := {
  http_StatusText : Z → string;
  fmt_Sprintf : string → list string → string;
  json_Marshal_ReturnErrorCode : Z → string → string → string * option error;
  json_Marshal_ComputeServer : Server → string * option error;
  json_Unmarshal_ServersAction : string → CiaoServersAction * option error;
  (** [json.Marshal] does not fail on a struct of an integer and two
      strings. *)
  json_Marshal_ReturnErrorCode_ok :
    ∀ code name message,
      (json_Marshal_ReturnErrorCode code name message).2 = None;
}.

Fixpoint strings_Contains (s substr : string) : bool :=
  String.prefix substr s
  || match s with
     | EmptyString => false
     | String _ s' => strings_Contains s' substr
     end.

(** [vars[key]]: a missing key reads as the empty string. *)
Definition var (r : Request) (key : string) : string :=
  default "" (Vars r !! key).

Section Handlers.
Context {W : Type} `{Backend W} `{GoLib} `{Payloads.Consts} `{WebLib}.

(** [glog.V(2)] is off (glog's default verbosity), so the request
    dumps and the token traces log nothing. *)
Definition dumpRequestBody (r : Request) (body : bool)
  : M (controller W) unit := mret tt.
Definition dumpRequest (r : Request) : M (controller W) unit :=
  dumpRequestBody r false.

Definition validServices : list (string * string) :=
  [("compute", "ciao"); ("compute", "nova")].
Definition validAdmins : list (string * string) :=
  [("service", "admin"); ("admin", "admin")].

(** [token[0]] of a header value; indexing an empty slice panics. *)
Definition first_token (token : list string) : outcome string :=
  match token with
  | t :: _ => Ret t
  | [] => Panic "index out of range"
  end.

Definition tenantToken (w : W) (r : Request) (tenant : string)
  : outcome bool :=
  match Header r !! "X-Auth-Token" with
  | None => Ret false
  | Some token =>
      match first_token token with
      | Panic msg => Panic msg
      | Blocked => Blocked
      | Ret t =>
          Ret (existsb (λ s, validateService t tenant s.1 s.2 w) validServices
               || existsb (λ s, validateService t tenant s.1 "" w) validServices)
      end
  end.

Definition adminToken (w : W) (r : Request) : outcome bool :=
  match Header r !! "X-Auth-Token" with
  | None => Ret false
  | Some token =>
      match first_token token with
      | Panic msg => Panic msg
      | Blocked => Blocked
      | Ret t =>
          Ret (existsb (λ a, validateProjectRole t a.1 a.2 w) validAdmins)
      end
  end.

Definition validateToken (w : W) (r : Request) : outcome bool :=
  let tenant := var r "tenant" in
  if String.eqb tenant "" then adminToken w r
  else match tenantToken w r tenant with
       | Panic msg => Panic msg
       | Blocked => Blocked
       | Ret false => adminToken w r
       | Ret true => Ret true
       end.

Definition c_validateToken (r : Request) : M (controller W) bool :=
  s ← get;
  match validateToken (world s) r with
  | Ret b => mret b
  | Panic msg => panic msg
  | Blocked => λ _, Blocked
  end.

Definition zeroServer : Server :=
  Build_Server "" "" "" "" "" "" "" "" "" 0.

Definition instanceToServer (instance : Types.Instance)
  : M (controller W) (Server * option error) :=
  '(workload, err) ← ds_GetWorkload (Types.WorkloadID instance);
  match err with
  | Some e => mret (zeroServer, Some e)
  | None =>
      wl ← deref workload;
      let imageID := Types.w_ImageID wl in
      mret ({| HostID := Types.NodeID instance;
               srv_ID := Types.ID instance;
               srv_TenantID := Types.TenantID instance;
               FlavorID := Types.WorkloadID instance;
               ImageID := imageID;
               Status := Types.State instance;
               Addr := Types.IPAddress instance;
               OSEXTIPSMACMacAddr := Types.MACAddress instance;
               srv_SSHIP := Types.SSHIP instance;
               srv_SSHPort := Types.SSHPort instance |}, None)
  end.

(** [http.Error(w, body, code)] *)
Definition http_Error (body : string) (code : Z) : ResponseWriter :=
  mkResponse code "text/plain; charset=utf-8" (body ++ newline)%string.

Definition returnErrorCode (httpError : Z) (messageFormat : string)
           (messageArgs : list string) : ResponseWriter :=
  let '(b, err) :=
    json_Marshal_ReturnErrorCode httpError (http_StatusText httpError)
                                 (fmt_Sprintf messageFormat messageArgs) in
  match err with
  | Some e => http_Error e StatusInternalServerError
  | None => http_Error b httpError
  end.

Definition showServerDetails (r : Request)
  : M (controller W) ResponseWriter :=
  let tenant := var r "tenant" in
  let instanceID := var r "server" in
  _ ← dumpRequest r;
  ok ← c_validateToken r;
  if negb ok then mret (returnErrorCode StatusUnauthorized "Invalid token" [])
  else
    '(instance, err) ← ds_GetInstance instanceID;
    match err with
    | Some _ =>
        mret (returnErrorCode StatusNotFound "Instance could not be found" [])
    | None =>
        i ← deref instance;
        if negb (String.eqb (Types.TenantID i) tenant) then
          mret (returnErrorCode StatusNotFound
                                "Instance does not belong to tenant" [])
        else
          '(server, err) ← instanceToServer i;
          match err with
          | Some _ =>
              mret (returnErrorCode StatusNotFound
                                    "Instance could not be found" [])
          | None =>
              let '(b, err) := json_Marshal_ComputeServer server in
              match err with
              | Some e =>
                  mret (returnErrorCode StatusInternalServerError e [])
              | None => mret (mkResponse StatusOK "application/json" b)
              end
          end
    end.

Definition deleteServer (r : Request) : M (controller W) ResponseWriter :=
  let tenant := var r "tenant" in
  let instance := var r "server" in
  _ ← dumpRequest r;
  ok ← c_validateToken r;
  if negb ok then mret (returnErrorCode StatusUnauthorized "Invalid token" [])
  else
    '(i, err) ← ds_GetInstance instance;
    match err with
    | Some _ =>
        mret (returnErrorCode StatusNotFound "Instance could not be found" [])
    | None =>
        i ← deref i;
        if negb (String.eqb (Types.TenantID i) tenant) then
          mret (returnErrorCode StatusNotFound
                                "Instance does not belong to tenant" [])
        else
          err ← c_deleteInstance instance;
          match err with
          | Some e => mret (returnErrorCode StatusInternalServerError e [])
          | None => mret (mkResponse StatusAccepted "" "")
          end
    end.

Definition instanceAction := string → M (controller W) (option error).

(** The loop of [tenantServersAction] over [servers.ServerIDs]; it
    yields the error response that ends it early, if any. *)
Fixpoint serverIDs_loop (actionFunc : instanceAction) (tenant : string)
         (ids : list string) : M (controller W) (option ResponseWriter) :=
  match ids with
  | [] => mret None
  | instanceID :: rest =>
      '(instance, err) ← ds_GetInstance instanceID;
      match err with
      | Some _ =>
          mret (Some (returnErrorCode StatusNotFound
                        "Instance %s could not be found" [instanceID]))
      | None =>
          i ← deref instance;
          if negb (String.eqb (Types.TenantID i) tenant) then
            mret (Some (returnErrorCode StatusNotFound
                          "Instance %s does not belong to tenant %s"
                          [instanceID; tenant]))
          else
            _ ← actionFunc instanceID;
            serverIDs_loop actionFunc tenant rest
      end
  end.

(** The loop over all instances of the tenant. *)
Fixpoint instances_loop (actionFunc : instanceAction) (statusFilter : string)
         (instances : list Types.Instance) : M (controller W) unit :=
  match instances with
  | [] => mret tt
  | instance :: rest =>
      _ ← (if negb (String.eqb statusFilter "")
              && negb (String.eqb (Types.State instance) statusFilter)
           then mret tt
           else _ ← actionFunc (Types.ID instance); mret tt);
      instances_loop actionFunc statusFilter rest
  end.

Definition tenantServersAction (r : Request)
  : M (controller W) ResponseWriter :=
  let tenant := var r "tenant" in
  _ ← dumpRequestBody r true;
  ok ← c_validateToken r;
  if negb ok then mret (returnErrorCode StatusUnauthorized "Invalid token" [])
  else
    let '(body, err) := Body r in
    match err with
    | Some _ =>
        mret (returnErrorCode StatusBadRequest
                              "Service cannot read Request Body" [])
    | None =>
        let '(servers, err) := json_Unmarshal_ServersAction body in
        match err with
        | Some e => mret (returnErrorCode StatusInternalServerError e [])
        | None =>
            let chosen : option (instanceAction * string) :=
              if String.eqb (Action servers) "os-start" then
                Some (c_restartInstance, Payloads.ComputeStatusStopped)
              else if String.eqb (Action servers) "os-stop" then
                Some (c_stopInstance, Payloads.ComputeStatusRunning)
              else if String.eqb (Action servers) "os-delete" then
                Some (c_deleteInstance, "")
              else None in
            match chosen with
            | None =>
                mret (returnErrorCode StatusServiceUnavailable
                                      "Unsupported action" [])
            | Some (actionFunc, statusFilter) =>
                if (0 <? Z.of_nat (length (ServerIDs servers))) then
                  early ← serverIDs_loop actionFunc tenant (ServerIDs servers);
                  match early with
                  | Some resp => mret resp
                  | None => mret (mkResponse StatusAccepted "" "")
                  end
                else
                  '(instances, err) ← ds_GetAllInstancesFromTenant tenant;
                  match err with
                  | Some _ =>
                      mret (returnErrorCode StatusNotFound
                                            "No instances for tenant" [])
                  | None =>
                      _ ← instances_loop actionFunc statusFilter instances;
                      mret (mkResponse StatusAccepted "" "")
                  end
            end
        end
    end.

Definition serverAction (r : Request) : M (controller W) ResponseWriter :=
  let tenant := var r "tenant" in
  let instance := var r "server" in
  _ ← dumpRequestBody r true;
  ok ← c_validateToken r;
  if negb ok then mret (returnErrorCode StatusUnauthorized "Invalid token" [])
  else
    '(i, err) ← ds_GetInstance instance;
    match err with
    | Some _ =>
        mret (returnErrorCode StatusNotFound "Instance could not be found" [])
    | None =>
        i ← deref i;
        if negb (String.eqb (Types.TenantID i) tenant) then
          mret (returnErrorCode StatusNotFound
                                "Instance does not belong to tenant" [])
        else
          let '(body, err) := Body r in
          match err with
          | Some _ =>
              mret (returnErrorCode StatusBadRequest
                                    "Service cannot read Request Body" [])
          | None =>
              let bodyString := body in
              let chosen :=
                if strings_Contains bodyString "os-start"
                then Some computeActionStart
                else if strings_Contains bodyString "os-stop"
                then Some computeActionStop
                else None in
              match chosen with
              | None =>
                  mret (returnErrorCode StatusServiceUnavailable
                                        "Unsupported action" [])
              | Some action =>
                  err ← match action with
                        | computeActionStart => c_restartInstance instance
                        | computeActionStop => c_stopInstance instance
                        | computeActionDelete => mret None
                        end;
                  match err with
                  | Some e =>
                      mret (returnErrorCode StatusInternalServerError e [])
                  | None => mret (mkResponse StatusAccepted "" "")
                  end
              end
          end
    end.

End Handlers.
End Compute.

(* ===================================================================== *)
(** ** testutil: the SSNTP test client (agent side)                       *)
(* ===================================================================== *)

Module Testutil.

(** [ssntp.Command], [ssntp.Event], [ssntp.Error] and [ssntp.Status] are
    operation codes ([uint8]). *)
Definition Command := N.
Definition Event := N.
Definition Error := N.
Definition Status := N.
Definition Role := N.

Record Result := mkResult {
  Err : option error;
  NodeUUID : string;
  TenantUUID : string;
  InstanceUUID : string;
  CNCI : bool;
}.
Definition zeroResult : Result := mkResult None "" "" "" false.

Record InstanceStat := mkInstanceStat {
  is_InstanceUUID : string;
  is_State : string;
  MemoryUsageMB : Z;
  DiskUsageMB : Z;
  CPUUsage : Z;
}.

(** A [chan Result] is a reference into the heap of channels.  A
    channel holds what was sent on it and whether it was closed. *)
Definition chan := nat.
Record chanState := mkChan {
  delivered : list Result;
  closed : bool;
}.

(** The four waiter tables of a client. *)
Inductive kind := KCmd | KEvent | KError | KStatus.

(** A frame handed to the SSNTP client for sending. *)
Inductive sentFrame :=
| SentError (op : Error) (payload : list byte).

(** The [ssntp] and [payloads] packages as the test client uses them;
    [T] is the state of the underlying [ssntp.Client]. *)
Class Ssntp (T : Type) := {
  StartFailure : Error;
  Command_String : Command → string;
  Event_String : Event → string;
  Error_String : Error → string;
  Status_String : Status → string;
  IsNetAgent : Role → bool;
  StartFailureReason_String : string → string;
  SendError : Error → list byte → T → option error * T;
  yaml_Unmarshal_Start : list byte → Payloads.Start * option error;
  yaml_Marshal_ErrorStartFailure : string → string → list byte * option error;
}.

(** The fields of the Go struct that the functions below touch.  The
    mutexes are left out: the operations run one after the other.  [wire]
    lists the frames handed to the SSNTP client, [stdout] the lines
    printed, [heap] and [next] are the memory the channels live in.
    The channels are unbuffered, so that a send completes only when a
    goroutine takes the value: [receivers] holds the channels on which
    one would, the channels of the callers of [Get*ChanResult] that
    wait in their [select] and have not timed out. *)
Record SsntpTestClient (T : Type) := mkClient {
  Ssntp_ : T;
  wire : list sentFrame;
  stdout : list string;
  instances : list InstanceStat;
  UUID : string;
  Role_ : Role;
  StartFail : bool;
  StartFailReason : string;
  CmdChans : gmap Command chan;
  EventChans : gmap Event chan;
  ErrorChans : gmap Error chan;
  StatusChans : gmap Status chan;
  heap : gmap chan chanState;
  next : chan;
  receivers : gset chan;
}.
Arguments mkClient {T}.
Arguments Ssntp_ {T}. Arguments wire {T}. Arguments stdout {T}.
Arguments instances {T}. Arguments UUID {T}. Arguments Role_ {T}.
Arguments StartFail {T}. Arguments StartFailReason {T}.
Arguments CmdChans {T}. Arguments EventChans {T}.
Arguments ErrorChans {T}. Arguments StatusChans {T}.
Arguments heap {T}. Arguments next {T}. Arguments receivers {T}.

(** [time.Duration] counts nanoseconds. *)
Definition Second : Z := 1000000000.

(** What a channel offers to a receiver: a value that becomes
    receivable some time after the wait began, or nothing at all. *)
Inductive arrival :=
| Arrives (after : Z) (r : Result)
| Never.

Inductive selected :=
| CaseRecv (r : Result)
| CaseAfter.

(** [select { case r = <-c: ... case <-time.After(d): ... }]: the case
    that is ready first is taken; [tie] decides when both are ready at
    the same instant. *)
Definition select_recv_after (a : arrival) (d : Z) (tie : bool) : selected :=
  match a with
  | Never => CaseAfter
  | Arrives t r =>
      if t <? d then CaseRecv r
      else if d <? t then CaseAfter
      else if tie then CaseRecv r else CaseAfter
  end.

(** How long that [select] waits. *)
Definition select_elapsed (a : arrival) (d : Z) : Z :=
  match a with
  | Never => d
  | Arrives t _ => Z.min t d
  end.

(** What a channel of the heap offers once the client is done with it:
    the value sent on it, the zero value if it was closed without a
    send, nothing if it is still open and empty. *)
Definition offers (st : option chanState) (after : Z) : arrival :=
  match st with
  | Some (mkChan (r :: _) _) => Arrives after r
  | Some (mkChan [] true) => Arrives after zeroResult
  | Some (mkChan [] false) | None => Never
  end.

Section Client.
Context {T : Type} `{Ssntp T}.

Local Abbreviation client := (SsntpTestClient T).

Definition table (k : kind) (s : client) : gmap N chan :=
  match k with
  | KCmd => CmdChans s
  | KEvent => EventChans s
  | KError => ErrorChans s
  | KStatus => StatusChans s
  end.

Definition set_table (k : kind) (m : gmap N chan) (s : client) : client :=
  match k with
  | KCmd =>
      mkClient (Ssntp_ s) (wire s) (stdout s) (instances s) (UUID s)
               (Role_ s) (StartFail s) (StartFailReason s)
               m (EventChans s) (ErrorChans s) (StatusChans s)
               (heap s) (next s) (receivers s)
  | KEvent =>
      mkClient (Ssntp_ s) (wire s) (stdout s) (instances s) (UUID s)
               (Role_ s) (StartFail s) (StartFailReason s)
               (CmdChans s) m (ErrorChans s) (StatusChans s)
               (heap s) (next s) (receivers s)
  | KError =>
      mkClient (Ssntp_ s) (wire s) (stdout s) (instances s) (UUID s)
               (Role_ s) (StartFail s) (StartFailReason s)
               (CmdChans s) (EventChans s) m (StatusChans s)
               (heap s) (next s) (receivers s)
  | KStatus =>
      mkClient (Ssntp_ s) (wire s) (stdout s) (instances s) (UUID s)
               (Role_ s) (StartFail s) (StartFailReason s)
               (CmdChans s) (EventChans s) (ErrorChans s) m
               (heap s) (next s) (receivers s)
  end.

Definition set_heap (h : gmap chan chanState) (n : chan) (s : client)
  : client :=
  mkClient (Ssntp_ s) (wire s) (stdout s) (instances s) (UUID s)
           (Role_ s) (StartFail s) (StartFailReason s)
           (CmdChans s) (EventChans s) (ErrorChans s) (StatusChans s)
           h n (receivers s).

Definition set_instances (l : list InstanceStat) (s : client) : client :=
  mkClient (Ssntp_ s) (wire s) (stdout s) l (UUID s)
           (Role_ s) (StartFail s) (StartFailReason s)
           (CmdChans s) (EventChans s) (ErrorChans s) (StatusChans s)
           (heap s) (next s) (receivers s).

Definition set_ssntp (t : T) (w : list sentFrame) (s : client) : client :=
  mkClient t w (stdout s) (instances s) (UUID s)
           (Role_ s) (StartFail s) (StartFailReason s)
           (CmdChans s) (EventChans s) (ErrorChans s) (StatusChans s)
           (heap s) (next s) (receivers s).

Definition set_stdout (o : list string) (s : client) : client :=
  mkClient (Ssntp_ s) (wire s) o (instances s) (UUID s)
           (Role_ s) (StartFail s) (StartFailReason s)
           (CmdChans s) (EventChans s) (ErrorChans s) (StatusChans s)
           (heap s) (next s) (receivers s).

(** [client.StartFail = b; client.StartFailReason = reason], as a test
    sets them. *)
Definition set_StartFail (b : bool) (reason : string) (s : client) : client :=
  mkClient (Ssntp_ s) (wire s) (stdout s) (instances s) (UUID s)
           (Role_ s) b reason
           (CmdChans s) (EventChans s) (ErrorChans s) (StatusChans s)
           (heap s) (next s) (receivers s).

Definition set_receivers (r : gset chan) (s : client) : client :=
  mkClient (Ssntp_ s) (wire s) (stdout s) (instances s) (UUID s)
           (Role_ s) (StartFail s) (StartFailReason s)
           (CmdChans s) (EventChans s) (ErrorChans s) (StatusChans s)
           (heap s) (next s) r.

(** [make(chan Result)] *)
Definition make_chan : M client chan :=
  λ s, Ret (next s,
            set_heap (<[next s := mkChan [] false]> (heap s)) (S (next s)) s).

(** [c <- result] on an unbuffered channel: sending on a closed
    channel panics; otherwise the send completes when a goroutine is
    receiving on [c], which takes the value and receives no more, and
    blocks when there is none.  A send on a nil channel blocks. *)
Definition chan_send (c : chan) (result : Result) : M client unit :=
  λ s, match heap s !! c with
       | Some st =>
           if closed st then Panic "send on closed channel"
           else if decide (c ∈ receivers s) then
             Ret (tt, set_receivers (receivers s ∖ {[c]})
                        (set_heap
                           (<[c := mkChan (delivered st ++ [result])
                                          (closed st)]> (heap s))
                           (next s) s))
           else Blocked
       | None => Blocked
       end.

(** [close(c)]: closing a closed channel panics. *)
Definition chan_close (c : chan) : M client unit :=
  λ s, match heap s !! c with
       | Some st =>
           if closed st then Panic "close of closed channel"
           else Ret (tt, set_heap (<[c := mkChan (delivered st) true]> (heap s))
                           (next s) s)
       | None => Panic "close of nil channel"
       end.

(** [Add{Cmd,Event,Error,Status}Chan] *)
Definition AddChan (k : kind) (op : N) : M client chan :=
  c ← make_chan;
  _ ← modify (λ s, set_table k (<[op := c]> (table k s)) s);
  mret c.

Definition AddCmdChan := AddChan KCmd.
Definition AddEventChan := AddChan KEvent.
Definition AddErrorChan := AddChan KError.
Definition AddStatusChan := AddChan KStatus.

(** [SendResultAndDel{Cmd,Event,Error,Status}Chan] *)
Definition SendResultAndDelChan (k : kind) (op : N) (result : Result)
  : M client unit :=
  s ← get;
  match table k s !! op with
  | Some c =>
      _ ← modify (λ s, set_table k (delete op (table k s)) s);
      _ ← chan_send c result;
      chan_close c
  | None => mret tt
  end.

Definition SendResultAndDelEventChan := SendResultAndDelChan KEvent.
Definition SendResultAndDelErrorChan := SendResultAndDelChan KError.
Definition SendResultAndDelStatusChan := SendResultAndDelChan KStatus.

(** The timeout of the wait on each table and the words of its error
    messages. *)
Definition timeout (k : kind) : Z :=
  match k with
  | KCmd => 5 * Second
  | KEvent => 20 * Second
  | KError => 20 * Second
  | KStatus => 5 * Second
  end.

Definition noun (k : kind) : string :=
  match k with
  | KCmd => "command"
  | KEvent => "event"
  | KError => "error"
  | KStatus => "status"
  end.

Definition op_String (k : kind) (op : N) : string :=
  match k with
  | KCmd => Command_String op
  | KEvent => Event_String op
  | KError => Error_String op
  | KStatus => Status_String op
  end.

Definition timeout_error (k : kind) (op : N) : error :=
  ("Timeout waiting for client " ++ op_String k op ++ " " ++ noun k
   ++ " result" ++ newline)%string.

Definition client_error (k : kind) (op : N) (e : error) : error :=
  ("Client error sending " ++ op_String k op ++ " " ++ noun k ++ ": "
   ++ e ++ newline)%string.

(** [Get{Cmd,Event,Error,Status}ChanResult]: the channel enters
    through what it offers. *)
Definition GetChanResult (k : kind) (c : arrival) (tie : bool) (op : N)
  : Result * option error :=
  match select_recv_after c (timeout k) tie with
  | CaseRecv result =>
      match Err result with
      | Some e => (result, Some (client_error k op e))
      | None => (result, None)
      end
  | CaseAfter => (zeroResult, Some (timeout_error k op))
  end.

(** The caller of [Get*ChanResult] on [c] enters its [select] ... *)
Definition select_enter (c : chan) : M client unit :=
  modify (λ s, set_receivers ({[c]} ∪ receivers s) s).

(** ... and leaves it when the timeout fires; the entry of the table
    stays. *)
Definition select_timeout (c : chan) : M client unit :=
  modify (λ s, set_receivers (receivers s ∖ {[c]}) s).

Definition GetCmdChanResult := GetChanResult KCmd.
Definition GetEventChanResult := GetChanResult KEvent.
Definition GetErrorChanResult := GetChanResult KError.
Definition GetStatusChanResult := GetChanResult KStatus.

Definition openClientChans (s : client) : client :=
  set_table KStatus ∅ (set_table KError ∅ (set_table KEvent ∅
    (set_table KCmd ∅ s))).

(** One loop of [closeClientChans]: close and delete every entry. *)
Fixpoint close_entries (k : kind) (l : list (N * chan)) : M client unit :=
  match l with
  | [] => mret tt
  | (op, c) :: l' =>
      _ ← chan_close c;
      _ ← modify (λ s, set_table k (delete op (table k s)) s);
      close_entries k l'
  end.

Definition close_table (k : kind) : M client unit :=
  s ← get; close_entries k (map_to_list (table k s)).

Definition closeClientChans : M client unit :=
  _ ← close_table KCmd;
  _ ← close_table KEvent;
  _ ← close_table KError;
  close_table KStatus.

Definition ssntp_SendError (op : Error) (payload : list byte)
  : M client (option error) :=
  λ s, let '(err, t) := SendError op payload (Ssntp_ s) in
       Ret (err, set_ssntp t (wire s ++ [SentError op payload]) s).

Definition println (l : string) : M client unit :=
  modify (λ s, set_stdout (stdout s ++ [l]) s).

Definition sendStartFailure (instanceUUID : string) (reason : string)
  : M client unit :=
  let '(y, err) := yaml_Marshal_ErrorStartFailure instanceUUID reason in
  match err with
  | Some _ => mret tt
  | None =>
      err ← ssntp_SendError StartFailure y;
      match err with
      | Some e => println e
      | None => mret tt
      end
  end.

Definition handleStart `{Payloads.Consts} (payload : list byte)
  : M client Result :=
  let '(cmd, err) := yaml_Unmarshal_Start payload in
  match err with
  | Some e => mret (mkResult (Some e) "" "" "" false)
  | None =>
      s ← get;
      let start := Payloads.Start_ cmd in
      let result :=
        mkResult None (UUID s) (Payloads.TenantUUID start)
                 (Payloads.InstanceUUID start) (IsNetAgent (Role_ s)) in
      if StartFail s then
        let result :=
          mkResult (Some (StartFailureReason_String (StartFailReason s)))
                   (NodeUUID result) (TenantUUID result)
                   (InstanceUUID result) (CNCI result) in
        _ ← sendStartFailure (Payloads.InstanceUUID start)
                             (StartFailReason s);
        _ ← SendResultAndDelErrorChan StartFailure result;
        mret result
      else
        let istat :=
          mkInstanceStat (Payloads.InstanceUUID start) Payloads.Running
                         0 0 0 in
        _ ← modify (λ s, set_instances (instances s ++ [istat]) s);
        mret result
  end.

End Client.
End Testutil.

(** Reference instances of the web and SSNTP libraries. *)
Module RefLibs.

(** Words of a line, separated by single spaces. *)
Fixpoint words_aux (s : string) (cur : string) : list string :=
  match s with
  | EmptyString => [cur]
  | String a s' =>
      if Ascii.eqb a " "%char then cur :: words_aux s' ""
      else words_aux s' (cur ++ String a EmptyString)%string
  end.
Definition words (s : string) : list string := words_aux s "".

(** [fmt.Sprintf] on string arguments: the verbs s and v print the
    argument, a doubled percent sign prints one, flags, width and
    precision are read over; a verb that finds no argument is reported
    as MISSING, another verb as a bad verb, arguments left over as
    EXTRA. *)
Definition is_flag (c : ascii) : bool :=
  let n := nat_of_ascii c in
  (n =? 32)%nat || (n =? 35)%nat || (n =? 43)%nat || (n =? 45)%nat
  || (n =? 46)%nat || ((48 <=? n)%nat && (n <=? 57)%nat).

Definition extra (args : list string) : string :=
  match args with
  | [] => ""
  | _ => ("%!(EXTRA " ++ Ref.join ", " ((λ a, "string=" ++ a) <$> args)
          ++ ")")%string
  end.

Fixpoint sprintf (in_verb : bool) (format : string) (args : list string)
  : string :=
  match format with
  | EmptyString =>
      ((if in_verb then "%!(NOVERB)" else "") ++ extra args)%string
  | String c rest =>
      if in_verb then
        if is_flag c then sprintf true rest args
        else if Ascii.eqb c "%" then String c (sprintf false rest args)
        else
          match args with
          | [] =>
              ("%!" ++ String c "(MISSING)" ++ sprintf false rest [])%string
          | a :: args' =>
              ((if Ascii.eqb c "s" || Ascii.eqb c "v" then a
                else "%!" ++ String c ("(string=" ++ a ++ ")"))
               ++ sprintf false rest args')%string
          end
      else if Ascii.eqb c "%" then sprintf true rest args
      else String c (sprintf false rest args)
  end.

(** A stand-in for JSON: an action request is the action followed by
    the server identifiers. *)
Global Instance web : Compute.WebLib := {|
  Compute.fmt_Sprintf := sprintf false;
  Compute.http_StatusText code :=
    if code =? 401 then "Unauthorized"
    else if code =? 404 then "Not Found"
    else if code =? 400 then "Bad Request"
    else if code =? 500 then "Internal Server Error"
    else if code =? 503 then "Service Unavailable"
    else "";
  Compute.json_Marshal_ReturnErrorCode code name message :=
    (("{" ++ name ++ ": " ++ message ++ "}")%string, None);
  Compute.json_Marshal_ComputeServer srv :=
    (("{server: " ++ Compute.srv_ID srv ++ "}")%string, None);
  Compute.json_Unmarshal_ServersAction body :=
    match words body with
    | a :: ids =>
        if String.eqb a "" then (Compute.Build_CiaoServersAction "" [],
                                 Some "unexpected end of JSON input")
        else (Compute.Build_CiaoServersAction a ids, None)
    | [] => (Compute.Build_CiaoServersAction "" [],
             Some "unexpected end of JSON input")
    end;
  Compute.json_Marshal_ReturnErrorCode_ok := λ _ _ _, eq_refl;
|}.

(** Modelled from the spec: the SSNTP transport of §4.1, which is not
    part of the sources at hand.  Its state says whether the connection
    was closed; a write after close fails with ConnectionClosed.  The
    payload codecs are stand-ins: a Start payload is the instance UUID,
    and the empty payload does not parse. *)
Global Instance ssntp : Testutil.Ssntp bool := {|
  Testutil.StartFailure := 1%N;
  Testutil.Command_String op := if (op =? 0)%N then "START" else "CMD";
  Testutil.Event_String op := "EVENT";
  Testutil.Error_String op := if (op =? 1)%N then "StartFailure" else "ERROR";
  Testutil.Status_String op := "STATUS";
  Testutil.IsNetAgent role := (role =? 2)%N;
  Testutil.StartFailureReason_String reason := reason;
  Testutil.SendError op payload (closed : bool) :=
    if closed then (Some "ConnectionClosed", closed) else (None, closed);
  Testutil.yaml_Unmarshal_Start payload :=
    match payload with
    | [] => (Controller.zeroStart, Some "yaml: empty document")
    | _ =>
        (Payloads.Build_Start
           (Payloads.Build_StartCmd
              "tenant" (string_of_list_byte payload) "" "" "" "" "" []
              Controller.zeroNetworking Controller.zeroStorage), None)
    end;
  Testutil.yaml_Marshal_ErrorStartFailure instanceUUID reason :=
    (list_byte_of_string (instanceUUID ++ ": " ++ reason)%string, None);
|}.

Definition newClient (uuid : string) : Testutil.SsntpTestClient bool :=
  Testutil.openClientChans
    (Testutil.mkClient false [] [] [] uuid 1%N false "" ∅ ∅ ∅ ∅ ∅ 0%nat ∅).

End RefLibs.


(** Concrete tenants, instances and requests to run the code on. *)
Module Scenario.
Import Controller.

Definition quota : list Types.Resource :=
  [ Types.Build_Resource "instances" 1 3 2;
    Types.Build_Resource "mem_mb" 2 1024 512 ].

Definition tenant1 : Types.Tenant :=
  Types.Build_Tenant "cnci-1" "02:00:ac:10:00:01" "192.168.0.2" quota.

(** 172.16.0.2 and 172.16.0.3 *)
Definition addr2 : Net.IP := [xac; x10; x00; x02].
Definition addr3 : Net.IP := [xac; x10; x00; x03].

Definition vmWorkload : Types.Workload :=
  Types.Build_Workload "wl-vm" "legacy" "qemu" "image-1" "" "#cloud-config"
    [ Payloads.Build_RequestedResource "vcpus" 2 false;
      Payloads.Build_RequestedResource "mem_mb" 512 false ]
    None.

Definition cnciWorkload : Types.Workload :=
  Types.Build_Workload "wl-cnci" "legacy" "qemu" "image-cnci" "" "#cloud-config"
    [ Payloads.Build_RequestedResource "vcpus" 1 false;
      Payloads.Build_RequestedResource "network_node" 1 false ]
    None.

Definition mkVM (id tenantID ip : string) (mem : Z) : instance :=
  mkInstance
    {| Types.ID := id; Types.TenantID := tenantID; Types.State := "pending";
       Types.WorkloadID := "wl-vm"; Types.NodeID := "";
       Types.MACAddress := "02:00:ac:10:00:02"; Types.IPAddress := ip;
       Types.SSHIP := ""; Types.SSHPort := 0; Types.CNCI := false;
       Types.i_Usage := {[ "mem_mb" := mem ]} |}
    zeroConfig 0.

(** An instance of tenant t1 that asks for all the memory that is left,
    and one that asks for one unit more. *)
Definition vm1 : instance := mkVM "i1" "t1" "172.16.0.2" 512.
Definition vm1_over : instance := mkVM "i1" "t1" "172.16.0.2" 513.

(** A new instance of tenant t1 that is not yet persisted. *)
Definition vm2 : instance := mkVM "i2" "t1" "172.16.0.3" 256.

Definition cnci1 : instance :=
  mkInstance
    {| Types.ID := "c1"; Types.TenantID := "t1"; Types.State := "pending";
       Types.WorkloadID := "wl-cnci"; Types.NodeID := "";
       Types.MACAddress := "02:00:ac:10:00:01"; Types.IPAddress := "";
       Types.SSHIP := ""; Types.SSHPort := 0; Types.CNCI := true;
       Types.i_Usage := ∅ |}
    zeroConfig 0.

(** Tenant t1 holds instance i1 on 172.16.0.2; 172.16.0.3 is free. *)
Definition store1 (failing : bool) : Ref.store :=
  Ref.mkStore
    {[ "t1" := tenant1 ]}
    {[ "i1" := Instance vm1 ]}
    {[ "wl-vm" := vmWorkload; "wl-cnci" := cnciWorkload ]}
    ∅
    {[ "t1" := [addr3] ]}
    {[ "t1" := [addr2] ]}
    [] 0 [("token-t1", "t1"); ("token-t2", "t2")] ["token-admin"] []
    failing.

Definition ctl1 : controller Ref.store := Ref.start (store1 false).
Definition ctl1_failing : controller Ref.store := Ref.start (store1 true).

End Scenario.

(** Sequences of operations on a test client. *)
Module Traces.
Import Testutil.

Global Instance kind_eq_dec : EqDecision kind.
Proof. solve_decision. Defined.

(** What is done with a client: register a waiter, resolve a key, handle
    a Start command with the failure switch set as given, shut the client
    down; and what the callers of [Get*ChanResult] do: wait on a channel,
    give up at the timeout. *)
Inductive op :=
| OpAdd (k : kind) (key : N)
| OpResolve (k : kind) (key : N) (result : Result)
| OpStart (fail : bool) (reason : string) (payload : list byte)
| OpClose
| OpSelect (c : chan)
| OpTimeout (c : chan).

Section WithSsntp.
Context {T : Type} `{Ssntp T} `{Payloads.Consts}.

Definition step (o : op) : M (SsntpTestClient T) unit :=
  match o with
  | OpAdd k key => _ ← AddChan k key; mret tt
  | OpResolve k key result => SendResultAndDelChan k key result
  | OpStart fail reason payload =>
      _ ← modify (set_StartFail fail reason);
      _ ← handleStart payload;
      mret tt
  | OpClose => closeClientChans
  | OpSelect c => select_enter c
  | OpTimeout c => select_timeout c
  end.

Fixpoint run_ops (l : list op) : M (SsntpTestClient T) unit :=
  match l with
  | [] => mret tt
  | o :: l' => _ ← step o; run_ops l'
  end.


End WithSsntp.
End Traces.

(** A test agent, a registered waiter and a batch of Start commands. *)
Module AgentScenario.
Import Testutil Traces.

Definition START : Command := 0%N.

Definition agent : SsntpTestClient bool := RefLibs.newClient "agent-1".

Definition after {A} (m : M (SsntpTestClient bool) A)
           (s : SsntpTestClient bool) : SsntpTestClient bool :=
  match m s with
  | Ret (_, s') => s'
  | Panic _ | Blocked => s
  end.

(** The agent with one waiter on START (channel 0), who has not begun
    to receive ... *)
Definition waiting : SsntpTestClient bool := after (AddCmdChan START) agent.



(** The agent set to fail, with a waiter on StartFailure that is
    receiving. *)
Definition failing : SsntpTestClient bool :=
  set_StartFail true "full_cloud"
    (after (select_enter 0%nat) (after (AddErrorChan StartFailure) agent)).

Definition result1 : Result := mkResult None "agent-1" "tenant" "i1" false.


End AgentScenario.

(** Requests of tenant t2 that name instance i1 of tenant t1. *)
Module RequestScenario.
Import Compute.

Definition request (token : string) (tenant server body : string) : Request :=
  mkRequest {[ "tenant" := tenant; "server" := server ]}
            {[ "X-Auth-Token" := [token] ]}
            (body, None).

(** A valid token of tenant t2 ... *)
Definition foreign : Request := request "token-t2" "t2" "i1" "os-stop".
(** ... a token that validates for nothing ... *)
Definition intruder : Request := request "bogus" "t2" "i1" "os-stop".
(** ... and an action request on a list of servers. *)
Definition foreign_list : Request := request "token-t2" "t2" "" "os-stop i1".

End RequestScenario.

(* ===================================================================== *)
(** ** The vocabulary of the properties                                   *)
(* ===================================================================== *)

Module ControllerSpec.
Import Controller.

(** The quantity of a resource that an instance asks for. *)
Definition requested (i : instance) (res : Types.Resource) : Z :=
  default 0 (Types.i_Usage (Instance i) !! Types.Rname res).

(** The admission condition of the specification for one resource. *)
Definition within_quota (i : instance) (res : Types.Resource) : Prop :=
  if Types.Rtype res =? 1
  then Types.Usage res + 1 ≤ Types.Limit res
  else requested i res ≤ Types.Limit res - Types.Usage res.

(** A resource whose quota the request uses up exactly. *)
Definition at_boundary (i : instance) (res : Types.Resource) : Prop :=
  if Types.Rtype res =? 1
  then Types.Usage res + 1 = Types.Limit res
  else requested i res = Types.Limit res - Types.Usage res.

End ControllerSpec.

Module TestutilSpec.
Import Testutil Traces.

Section WithSsntp.
Context {T : Type} `{Ssntp T} `{Payloads.Consts}.
Local Abbreviation client := (SsntpTestClient T).

(** The state of the waiter tables that every operation keeps (and that
    every reachable state therefore has): a registered channel is open and
    empty, no channel is registered twice, and no channel ever holds more
    than one result. *)
Record Inv (s : client) : Prop := mkInv {
  inv_table : ∀ k key c,
    table k s !! key = Some c → heap s !! c = Some (mkChan [] false);
  inv_inj : ∀ k1 key1 k2 key2 c,
    table k1 s !! key1 = Some c → table k2 s !! key2 = Some c →
    k1 = k2 ∧ key1 = key2;
  inv_heap : ∀ c st,
    heap s !! c = Some st →
    (c < next s)%nat ∧ (length (delivered st) ≤ 1)%nat;
}.

(** A channel that no table refers to and that is open and empty. *)
Definition Orphan (c0 : chan) (s : client) : Prop :=
  heap s !! c0 = Some (mkChan [] false)
  ∧ ∀ k key, table k s !! key ≠ Some c0.

(** An operation that returns, keeps the invariant and leaves the
    orphans alone. *)
Definition safe (m : M client unit) (s : client) : Prop :=
  ∃ s', m s = Ret (tt, s') ∧ Inv s' ∧ ∀ c0, Orphan c0 s → Orphan c0 s'.

(** An operation that does not panic: it blocks, or it returns, keeps
    the invariant and leaves the orphans alone. *)
Definition sound {A} (m : M client A) (s : client) : Prop :=
  match m s with
  | Ret (_, s') => Inv s' ∧ ∀ c0, Orphan c0 s → Orphan c0 s'
  | Panic _ => False
  | Blocked => True
  end.

(** The waiter registered for [key], if there is one, is receiving on
    its channel. *)
Definition ready (k : kind) (key : N) (s : client) : Prop :=
  ∀ c, table k s !! key = Some c → c ∈ receivers s.

(** What the agent prints after it handed a frame to the SSNTP client:
    the error of the transport, if it gave one. *)
Definition complaint (err : option error) : list string :=
  match err with
  | Some e => [e]
  | None => []
  end.

(** The states a client goes through once its tables are opened. *)
Definition reachable (s : client) : Prop :=
  ∃ (s0 : client) (ops : list op),
    heap s0 = ∅ ∧ run_ops ops (openClientChans s0) = Ret (tt, s).

(** Two clients with the same waiter tables, channels and receivers. *)
Definition same_chans (s s' : client) : Prop :=
  (∀ k, table k s' = table k s) ∧ heap s' = heap s ∧ next s' = next s
  ∧ receivers s' = receivers s.

(** The entry that a started instance gets in the active set. *)
Definition running (payload : list byte) : InstanceStat :=
  mkInstanceStat
    (Payloads.InstanceUUID (Payloads.Start_ (yaml_Unmarshal_Start payload).1))
    Payloads.Running 0 0 0.

(** The entries that a batch adds to the active set: one for each
    command handled with the failure switch off. *)
Fixpoint started (l : list (bool * string * list byte))
  : list InstanceStat :=
  match l with
  | [] => []
  | (fail, _, payload) :: l' =>
      if fail then started l' else running payload :: started l'
  end.

End WithSsntp.
End TestutilSpec.

Module ComputeSpec.
Import Compute.

(** A lifecycle operation on the instance [id]. *)
Definition lifecycle_on (id : string) (c : Call) : Prop :=
  c = CrestartInstance id ∨ c = CstopInstance id ∨ c = CdeleteInstance id.

Section WithBackend.
Context {W : Type} `{Backend W} `{GoLib} `{Payloads.Consts} `{WebLib}.

(** The request passes token validation and names an instance that
    exists and belongs to another tenant. *)
Definition foreign_instance (r : Request) (id : string) (w : W)
           (i : Types.Instance) : Prop :=
  validateToken w r = Ret true
  ∧ GetInstance id w = (Some i, None)
  ∧ Types.TenantID i ≠ var r "tenant".

(** What the handlers for one named instance do then. *)
Definition refused (h : Request → M (controller W) ResponseWriter)
           (r : Request) (c : controller W) : Prop :=
  h r c
  = Ret (returnErrorCode StatusNotFound "Instance does not belong to tenant" [],
         mkController (world c)
                      (calls c ++ [CGetInstance (var r "server")])
                      (logs c) (uuids c) (clock c)).

Definition is_lifecycle (a : instanceAction) : Prop :=
  a = c_restartInstance ∨ a = c_stopInstance ∨ a = c_deleteInstance.

(** The datastore does not answer a lookup with neither a record nor
    an error. *)
Definition record_or_error : Prop :=
  ∀ id (w : W), (GetInstance id w).1 = None → (GetInstance id w).2 ≠ None.

(** A lifecycle operation on one instance leaves the record of
    another instance as it is. *)
Definition lifecycle_isolated (id : string) : Prop :=
  ∀ id' (w : W),
    id' ≠ id →
    GetInstance id (restartInstance id' w).2 = GetInstance id w
    ∧ GetInstance id (stopInstance id' w).2 = GetInstance id w
    ∧ GetInstance id (deleteInstance id' w).2 = GetInstance id w.

End WithBackend.
End ComputeSpec.

(* ===================================================================== *)
(** ** More environments and vocabulary                                   *)
(* ===================================================================== *)

(** A datastore that knows nothing: a lookup finds neither a record nor
    an error (what [listTenantQuotas] expects of [GetTenant] for a tenant
    it has not seen), allocation hands out 172.16.0.9, block devices are
    created under the name "vol-1", and [AddBlockDevice] fails when
    [add_fails] is set. *)
Module Stub.

Definition backend_of (tenant : option Types.Tenant) (add_fails : bool)
  : Backend unit := {|
  GetTenant _ _ := (tenant, None);
  GetInstance _ _ := (None, None);
  GetWorkload _ _ := (None, None);
  GetAllInstancesFromTenant _ _ := ([], None);
  AddInstance _ w := (None, w);
  AddTenantCNCI _ _ _ w := (None, w);
  AllocateTenantIP _ w := (([xac; x10; x00; x09], None), w);
  ReleaseTenantIP _ _ w := (None, w);
  AddBlockDevice _ w := (if add_fails then Some "disk full" else None, w);
  CreateBlockDevice _ _ w := ((Types.Build_BlockDevice "vol-1", None), w);
  DeleteBlockDevice _ w := (None, w);
  validateService _ _ _ _ _ := false;
  validateProjectRole _ _ _ _ := false;
  restartInstance _ w := (None, w);
  stopInstance _ w := (None, w);
  deleteInstance _ w := (None, w);
|}.

Definition backend : bool → Backend unit := backend_of None.

Definition known : bool → Backend unit :=
  backend_of (Some (Types.Build_Tenant "cnci-0" "02:00:ac:10:00:00"
                                      "192.168.0.1" [])).

Definition start : controller unit := mkController tt [] [] 0 0.

End Stub.

Module ControllerMore.
Import Controller.

(** The requests of a workload for one resource, in order. *)
Definition requests_for (name : string) (rr : list Payloads.RequestedResource)
  : list Payloads.RequestedResource :=
  filter (λ r, Payloads.Type_ r = name) rr.

(** A workload with a disk to create, one with an existing disk. *)
Definition diskWorkload (id : string) : Types.Workload :=
  Types.Build_Workload "wl-disk" "legacy" "qemu" "image-1" "" "#cloud-config"
    [ Payloads.Build_RequestedResource "vcpus" 2 false ]
    (Some (Types.Build_StorageResource id true 20)).

(** Instance i1 of [Scenario], asking in addition for a resource that
    tenant t1 has no quota for. *)
Definition vm1_disk : instance :=
  mkInstance
    {| Types.ID := "i1"; Types.TenantID := "t1"; Types.State := "pending";
       Types.WorkloadID := "wl-vm"; Types.NodeID := "";
       Types.MACAddress := "02:00:ac:10:00:02"; Types.IPAddress := "172.16.0.2";
       Types.SSHIP := ""; Types.SSHPort := 0; Types.CNCI := false;
       Types.i_Usage := {[ "mem_mb" := 512; "disk_mb" := 1000000 ]} |}
    zeroConfig 0.

(** A tenant without quota lines, and a datastore that holds it. *)
Definition tenant0 : Types.Tenant :=
  Types.Build_Tenant "cnci-0" "02:00:ac:10:00:00" "192.168.0.1" [].

Definition store0 : Ref.store :=
  Ref.mkStore {[ "t1" := tenant0 ]} ∅ ∅ ∅ {[ "t1" := [Scenario.addr3] ]} ∅
              [] 0 [] [] [] false.

End ControllerMore.

Module ComputeMore.
Import Compute.

(** The lifecycle call that the action of a request on a list of
    servers makes for one instance. *)
Definition action_call (action id : string) : Call :=
  if String.eqb action "os-start" then CrestartInstance id
  else if String.eqb action "os-stop" then CstopInstance id
  else CdeleteInstance id.

Definition supported (action : string) : Prop :=
  action ∈ ["os-start"; "os-stop"; "os-delete"].

(** The calls of the loop over a list of servers for the servers it
    acts on: a lookup and the lifecycle call, for each in turn. *)
Definition visits (action : string) (ids : list string) : list Call :=
  ids ≫= λ id, [CGetInstance id; action_call action id].

Section WithBackend.
Context {W : Type} `{Backend W} `{GoLib} `{Payloads.Consts} `{WebLib}.

(** The state an instance must be in for the action to apply to it
    when no server is named; empty when every instance is taken. *)
Definition action_filter (action : string) : string :=
  if String.eqb action "os-start" then Payloads.ComputeStatusStopped
  else if String.eqb action "os-stop" then Payloads.ComputeStatusRunning
  else "".

Definition selected (action : string) (i : Types.Instance) : Prop :=
  action_filter action = "" ∨ Types.State i = action_filter action.

#[global] Instance selected_dec action i : Decision (selected action i).
Proof. unfold selected. apply _. Defined.

(** The instance [id] exists and belongs to [tenant]. *)
Definition owned (tenant : string) (w : W) (id : string) : Prop :=
  ∃ i, GetInstance id w = (Some i, None) ∧ Types.TenantID i = tenant.

(** The lookup of [id] fails, or finds an instance of another tenant. *)
Definition turned_away (tenant : string) (w : W) (id : string) : Prop :=
  (∃ oi e, GetInstance id w = (oi, Some e))
  ∨ (∃ i, GetInstance id w = (Some i, None) ∧ Types.TenantID i ≠ tenant).

(** The record that [instanceToServer] builds for an instance and its
    workload. *)
Definition server_of (i : Types.Instance) (wl : Types.Workload) : Server :=
  {| HostID := Types.NodeID i;
     srv_ID := Types.ID i;
     srv_TenantID := Types.TenantID i;
     FlavorID := Types.WorkloadID i;
     ImageID := Types.w_ImageID wl;
     Status := Types.State i;
     Addr := Types.IPAddress i;
     OSEXTIPSMACMacAddr := Types.MACAddress i;
     srv_SSHIP := Types.SSHIP i;
     srv_SSHPort := Types.SSHPort i |}.

(** The answer of a handler after the lifecycle call it made. *)
Definition answer (err : option error) : ResponseWriter :=
  match err with
  | Some e => returnErrorCode StatusInternalServerError e []
  | None => mkResponse StatusAccepted "" ""
  end.

(** The controller after a handler made the calls [l] and left the
    collaborators in [w]. *)
Definition called (c : controller W) (w : W) (l : list Call) : controller W :=
  mkController w (calls c ++ l) (logs c) (uuids c) (clock c).

(** The lifecycle operation of an action, on the collaborators and as
    the handler calls it. *)
Definition action_op (action id : string) (w : W) : option error * W :=
  if String.eqb action "os-start" then restartInstance id w
  else if String.eqb action "os-stop" then stopInstance id w
  else deleteInstance id w.

Definition action_fn (action : string) : instanceAction :=
  if String.eqb action "os-start" then c_restartInstance
  else if String.eqb action "os-stop" then c_stopInstance
  else c_deleteInstance.

(** The collaborators after the operation was made on [ids] in turn. *)
Definition apply_all (action : string) (ids : list string) (w : W) : W :=
  foldl (λ w id, (action_op action id w).2) w ids.

End WithBackend.

Import Scenario RequestScenario.

(** Tenant t1 with a pending, a running and a stopped instance. *)
Definition vm_in (id state : string) : Types.Instance :=
  {| Types.ID := id; Types.TenantID := "t1"; Types.State := state;
     Types.WorkloadID := "wl-vm"; Types.NodeID := "node-1";
     Types.MACAddress := "02:00:ac:10:00:02"; Types.IPAddress := "172.16.0.2";
     Types.SSHIP := ""; Types.SSHPort := 0; Types.CNCI := false;
     Types.i_Usage := ∅ |}.

Definition store3 : Ref.store :=
  Ref.mkStore
    {[ "t1" := tenant1 ]}
    {[ "i1" := vm_in "i1" "pending"; "i3" := vm_in "i3" "active";
       "i4" := vm_in "i4" "exited";
       "j1" := Types.Build_Instance "j1" "t2" "active" "wl-vm" "" "" "" "" 0
                                    false ∅ ]}
    {[ "wl-vm" := vmWorkload ]}
    ∅ ∅ ∅ [] 0 [("token-t1", "t1"); ("token-t2", "t2")] ["token-admin"] []
    false.

Definition ctl3 : controller Ref.store := Ref.start store3.

End ComputeMore.

(* ===================================================================== *)
(** ** The pagers of the compute API                                      *)
(* ===================================================================== *)

Module Pager.
Import Compute.

(** Code that returns or panics, without a state. *)
#[global] Instance outcome_ret : MRet outcome := λ A (a : A), Ret a.
#[global] Instance outcome_bind : MBind outcome :=
  λ A B (f : A → outcome B) (m : outcome A),
    match m with
    | Ret a => f a
    | Panic msg => Panic msg
    | Blocked => Blocked
    end.

Definition lift {S A} (o : outcome A) : M S A :=
  λ s, match o with
       | Ret a => Ret (a, s)
       | Panic msg => Panic msg
       | Blocked => Blocked
       end.

(** A Go slice as the pagers tell it apart: nil, or a list. *)
Definition slice (A : Type) : Type := option (list A).

Definition len {A} (s : slice A) : Z := Z.of_nat (length (default [] s)).

(** [l[lo:]]; a bound out of range panics. *)
Definition from {A} (l : list A) (lo : Z) : outcome (list A) :=
  if (lo <? 0) || (Z.of_nat (length l) <? lo)
  then Panic "slice bounds out of range"
  else Ret (drop (Z.to_nat lo) l).

(** [pagerFilterType], a [uint8]. *)
Definition pagerFilterType := N.
Definition none : pagerFilterType := 0%N.
Definition workloadFilter : pagerFilterType := 1%N.
Definition statusFilter : pagerFilterType := 2%N.

(** [strconv.ParseInt(s, 10, 32)], and the two payload types of which
    the pagers read the ID only. *)
Class PagerLib := {
  strconv_ParseInt : string → Z * option error;
  CiaoComputeNode : Type;
  node_ID : CiaoComputeNode → string;
  CiaoServerStats : Type;
  stats_ID : CiaoServerStats → string;
}.

(** The documents the pagers fill in, with the fields they set. *)
Record CiaoComputeNodes `{PagerLib} := {
  Nodes : list CiaoComputeNode;
}.

Record CiaoServersStats `{PagerLib} := {
  ss_TotalServers : Z;
  ss_Servers : list CiaoServerStats;
}.

Record ComputeServers := {
  cs_TotalServers : Z;
  cs_Servers : list Server;
}.

(** The constructors of the documents in package payloads and
    [json.Marshal] on them. *)
Class PagerJSON `{PagerLib} := {
  NewCiaoComputeNodes : CiaoComputeNodes;
  NewCiaoServersStats : CiaoServersStats;
  NewComputeServers : ComputeServers;
  json_Marshal_ComputeNodes : CiaoComputeNodes → string * option error;
  json_Marshal_ServersStats : CiaoServersStats → string * option error;
  json_Marshal_ComputeServers : ComputeServers → string * option error;
}.

(** The end of a pager function: [b, err := json.Marshal(v)], then
    [nil, err] on an error and [b, nil] otherwise. *)
Definition marshalled (r : string * option error)
  : option string * option error :=
  match r.2 with
  | Some e => (None, Some e)
  | None => (Some r.1, None)
  end.

(** The index of the first item whose ID is [lastSeen], as the loops of
    [nextPage] find it. *)
Fixpoint marker_index {A} (ID : A → string) (lastSeen : string)
         (items : list A) (i : Z) : option Z :=
  match items with
  | [] => None
  | item :: rest =>
      if String.eqb (ID item) lastSeen then Some i
      else marker_index ID lastSeen rest (i + 1)
  end.

Section Pagers.
Context `{PagerJSON}.

(** [values] is [r.URL.Query()]. *)
Definition pagerQueryParse (values : gmap string (list string))
  : outcome (Z * Z * string) :=
  limit ← match values !! "limit" with
          | Some v =>
              s ← first_token v;
              let '(l, err) := strconv_ParseInt s in
              mret (match err with Some _ => 0 | None => l end)
          | None => mret 0
          end;
  match values !! "marker" with
  | Some v =>
      marker ← first_token v;
      mret (limit, 0, marker)
  | None =>
      match values !! "offset" with
      | Some v =>
          s ← first_token v;
          let '(o, err) := strconv_ParseInt s in
          mret (limit, match err with Some _ => 0 | None => o end, "")
      | None => mret (limit, 0, "")
      end
  end.

(** The choice that the three [nextPage] functions make between a page
    by offset and a page after the marker; [getPage] is the page
    function of the pager, which for servers calls on the datastore. *)
Definition nextPage_with {S A} (ID : A → string)
           (getPage : slice A → Z → Z → M S (option string * option error))
           (items : slice A) (values : gmap string (list string))
  : M S (option string * option error) :=
  '(limit, offset, lastSeen) ← lift (pagerQueryParse values);
  if String.eqb lastSeen "" then
    if negb (limit =? 0) then getPage items limit offset
    else getPage items 0 offset
  else
    match marker_index ID lastSeen (default [] items) 0 with
    | Some i =>
        if len items - 1 <=? i then getPage None limit 0
        else
          tail ← lift (from (default [] items) (i + 1));
          getPage (Some tail) limit 0
    | None => mret (None, Some ("Item " ++ lastSeen ++ " not found")%string)
    end.

End Pagers.

Module nodePager.
Section WithLib.
Context `{PagerJSON}.

Fixpoint getNodes_loop (limit : Z) (nodes : list CiaoComputeNode)
         (computeNodes : CiaoComputeNodes) (pageLength : Z)
  : CiaoComputeNodes :=
  match nodes with
  | [] => computeNodes
  | node :: rest =>
      let computeNodes := {| Nodes := Nodes computeNodes ++ [node] |} in
      let pageLength := pageLength + 1 in
      if (0 <? limit) && (limit <=? pageLength) then computeNodes
      else getNodes_loop limit rest computeNodes pageLength
  end.

Definition getNodes (filterType : pagerFilterType) (filter : string)
           (nodes : slice CiaoComputeNode) (limit offset : Z)
  : outcome (option string * option error) :=
  let computeNodes := NewCiaoComputeNodes in
  match nodes with
  | None => mret (marshalled (json_Marshal_ComputeNodes computeNodes))
  | Some l =>
      if len nodes <=? offset
      then mret (marshalled (json_Marshal_ComputeNodes computeNodes))
      else
        tail ← from l offset;
        mret (marshalled (json_Marshal_ComputeNodes
                            (getNodes_loop limit tail computeNodes 0)))
  end.

Definition filter (filterType : pagerFilterType) (filter : string)
           (node : CiaoComputeNode) : bool := false.

Definition nextPage {S} (nodes : slice CiaoComputeNode)
           (filterType : pagerFilterType) (filter : string)
           (values : gmap string (list string))
  : M S (option string * option error) :=
  nextPage_with node_ID
                (λ nodes limit offset,
                   lift (getNodes filterType filter nodes limit offset))
                nodes values.

End WithLib.
End nodePager.

Module nodeServerPager.
Section WithLib.
Context `{PagerJSON}.

Fixpoint getNodeServers_loop (limit : Z) (instances : list CiaoServerStats)
         (servers : CiaoServersStats) (pageLength : Z) : CiaoServersStats :=
  match instances with
  | [] => servers
  | instance :: rest =>
      let servers := {| ss_TotalServers := ss_TotalServers servers;
                        ss_Servers := ss_Servers servers ++ [instance] |} in
      let pageLength := pageLength + 1 in
      if (0 <? limit) && (limit <=? pageLength) then servers
      else getNodeServers_loop limit rest servers pageLength
  end.

Definition getNodeServers (filterType : pagerFilterType) (filter : string)
           (instances : slice CiaoServerStats) (limit offset : Z)
  : outcome (option string * option error) :=
  let servers := {| ss_TotalServers := len instances;
                    ss_Servers := ss_Servers NewCiaoServersStats |} in
  match instances with
  | None => mret (marshalled (json_Marshal_ServersStats servers))
  | Some l =>
      if len instances <=? offset
      then mret (marshalled (json_Marshal_ServersStats servers))
      else
        tail ← from l offset;
        mret (marshalled (json_Marshal_ServersStats
                            (getNodeServers_loop limit tail servers 0)))
  end.

Definition filter (filterType : pagerFilterType) (filter : string)
           (instance : CiaoServerStats) : bool := false.

Definition nextPage {S} (instances : slice CiaoServerStats)
           (filterType : pagerFilterType) (filter : string)
           (values : gmap string (list string))
  : M S (option string * option error) :=
  nextPage_with stats_ID
                (λ instances limit offset,
                   lift (getNodeServers filterType filter instances
                                        limit offset))
                instances values.

End WithLib.
End nodeServerPager.

Module serverPager.
Section WithContext.
Context {W : Type} `{Backend W} `{GoLib} `{Payloads.Consts} `{WebLib}.
Context `{PagerJSON}.

Definition filter (filterType : pagerFilterType) (filter : string)
           (instance : Types.Instance) : bool :=
  if (filterType =? workloadFilter)%N then
    if negb (String.eqb (Types.WorkloadID instance) filter) then true
    else false
  else false.

(** The loop of [getInstances]; it yields the error that ends it
    early, if any. *)
Fixpoint getInstances_loop (filterType : pagerFilterType) (filter_ : string)
         (limit : Z) (instances : list Types.Instance)
         (servers : ComputeServers) (pageLength : Z)
  : M (controller W) (ComputeServers * option error) :=
  match instances with
  | [] => mret (servers, None)
  | instance :: rest =>
      if negb (filterType =? none)%N && filter filterType filter_ instance
      then getInstances_loop filterType filter_ limit rest servers pageLength
      else
        '(server, err) ← instanceToServer instance;
        match err with
        | Some e => mret (servers, Some e)
        | None =>
            let servers := {| cs_TotalServers := cs_TotalServers servers;
                              cs_Servers := cs_Servers servers ++ [server] |} in
            let pageLength := pageLength + 1 in
            if (0 <? limit) && (limit <=? pageLength) then mret (servers, None)
            else getInstances_loop filterType filter_ limit rest servers
                                   pageLength
        end
  end.

Definition getInstances (filterType : pagerFilterType) (filter_ : string)
           (instances : slice Types.Instance) (limit offset : Z)
  : M (controller W) (option string * option error) :=
  let servers := {| cs_TotalServers := len instances;
                    cs_Servers := cs_Servers NewComputeServers |} in
  match instances with
  | None => mret (marshalled (json_Marshal_ComputeServers servers))
  | Some l =>
      if len instances <=? offset
      then mret (marshalled (json_Marshal_ComputeServers servers))
      else
        tail ← lift (from l offset);
        '(servers, err) ← getInstances_loop filterType filter_ limit tail
                                            servers 0;
        match err with
        | Some e => mret (None, Some e)
        | None => mret (marshalled (json_Marshal_ComputeServers servers))
        end
  end.

Definition nextPage (instances : slice Types.Instance)
           (filterType : pagerFilterType) (filter_ : string)
           (values : gmap string (list string))
  : M (controller W) (option string * option error) :=
  nextPage_with Types.ID (getInstances filterType filter_) instances values.

End WithContext.
End serverPager.

End Pager.

Module PagerSpec.
Import Pager.

(** The items of a page: at most [limit] items from [offset] on, all
    of them when [limit] is not positive. *)
Definition page {A} (l : list A) (limit offset : Z) : list A :=
  let rest := drop (Z.to_nat offset) l in
  if 0 <? limit then take (Z.to_nat limit) rest else rest.

(** What the page loops keep of the items that are left: all of them,
    or as many as the limit still allows. *)
Definition budget {A} (limit pageLength : Z) (items : list A) : list A :=
  if 0 <? limit then take (Z.to_nat (limit - pageLength)) items else items.

(** [m] is the ID of [x], and of no item of [before]. *)
Definition first_with {A} (ID : A → string) (m : string)
           (before : list A) (x : A) : Prop :=
  ID x = m ∧ Forall (λ y, ID y ≠ m) before.

(** Every key of the query has a value, as in a parsed URL. *)
Definition well_formed (values : gmap string (list string)) : Prop :=
  ∀ k v, values !! k = Some v → v ≠ [].

(** What is left of a slice after the marker: nil when the marker is
    the last item. *)
Definition after_marker {A} (after : list A) : slice A :=
  match after with
  | [] => None
  | _ => Some after
  end.

Section WithLib.
Context `{PagerJSON}.

(** The number that a key of the query stands for: that of its first
    value, 0 if the key is absent or the value is no number. *)
Definition number (v : option (list string)) : Z :=
  match v with
  | Some (s :: _) =>
      match strconv_ParseInt s with
      | (l, None) => l
      | (_, Some _) => 0
      end
  | _ => 0
  end.

(** The marshalled documents with the given pages. *)
Definition node_doc (nodes : list CiaoComputeNode)
  : option string * option error :=
  marshalled (json_Marshal_ComputeNodes
                {| Nodes := Nodes NewCiaoComputeNodes ++ nodes |}).

Definition stats_doc (total : Z) (servers : list CiaoServerStats)
  : option string * option error :=
  marshalled (json_Marshal_ServersStats
                {| ss_TotalServers := total;
                   ss_Servers := ss_Servers NewCiaoServersStats ++ servers |}).

Definition servers_doc (total : Z) (servers : list Compute.Server)
  : option string * option error :=
  marshalled (json_Marshal_ComputeServers
                {| cs_TotalServers := total;
                   cs_Servers := cs_Servers NewComputeServers ++ servers |}).

End WithLib.

Section WithContext.
Context {W : Type} `{Backend W}.

(** The instances that the server pager does not skip. *)
Definition kept (filterType : pagerFilterType) (filter_ : string)
           (i : Types.Instance) : Prop :=
  filterType = workloadFilter → Types.WorkloadID i = filter_.

#[global] Instance kept_dec ft f i : Decision (kept ft f i).
Proof. unfold kept. apply _. Defined.

(** The workload of the instance is found. *)
Definition workload_found (w : W) (i : Types.Instance)
           (wl : Types.Workload) : Prop :=
  GetWorkload (Types.WorkloadID i) w = (Some wl, None).

(** The lookups that [instanceToServer] makes for the instances. *)
Definition lookups (l : list Types.Instance) : list Call :=
  (λ i, CGetWorkload (Types.WorkloadID i)) <$> l.

End WithContext.
End PagerSpec.

Module PagerRef.
Import Pager.

Fixpoint digits (s : string) (acc : Z) : option Z :=
  match s with
  | EmptyString => Some acc
  | String c rest =>
      let n := Z.of_nat (nat_of_ascii c) in
      if (48 <=? n) && (n <=? 57) then digits rest (10 * acc + (n - 48))
      else None
  end.

(** A decimal number of 32 bits with an optional sign. *)
Definition parse_int (s : string) : Z * option error :=
  let '(neg, body) :=
    match s with
    | String "-" rest => (true, rest)
    | String "+" rest => (false, rest)
    | _ => (false, s)
    end in
  match body with
  | EmptyString => (0, Some "invalid syntax")
  | _ =>
      match digits body 0 with
      | None => (0, Some "invalid syntax")
      | Some n =>
          let v := if neg then - n else n in
          if v <? - 2147483648 then (- 2147483648, Some "value out of range")
          else if 2147483647 <? v then (2147483647, Some "value out of range")
          else (v, None)
      end
  end.

(** Nodes and server statistics are their IDs; a document is printed
    as its count and the IDs it lists. *)
#[global] Instance lib : PagerLib := {|
  strconv_ParseInt := parse_int;
  CiaoComputeNode := string;
  node_ID := id;
  CiaoServerStats := string;
  stats_ID := id;
|}.

Definition show (total : Z) (ids : list string) : string :=
  (NilZero.string_of_int (Z.to_int total) ++ ":" ++ Ref.join "," ids)%string.

#[global] Instance json : PagerJSON := {|
  NewCiaoComputeNodes := {| Nodes := [] |};
  NewCiaoServersStats := {| ss_TotalServers := 0; ss_Servers := [] |};
  NewComputeServers := {| cs_TotalServers := 0; cs_Servers := [] |};
  json_Marshal_ComputeNodes d := (show 0 (Nodes d), None);
  json_Marshal_ServersStats d :=
    (show (ss_TotalServers d) (ss_Servers d), None);
  json_Marshal_ComputeServers d :=
    (show (cs_TotalServers d) (Compute.srv_ID <$> cs_Servers d), None);
|}.

Definition query (l : list (string * string)) : gmap string (list string) :=
  list_to_map ((λ kv, (kv.1, [kv.2])) <$> l).

Definition nodes5 : slice string := Some ["n1"; "n2"; "n3"; "n4"; "n5"].

End PagerRef.

(* ===================================================================== *)
(** ** testutil: the other commands of the test client                   *)
(* ===================================================================== *)

Module TestutilMore.
Import Testutil.

(** The rest of the [ssntp] and [payloads] packages as the test client
    uses them.  A Stop, Restart or Delete command is decoded to the
    instance UUID it names, the only field that is read.  A frame is
    known by its payload and by whether it carries a trace. *)
Class Commands (T : Type) `{Ssntp T} := {
  START : Command;
  STOP : Command;
  RESTART : Command;
  DELETE : Command;
  handled_distinct : NoDup [START; STOP; RESTART; DELETE];
  StopFailure : Error;
  RestartFailure : Error;
  DeleteFailure : Error;
  Exited : string;
  Role_String : Role → string;
  yaml_Unmarshal_Stop : list byte → string * option error;
  yaml_Unmarshal_Restart : list byte → string * option error;
  yaml_Unmarshal_Delete : list byte → string * option error;
  StopFailureReason_String : string → string;
  RestartFailureReason_String : string → string;
  DeleteFailureReason_String : string → string;
  yaml_Marshal_ErrorStopFailure : string → string → list byte * option error;
  yaml_Marshal_ErrorRestartFailure :
    string → string → list byte * option error;
  yaml_Marshal_ErrorDeleteFailure : string → string → list byte * option error;
  Frame : Type;
  Payload : Frame → list byte;
  has_Trace : Frame → bool;
  SetEndStamp : Frame → Frame;
}.

(** The test client with the fields of the Go struct that the commands
    other than Start read or write. *)
Record TestClient (T : Type) `{Commands T} := mkTestClient {
  base : SsntpTestClient T;
  StopFail : bool;
  StopFailReason : string;
  RestartFail : bool;
  RestartFailReason : string;
  DeleteFail : bool;
  DeleteFailReason : string;
  traces : list Frame;
}.
Arguments mkTestClient {T _ _}.
Arguments base {T _ _}. Arguments StopFail {T _ _}.
Arguments StopFailReason {T _ _}. Arguments RestartFail {T _ _}.
Arguments RestartFailReason {T _ _}. Arguments DeleteFail {T _ _}.
Arguments DeleteFailReason {T _ _}. Arguments traces {T _ _}.

Section Client.
Context {T : Type} `{Commands T} `{Payloads.Consts}.

Definition set_base (b : SsntpTestClient T) (s : TestClient T)
  : TestClient T :=
  mkTestClient b (StopFail s) (StopFailReason s) (RestartFail s)
               (RestartFailReason s) (DeleteFail s) (DeleteFailReason s)
               (traces s).


(** A function of the client that touches the fields of [base] only. *)
Definition on_base {A} (m : M (SsntpTestClient T) A) : M (TestClient T) A :=
  λ s, match m (base s) with
       | Ret (a, b) => Ret (a, set_base b s)
       | Panic msg => Panic msg
       | Blocked => Blocked
       end.

Definition sendStopFailure (instanceUUID : string) (reason : string)
  : M (SsntpTestClient T) unit :=
  let '(y, err) := yaml_Marshal_ErrorStopFailure instanceUUID reason in
  match err with
  | Some _ => mret tt
  | None =>
      err ← ssntp_SendError StopFailure y;
      match err with
      | Some e => println e
      | None => mret tt
      end
  end.

Definition sendRestartFailure (instanceUUID : string) (reason : string)
  : M (SsntpTestClient T) unit :=
  let '(y, err) := yaml_Marshal_ErrorRestartFailure instanceUUID reason in
  match err with
  | Some _ => mret tt
  | None =>
      err ← ssntp_SendError RestartFailure y;
      match err with
      | Some e => println e
      | None => mret tt
      end
  end.

Definition sendDeleteFailure (instanceUUID : string) (reason : string)
  : M (SsntpTestClient T) unit :=
  let '(y, err) := yaml_Marshal_ErrorDeleteFailure instanceUUID reason in
  match err with
  | Some _ => mret tt
  | None =>
      err ← ssntp_SendError DeleteFailure y;
      match err with
      | Some e => println e
      | None => mret tt
      end
  end.

(** [client.instances[i].State = state] *)
Definition set_State (state : string) (istat : InstanceStat) : InstanceStat :=
  mkInstanceStat (is_InstanceUUID istat) state (MemoryUsageMB istat)
                 (DiskUsageMB istat) (CPUUsage istat).

(** The loop of [handleStop] and of [handleRestart] over the
    instances. *)
Fixpoint state_loop (instanceUUID state : string)
         (instances : list InstanceStat) : list InstanceStat :=
  match instances with
  | [] => []
  | istat :: rest =>
      (if String.eqb (is_InstanceUUID istat) instanceUUID
       then set_State state istat else istat)
      :: state_loop instanceUUID state rest
  end.

(** The loop of [handleDelete], which ends at the first match. *)
Fixpoint delete_loop (instanceUUID : string) (instances : list InstanceStat)
  : list InstanceStat :=
  match instances with
  | [] => []
  | istat :: rest =>
      if String.eqb (is_InstanceUUID istat) instanceUUID then rest
      else istat :: delete_loop instanceUUID rest
  end.

Definition failed (reason : string) : Result :=
  mkResult (Some reason) "" "" "" false.

Definition handleStop (payload : list byte) : M (TestClient T) Result :=
  let '(instanceUUID, err) := yaml_Unmarshal_Stop payload in
  match err with
  | Some e => mret (failed e)
  | None =>
      s ← get;
      if StopFail s then
        let result := failed (StopFailureReason_String (StopFailReason s)) in
        _ ← on_base (sendStopFailure instanceUUID (StopFailReason s));
        _ ← on_base (SendResultAndDelErrorChan StopFailure result);
        mret result
      else
        _ ← on_base (modify (λ b, set_instances
                                    (state_loop instanceUUID Exited
                                                (instances b)) b));
        mret zeroResult
  end.

Definition handleRestart (payload : list byte) : M (TestClient T) Result :=
  let '(instanceUUID, err) := yaml_Unmarshal_Restart payload in
  match err with
  | Some e => mret (failed e)
  | None =>
      s ← get;
      if RestartFail s then
        let result :=
          failed (RestartFailureReason_String (RestartFailReason s)) in
        _ ← on_base (sendRestartFailure instanceUUID (RestartFailReason s));
        _ ← on_base (SendResultAndDelErrorChan RestartFailure result);
        mret result
      else
        _ ← on_base (modify (λ b, set_instances
                                    (state_loop instanceUUID Payloads.Running
                                                (instances b)) b));
        mret zeroResult
  end.

Definition handleDelete (payload : list byte) : M (TestClient T) Result :=
  let '(instanceUUID, err) := yaml_Unmarshal_Delete payload in
  match err with
  | Some e => mret (failed e)
  | None =>
      s ← get;
      if DeleteFail s then
        let result :=
          failed (DeleteFailureReason_String (DeleteFailReason s)) in
        _ ← on_base (sendDeleteFailure instanceUUID (DeleteFailReason s));
        _ ← on_base (SendResultAndDelErrorChan DeleteFailure result);
        mret result
      else
        _ ← on_base (modify (λ b, set_instances
                                    (delete_loop instanceUUID (instances b))
                                    b));
        mret zeroResult
  end.


End Client.
End TestutilMore.

Module TestutilMoreSpec.
Import Testutil TestutilMore.

Section WithCommands.
Context {T : Type} `{Commands T} `{Payloads.Consts}.

(** The instance statistics named [uuid]. *)
Definition named (uuid : string) (istat : InstanceStat) : Prop :=
  is_InstanceUUID istat = uuid.

#[global] Instance named_dec uuid istat : Decision (named uuid istat).
Proof. unfold named. apply _. Defined.

(** What the loop of [handleStop] or [handleRestart] makes of an
    instance: its state is set if it is named [uuid], and it is left
    as it is otherwise. *)
Definition marked (uuid state : string) (old new : InstanceStat) : Prop :=
  if decide (named uuid old) then new = set_State state old else new = old.

(** The client with another list of instances. *)
Definition with_instances (l : list InstanceStat) (s : TestClient T)
  : TestClient T :=
  set_base (set_instances l (base s)) s.






(** The tables [ks] are closed one after the other. *)
Fixpoint close_tables (ks : list kind) : M (SsntpTestClient T) unit :=
  match ks with
  | [] => mret tt
  | k :: ks' => _ ← close_table k; close_tables ks'
  end.

(** [c] is the channel of a waiter of one of the tables [ks]. *)
Definition registered_in (ks : list kind) (s : SsntpTestClient T)
           (c : chan) : Prop :=
  ∃ k key, k ∈ ks ∧ table k s !! key = Some c.

(** What a handler that is set to fail does: it returns the reason as
    an error, changes no instance, sends the failure frame through the
    SSNTP client if it can be marshalled, printing the error of the
    transport if there is one, and delivers the failing result to
    the waiter on the failure, if there is one; the waiters on commands
    stay. *)
Definition fails_with (handler : list byte → M (TestClient T) Result)
           (op : Error) (reason : string)
           (marshalled : list byte * option error)
           (payload : list byte) (s : TestClient T) : Prop :=
  ∃ s', handler payload s = Ret (failed reason, s')
        ∧ instances (base s') = instances (base s)
        ∧ (∀ y, marshalled = (y, None) →
                Ssntp_ (base s') = (SendError op y (Ssntp_ (base s))).2
                ∧ wire (base s') = wire (base s) ++ [SentError op y]
                ∧ stdout (base s')
                  = stdout (base s)
                    ++ TestutilSpec.complaint
                         (SendError op y (Ssntp_ (base s))).1)
        ∧ (∀ y e, marshalled = (y, Some e) →
                  Ssntp_ (base s') = Ssntp_ (base s)
                  ∧ wire (base s') = wire (base s)
                  ∧ stdout (base s') = stdout (base s))
        ∧ (∀ c, ErrorChans (base s) !! op = Some c →
                heap (base s') !! c = Some (mkChan [failed reason] true)
                ∧ ErrorChans (base s') !! op = None
                ∧ c ∉ receivers (base s'))
        ∧ (ErrorChans (base s) !! op = None →
           heap (base s') = heap (base s))
        ∧ CmdChans (base s') = CmdChans (base s).


End WithCommands.
End TestutilMoreSpec.

Module TestutilMoreRef.
Import Testutil TestutilMore.

Definition decode_uuid (payload : list byte) : string * option error :=
  match payload with
  | [] => ("", Some "yaml: empty document")
  | _ => (string_of_list_byte payload, None)
  end.

Definition encode_failure (instanceUUID reason : string)
  : list byte * option error :=
  (list_byte_of_string (instanceUUID ++ ": " ++ reason)%string, None).

(** Frames are a payload and a trace flag; the end stamp is not told. *)
#[global] Instance commands : Commands bool := {|
  START := 0%N;
  STOP := 1%N;
  RESTART := 2%N;
  DELETE := 3%N;
  handled_distinct := ltac:(apply (bool_decide_unpack _); exact I);
  StopFailure := 2%N;
  RestartFailure := 3%N;
  DeleteFailure := 4%N;
  Exited := "exited";
  Role_String role := "AGENT";
  yaml_Unmarshal_Stop := decode_uuid;
  yaml_Unmarshal_Restart := decode_uuid;
  yaml_Unmarshal_Delete := decode_uuid;
  StopFailureReason_String reason := reason;
  RestartFailureReason_String reason := reason;
  DeleteFailureReason_String reason := reason;
  yaml_Marshal_ErrorStopFailure := encode_failure;
  yaml_Marshal_ErrorRestartFailure := encode_failure;
  yaml_Marshal_ErrorDeleteFailure := encode_failure;
  Frame := list byte * bool;
  Payload := fst;
  has_Trace := snd;
  SetEndStamp frame := frame;
|}.

Definition client_of (b : SsntpTestClient bool) : TestClient bool :=
  mkTestClient b false "" false "" false "" [].

(** An agent that runs i1 and i2, with a waiter on STOP (channel 0)
    that is receiving ... *)
Definition two_running : SsntpTestClient bool :=
  set_instances [mkInstanceStat "i1" "active" 0 0 0;
                 mkInstanceStat "i2" "active" 0 0 0]
                AgentScenario.agent.



(** An agent set to fail Stop commands, with a waiter on the failure
    that is receiving. *)
Definition stop_failing : TestClient bool :=
  mkTestClient (AgentScenario.after (select_enter 0%nat)
                  (AgentScenario.after (AddErrorChan StopFailure)
                                       AgentScenario.agent))
               true "no_instance" false "" false "" [].

End TestutilMoreRef.

(* ===================================================================== *)
(** ** The compute API: creating servers and describing flavors           *)
(* ===================================================================== *)

Module ComputeCreate.
Import Compute.

(** The fields of [payloads.ComputeCreateServer.Server] that
    [createServer] reads or sets. *)
Record CreateServer := {
  c_ID : string;
  c_Name : string;
  c_Workload : string;
  c_MaxInstances : Z;
  c_MinInstances : Z;
}.

(** [builtServers]: the request with the ID of the first instance, the
    count and the servers. *)
Record BuiltServers := {
  b_Server : CreateServer;
  b_TotalServers : Z;
  b_Servers : list Server;
}.

(** [context.startWorkload], which is not part of the sources at hand,
    and [encoding/json] on the two documents. *)
Class CreateLib (W : Type) := {
  startWorkload :
    string → string → Z → bool → string → W →
    (list Types.Instance * option error) * W;
  json_Unmarshal_CreateServer : string → CreateServer * option error;
  json_Marshal_BuiltServers : BuiltServers → string * option error;
}.

(** [payloads.FlavorDetails] *)
Record FlavorDetails := {
  OsFlavorAccessIsPublic : bool;
  f_ID : string;
  Disk : string;
  f_Name : string;
  Vcpus : Z;
  RAM : Z;
}.

Definition zeroFlavorDetails : FlavorDetails :=
  Build_FlavorDetails false "" "" "" 0 0.

(** [payloads.VCPUs] and [payloads.MemMB] *)
Class ResourceNames := {
  VCPUs : string;
  MemMB : string;
  names_distinct : VCPUs ≠ MemMB;
}.

(** The loop of [buildFlavorDetails] over the defaults. *)
Fixpoint defaults_loop `{ResourceNames}
         (defaults : list Payloads.RequestedResource)
         (details : FlavorDetails) : FlavorDetails :=
  match defaults with
  | [] => details
  | r :: rest =>
      defaults_loop rest
        (if String.eqb (Payloads.Type_ r) VCPUs then
           Build_FlavorDetails (OsFlavorAccessIsPublic details) (f_ID details)
                               (Disk details) (f_Name details)
                               (Payloads.Value r) (RAM details)
         else if String.eqb (Payloads.Type_ r) MemMB then
           Build_FlavorDetails (OsFlavorAccessIsPublic details) (f_ID details)
                               (Disk details) (f_Name details)
                               (Vcpus details) (Payloads.Value r)
         else details)
  end.

(** [description] is [workload.Description]. *)
Definition buildFlavorDetails `{ResourceNames} (workload : Types.Workload)
           (description : string) : FlavorDetails * option error :=
  let details := zeroFlavorDetails in
  let defaults := Types.w_Defaults workload in
  if (Z.of_nat (length defaults) =? 0) then
    (details, Some "Workload resources not set")
  else
    let details :=
      Build_FlavorDetails true (Types.w_ID workload)
                          (Types.w_ImageID workload) description 0 0 in
    (defaults_loop defaults details, None).

Section Handlers.
Context {W : Type} `{Backend W} `{GoLib} `{Payloads.Consts} `{WebLib}.
Context `{CreateLib W}.

(** The call on [startWorkload]; the call log has no entry for it. *)
Definition c_startWorkload (workload tenant : string) (nInstances : Z)
           (trace : bool) (label : string)
  : M (controller W) (list Types.Instance * option error) :=
  s ← get;
  let '(r, w') := startWorkload workload tenant nInstances trace label
                                (world s) in
  _ ← modify (λ s, mkController w' (calls s) (logs s) (uuids s) (clock s));
  mret r.

(** The loop of [createServer] over the instances; it yields the error
    that ends it early, if any. *)
Fixpoint servers_loop (instances : list Types.Instance)
         (servers : list Server)
  : M (controller W) (list Server * option error) :=
  match instances with
  | [] => mret (servers, None)
  | instance :: rest =>
      '(server, err) ← instanceToServer instance;
      match err with
      | Some e => mret (servers, Some e)
      | None => servers_loop rest (servers ++ [server])
      end
  end.

Definition createServer (r : Request) : M (controller W) ResponseWriter :=
  let tenant := var r "tenant" in
  _ ← dumpRequestBody r true;
  ok ← c_validateToken r;
  if negb ok then mret (returnErrorCode StatusUnauthorized "Invalid token" [])
  else
    let '(body, err) := Body r in
    match err with
    | Some _ =>
        mret (returnErrorCode StatusBadRequest
                              "Service cannot read Request Body" [])
    | None =>
        let '(server, err) := json_Unmarshal_CreateServer body in
        match err with
        | Some e => mret (returnErrorCode StatusInternalServerError e [])
        | None =>
            let nInstances :=
              if 0 <? c_MaxInstances server then c_MaxInstances server
              else if 0 <? c_MinInstances server then c_MinInstances server
              else 1 in
            let '(trace, label) :=
              if negb (String.eqb (c_Name server) "")
              then (true, c_Name server) else (false, "") in
            '(instances, err) ← c_startWorkload (c_Workload server) tenant
                                                nInstances trace label;
            match err with
            | Some e => mret (returnErrorCode StatusInternalServerError e [])
            | None =>
                '(servers, err) ← servers_loop instances [];
                match err with
                | Some e => mret (returnErrorCode StatusInternalServerError e [])
                | None =>
                    let total := Z.of_nat (length instances) in
                    first ← match instances with
                            | i :: _ => mret i
                            | [] => panic "index out of range"
                            end;
                    let server :=
                      Build_CreateServer (Types.ID first) (c_Name server)
                                         (c_Workload server)
                                         (c_MaxInstances server)
                                         (c_MinInstances server) in
                    let '(b, err) :=
                      json_Marshal_BuiltServers
                        (Build_BuiltServers server total servers) in
                    match err with
                    | Some e =>
                        mret (returnErrorCode StatusInternalServerError e [])
                    | None =>
                        mret (mkResponse StatusAccepted "application/json" b)
                    end
                end
            end
        end
    end.

End Handlers.
End ComputeCreate.

Module ComputeCreateSpec.
Import Compute ComputeCreate.

(** The request as it is returned: with the ID of the first instance. *)
Definition named_after (first : Types.Instance) (server : CreateServer)
  : CreateServer :=
  Build_CreateServer (Types.ID first) (c_Name server) (c_Workload server)
                     (c_MaxInstances server) (c_MinInstances server).

Section WithContext.
Context {W : Type} `{Backend W} `{WebLib}.

(** The controller with the collaborators in state [w]. *)
Definition set_world (w : W) (c : controller W) : controller W :=
  mkController w (calls c) (logs c) (uuids c) (clock c).

(** The answer with a marshalled document, or with the error of
    marshalling it. *)
Definition accepted (r : string * option error) : ResponseWriter :=
  match r.2 with
  | Some e => returnErrorCode StatusInternalServerError e []
  | None => mkResponse StatusAccepted "application/json" r.1
  end.

End WithContext.
End ComputeCreateSpec.

Module ComputeCreateRef.
Import Compute ComputeCreate.

(** A stand-in for JSON: a request is the workload, the maximum and
    the minimum number of instances and the name, separated by spaces;
    starting a workload yields the instances i3 and i4 of the store,
    or none at all for the workload none. *)
Definition decode (body : string) : CreateServer * option error :=
  match RefLibs.words body with
  | [wl; max; min; name] =>
      (Build_CreateServer "" name wl (PagerRef.parse_int max).1
                          (PagerRef.parse_int min).1, None)
  | _ => (Build_CreateServer "" "" "" 0 0, Some "unexpected end of JSON input")
  end.

#[global] Instance lib : CreateLib Ref.store := {|
  startWorkload workload tenant n trace label s :=
    if Ref.failing s then (([], Some Ref.StorageError), s)
    else if String.eqb workload "none" then (([], None), s)
    else ((take (Z.to_nat n)
                [ComputeMore.vm_in "i3" "active";
                 ComputeMore.vm_in "i4" "exited"], None),
          Ref.dispatch "START" label s);
  json_Unmarshal_CreateServer := decode;
  json_Marshal_BuiltServers d :=
    (PagerRef.show (b_TotalServers d) (srv_ID <$> b_Servers d), None);
|}.

#[global] Instance names : ResourceNames := {|
  VCPUs := "vcpus";
  MemMB := "mem_mb";
  names_distinct := ltac:(discriminate);
|}.

End ComputeCreateRef.

(* ===================================================================== *)
(** ** libsnnet: the names of a VNIC                                      *)
(* ===================================================================== *)

Module Libsnnet.

(** The roles and the two prefixes of link names, which are declared
    outside the sources at hand. *)
Class VnicConsts := {
  TenantVM : N;
  TenantContainer : N;
  roles_distinct : TenantVM ≠ TenantContainer;
  prefixVnicHost : string;
  prefixVnicCont : string;
}.

(** The dynamic type of [Vnic.Link]. *)
Inductive link := GenericLink | Veth.

Record Vnic := mkVnic {
  Link : link;
  GlobalID : string;
  Role : N;
  LinkName : string;
}.

(** [s[n:]] *)
Fixpoint string_drop (n : nat) (s : string) : string :=
  match n, s with
  | O, _ => s
  | S n', String _ s' => string_drop n' s'
  | S _, EmptyString => EmptyString
  end.

(** [strings.Replace(s, old, new, 1)]: the first occurrence of [old]
    is replaced; an empty [old] matches at the start. *)
Fixpoint strings_Replace1 (s old new : string) : string :=
  if String.prefix old s
  then (new ++ string_drop (String.length old) s)%string
  else match s with
       | EmptyString => EmptyString
       | String c s' => String c (strings_Replace1 s' old new)
       end.

Section WithConsts.
Context `{VnicConsts}.

Definition newVnic (id : string) : Vnic * option error :=
  (mkVnic GenericLink id TenantVM "", None).

Definition newContainerVnic (id : string) : Vnic * option error :=
  (mkVnic Veth id TenantContainer "", None).

Definition peerName (v : Vnic) : string :=
  if negb (Role v =? TenantContainer)%N then LinkName v
  else if String.prefix prefixVnicHost (LinkName v) then
    strings_Replace1 (LinkName v) prefixVnicHost prefixVnicCont
  else if String.prefix prefixVnicCont (LinkName v) then
    strings_Replace1 (LinkName v) prefixVnicCont prefixVnicHost
  else "".

Definition interfaceName (v : Vnic) : string :=
  if (Role v =? TenantVM)%N then LinkName v
  else if (Role v =? TenantContainer)%N then peerName v
  else "".

(** The VNIC once its link has the name [name]. *)
Definition linked (name : string) (v : Vnic) : Vnic :=
  mkVnic (Link v) (GlobalID v) (Role v) name.

(** Neither prefix begins with the other. *)
Definition prefixes_apart : Prop :=
  String.prefix prefixVnicHost prefixVnicCont = false
  ∧ String.prefix prefixVnicCont prefixVnicHost = false.

End WithConsts.

(** Prefixes to run the code with. *)
Definition ref : VnicConsts := {|
  TenantVM := 0%N;
  TenantContainer := 1%N;
  roles_distinct := ltac:(discriminate);
  prefixVnicHost := "svn_";
  prefixVnicCont := "cvn_";
|}.

End Libsnnet.
(* ===================================================================== *)
(** * Properties                                                          *)
(* ===================================================================== *)

(** Unfolding of the state monad in goals and hypotheses. *)
Ltac run :=
  repeat (unfold ds_GetTenant, ds_GetInstance, ds_GetWorkload,
            ds_GetAllInstancesFromTenant, ds_AddInstance, ds_AddTenantCNCI,
            ds_AllocateTenantIP, ds_ReleaseTenantIP, ds_AddBlockDevice,
            c_CreateBlockDevice, c_DeleteBlockDevice, c_restartInstance,
            c_stopInstance, c_deleteInstance, read, update, record_call,
            log_line, time_Now, uuid_Generate_String, deref, panic, modify, get,
            mbind, M_bind, mret, M_ret in *;
          cbn [world calls logs uuids clock fst snd] in * ).

(** The same, leaving the calls on the collaborators folded. *)
Ltac run_monad :=
  repeat (unfold panic, modify, get, mbind, M_bind, mret, M_ret in *;
          cbn [world calls logs uuids clock fst snd] in * ).

Module HwAddrFacts.
Import Net HwAddr.

Lemma To4_ipv4 a b c d : To4 (ipv4 a b c d) = [a; b; c; d].
Proof. reflexivity. Qed.

Lemma To4_ipv4_mapped a b c d : To4 (ipv4_mapped a b c d) = [a; b; c; d].
Proof. reflexivity. Qed.

Lemma To4_nil_or_4 ip : To4 ip = [] ∨ length (To4 ip) = 4%nat.
Proof.
  unfold To4.
  destruct (Nat.eqb (length ip) IPv4len) eqn:E4.
  - right. now apply Nat.eqb_eq in E4.
  - destruct (_ && _) eqn:E6; [right | now left].
    repeat (apply andb_prop in E6 as [E6 ?]).
    apply Nat.eqb_eq in E6. unfold slice.
    rewrite length_take, length_drop, E6. reflexivity.
Qed.

Lemma To4_4_inv ip :
  length (To4 ip) = 4%nat → ∃ a b c d, To4 ip = [a; b; c; d].
Proof.
  destruct (To4 ip) as [|a [|b [|c [|d [|e l]]]]]; simpl; try lia.
  intros _. now exists a, b, c, d.
Qed.

Lemma hwaddr_of_To4 ip a b c d :
  To4 ip = [a; b; c; d] → newTenantHardwareAddr ip = [x02; x00; a; b; c; d].
Proof. unfold newTenantHardwareAddr. now intros ->. Qed.

Lemma hwaddr_of_nil ip :
  To4 ip = [] → newTenantHardwareAddr ip = [x02; x00; x00; x00; x00; x00].
Proof. unfold newTenantHardwareAddr. now intros ->. Qed.

(** C10.  [newTenantHardwareAddr] is a function of the IPv4 form of its
    argument only and always yields six bytes: an address with IPv4 form
    a.b.c.d gets the MAC 02:00:a:b:c:d, so two addresses with different
    IPv4 forms get different MACs, and an address with no IPv4 form gets
    02:00:00:00:00:00. *)
Theorem newTenantHardwareAddr_spec :
  (∀ ip a b c d,
      To4 ip = [a; b; c; d] →
      newTenantHardwareAddr ip = [x02; x00; a; b; c; d])
  ∧ (∀ a b c d,
      newTenantHardwareAddr (ipv4 a b c d) = [x02; x00; a; b; c; d]
      ∧ newTenantHardwareAddr (ipv4_mapped a b c d) = [x02; x00; a; b; c; d])
  ∧ (∀ ip1 ip2,
      To4 ip1 ≠ [] → To4 ip2 ≠ [] → To4 ip1 ≠ To4 ip2 →
      newTenantHardwareAddr ip1 ≠ newTenantHardwareAddr ip2)
  ∧ (∀ ip1 ip2,
      To4 ip1 = To4 ip2 →
      newTenantHardwareAddr ip1 = newTenantHardwareAddr ip2)
  ∧ (∀ ip,
      To4 ip = [] →
      newTenantHardwareAddr ip = [x02; x00; x00; x00; x00; x00])
  ∧ (∀ ip, length (newTenantHardwareAddr ip) = 6%nat).
Proof.
  split; [exact hwaddr_of_To4 |].
  split; [intros; split; reflexivity |].
  split; [| split; [| split; [exact hwaddr_of_nil |]]].
  3:{ intros ip. destruct (To4_nil_or_4 ip) as [E | L].
      - now rewrite (hwaddr_of_nil _ E).
      - destruct (To4_4_inv _ L) as (a & b & c & d & E).
        now rewrite (hwaddr_of_To4 _ _ _ _ _ E). }
  - intros ip1 ip2 H1 H2 Hne.
    destruct (To4_nil_or_4 ip1) as [|L1]; [contradiction |].
    destruct (To4_nil_or_4 ip2) as [|L2]; [contradiction |].
    destruct (To4_4_inv _ L1) as (a & b & c & d & E1).
    destruct (To4_4_inv _ L2) as (a' & b' & c' & d' & E2).
    rewrite (hwaddr_of_To4 _ _ _ _ _ E1), (hwaddr_of_To4 _ _ _ _ _ E2).
    intros Heq. apply Hne. rewrite E1, E2. congruence.
  - intros ip1 ip2 E. unfold newTenantHardwareAddr. now rewrite E.
Qed.

Lemma newTenantHardwareAddr_spec_witness :
  newTenantHardwareAddr (ipv4 xc0 xa8 x00 x02)
    = [x02; x00; xc0; xa8; x00; x02]
  ∧ newTenantHardwareAddr (ipv4 xac x10 x00 x02)
    ≠ newTenantHardwareAddr (ipv4_mapped xac x10 x00 x03)
  ∧ newTenantHardwareAddr [x01; x02; x03]
    = [x02; x00; x00; x00; x00; x00].
Proof.
  split; [| split].
  - apply (proj1 newTenantHardwareAddr_spec); reflexivity.
  - apply (proj1 (proj2 (proj2 newTenantHardwareAddr_spec)));
      vm_compute; discriminate.
  - apply (proj1 (proj2 (proj2 (proj2 (proj2 newTenantHardwareAddr_spec)))));
      reflexivity.
Defined.

End HwAddrFacts.

Module ControllerFacts.
Import Controller ControllerSpec.

Lemma OverLimit_false res request :
  Types.OverLimit res request = false
  ↔ request ≤ Types.Limit res - Types.Usage res.
Proof.
  unfold Types.OverLimit. rewrite negb_false_iff. apply Z.leb_le.
Qed.

Lemma Allowed_loop_spec (i : instance) (rs : list Types.Resource) :
  Allowed_loop (Types.i_Usage (Instance i)) rs = true
  ↔ Forall (within_quota i) rs.
Proof.
  induction rs as [|res rs IH]; simpl.
  - split; [constructor | reflexivity].
  - rewrite Forall_cons, <- IH. unfold within_quota, requested.
    destruct (Types.Rtype res =? 1).
    + destruct (Types.OverLimit res 1) eqn:E.
      * split; [discriminate |]. intros [Hle _].
        assert (Types.OverLimit res 1 = false) by (apply OverLimit_false; lia).
        congruence.
      * apply OverLimit_false in E. split; [intros; split; [lia | done] | tauto].
    + destruct (Types.OverLimit res _) eqn:E.
      * split; [discriminate |]. intros [Hle _].
        apply OverLimit_false in Hle. congruence.
      * apply OverLimit_false in E. tauto.
Qed.

Lemma Allowed_run {W} `{Backend W} (i : instance) (c : controller W) tenant :
  Types.CNCI (Instance i) = false →
  GetTenant (Types.TenantID (Instance i)) (world c) = (Some tenant, None) →
  Allowed i c
  = Ret ((Allowed_loop (Types.i_Usage (Instance i)) (Types.Resources tenant),
          None),
         mkController (world c)
           (calls c ++ [CGetTenant (Types.TenantID (Instance i))])
           (logs c) (uuids c) (clock c)).
Proof.
  intros Hc Ht. unfold Allowed. rewrite Hc. run. rewrite Ht. reflexivity.
Qed.

(** C1.  For an instance that is not a CNCI and a tenant the datastore
    returns, [Allowed] answers yes exactly when every resource of the
    tenant is within quota: [usage + 1 ≤ limit] for the instance count,
    [requested ≤ limit − usage] for any other resource.  A request that
    uses up the remaining quota exactly is admitted; one unit more on a
    resource is denied. *)
Theorem Allowed_within_quota {W} `{Backend W}
        (i : instance) (c : controller W) (tenant : Types.Tenant) :
  Types.CNCI (Instance i) = false →
  GetTenant (Types.TenantID (Instance i)) (world c) = (Some tenant, None) →
  ∃ ok c',
    Allowed i c = Ret ((ok, None), c')
    ∧ world c' = world c
    ∧ (ok = true ↔ ∀ res, res ∈ Types.Resources tenant → within_quota i res)
    ∧ ((∀ res, res ∈ Types.Resources tenant → at_boundary i res) → ok = true)
    ∧ ((∃ res, res ∈ Types.Resources tenant ∧ Types.Rtype res ≠ 1
               ∧ requested i res = Types.Limit res - Types.Usage res + 1)
       → ok = false).
Proof.
  intros Hc Ht. eexists _, _. split; [apply (Allowed_run i c tenant Hc Ht) |].
  split; [reflexivity |].
  assert (Hiff := Allowed_loop_spec i (Types.Resources tenant)).
  rewrite Forall_forall in Hiff.
  split; [exact Hiff | split].
  - intros Hb. apply Hiff. intros res Hin. specialize (Hb res Hin).
    unfold at_boundary, within_quota in *.
    destruct (Types.Rtype res =? 1); lia.
  - intros (res & Hin & Hty & Hreq).
    apply not_true_is_false. intros Hok.
    assert (Hq := proj1 Hiff Hok res Hin). unfold within_quota in Hq.
    apply Z.eqb_neq in Hty. rewrite Hty in Hq. lia.
Qed.

Lemma Allowed_within_quota_witness :
  (∃ c', Allowed Scenario.vm1 Scenario.ctl1 = Ret ((true, None), c'))
  ∧ (∃ c', Allowed Scenario.vm1_over Scenario.ctl1 = Ret ((false, None), c')).
Proof.
  split.
  - destruct (Allowed_within_quota Scenario.vm1 Scenario.ctl1 Scenario.tenant1
                ltac:(reflexivity) ltac:(reflexivity))
      as (ok & c' & E & _ & _ & Hb & _).
    exists c'. rewrite E. f_equal. f_equal. f_equal. apply Hb.
    intros res Hin. unfold Scenario.tenant1, Scenario.quota in Hin. simpl in Hin.
    apply elem_of_cons in Hin as [-> | Hin]; [reflexivity |].
    apply list_elem_of_singleton in Hin as ->. reflexivity.
  - destruct (Allowed_within_quota Scenario.vm1_over Scenario.ctl1
                Scenario.tenant1 ltac:(reflexivity) ltac:(reflexivity))
      as (ok & c' & E & _ & _ & _ & Hd).
    exists c'. rewrite E. f_equal. f_equal. f_equal. apply Hd.
    exists (Types.Build_Resource "mem_mb" 2 1024 512).
    split; [| split; [discriminate | reflexivity]].
    unfold Scenario.tenant1, Scenario.quota. simpl. set_solver.
Defined.

Lemma Add_returns_nil {W} `{Backend W} (i : instance) (c : controller W) :
  ∃ c', Add i c = Ret (None, c').
Proof.
  unfold Add. destruct (negb _); cbn [negb]; run.
  - destruct (AddInstance _ _) as [err w']. eexists; reflexivity.
  - destruct (AddTenantCNCI _ _ _ _) as [err w']. eexists; reflexivity.
Qed.

(** C3.  What [Add] does when the datastore fails: the persistence call
    answers with a StorageError, nothing is stored, and [Add] still
    returns nil, for a regular instance and for a CNCI alike. *)
Theorem Add_swallows_storage_error :
  (AddInstance (Instance Scenario.vm2) (world Scenario.ctl1_failing)).1
    = Some Ref.StorageError
  ∧ (∃ c', Add Scenario.vm2 Scenario.ctl1_failing = Ret (None, c')
           ∧ Ref.instances (world c') !! "i2" = None)
  ∧ (AddTenantCNCI "t1" "c1" "02:00:ac:10:00:01"
                   (world Scenario.ctl1_failing)).1
    = Some Ref.StorageError
  ∧ (∃ c', Add Scenario.cnci1 Scenario.ctl1_failing = Ret (None, c')
           ∧ Ref.cncis (world c') !! "t1" = None).
Proof.
  split; [reflexivity |].
  split; [eexists; split; reflexivity |].
  split; [reflexivity |].
  eexists; split; reflexivity.
Qed.

Lemma newConfig_cnci_run {W} `{Backend W} `{GoLib} `{Payloads.Consts}
      (wl : Types.Workload) (instanceID tenantID : string)
      (c : controller W) (tenant : Types.Tenant) (e : option error) :
  isCNCIWorkload wl = true →
  GetTenant tenantID (world c) = (Some tenant, e) →
  ∃ cfg err c',
    newConfig wl instanceID tenantID c = Ret ((cfg, err), c')
    ∧ cnci cfg = true
    ∧ mac cfg = Types.CNCIMAC tenant
    ∧ Payloads.VnicMAC (Payloads.Networking (Payloads.Start_ (sc cfg)))
      = Types.CNCIMAC tenant
    ∧ ip cfg = ""
    ∧ Payloads.PrivateIP (Payloads.Networking (Payloads.Start_ (sc cfg))) = ""
    ∧ world c' = world c
    ∧ calls c' = calls c ++ [CGetTenant tenantID]
    ∧ uuids c' = S (uuids c)
    ∧ err = (json_MarshalIndent_UserData
               instanceID ("cnci-" ++ tenantID)%string).2.
Proof.
  intros Hw Ht. unfold newConfig. rewrite Hw. run. rewrite Ht.
  destruct e as [e|]; cbn [negb]; run;
    destruct (yaml_Marshal_Start _) as [y [ey|]];
    destruct (json_MarshalIndent_UserData _ _) as [b [eb|]];
    unfold warn; run; (eexists _, _, _; split; [reflexivity |]);
    cbn; repeat split; reflexivity.
Qed.

Lemma newInstance_cnci_run {W} `{Backend W} `{GoLib} `{Payloads.Consts}
      (wl : Types.Workload) (tenantID : string)
      (c : controller W) (tenant : Types.Tenant) (e : option error) :
  isCNCIWorkload wl = true →
  GetTenant tenantID (world c) = (Some tenant, e) →
  (json_MarshalIndent_UserData (uuid_Generate (uuids c))
                               ("cnci-" ++ tenantID)%string).2 = None →
  ∃ i c',
    newInstance tenantID wl c = Ret ((Some i, None), c')
    ∧ Types.CNCI (Instance i) = true
    ∧ Types.IPAddress (Instance i) = ""
    ∧ Types.MACAddress (Instance i) = Types.CNCIMAC tenant
    ∧ world c' = world c
    ∧ calls c' = calls c ++ [CGetTenant tenantID].
Proof.
  intros Hw Ht Hj. unfold newInstance.
  unfold mbind at 1, M_bind at 1, uuid_Generate_String. run_monad.
  set (c1 := mkController (world c) (calls c) (logs c) (S (uuids c)) (clock c)).
  destruct (newConfig_cnci_run wl (uuid_Generate (uuids c)) tenantID c1
              tenant e Hw Ht)
    as (cfg & err & c' & E & Hc & Hm & _ & Hi & _ & Hwd & Hcl & _ & Herr).
  rewrite E. rewrite Hj in Herr. subst err.
  eexists _, c'. split; [reflexivity |]. cbn. repeat split; assumption.
Qed.

(** C4.  A CNCI instance bypasses the per-tenant machinery: [Allowed]
    answers yes without any call on the datastore, [Clean] releases no
    address, and [newConfig] for a CNCI workload makes one call,
    [GetTenant], allocates no address, and takes the MAC of the
    tenant's concentrator; the instance that [newInstance] builds from
    it is marked CNCI and has that MAC and no address. *)
Theorem CNCI_bypass {W} `{Backend W} `{GoLib} `{Payloads.Consts} :
  (∀ (i : instance) (c : controller W),
      Types.CNCI (Instance i) = true →
      Allowed i c = Ret ((true, None), c))
  ∧ (∀ (i : instance) (c : controller W),
      Types.CNCI (Instance i) = true →
      Clean i c = Ret (None, c))
  ∧ (∀ (wl : Types.Workload) (instanceID tenantID : string)
       (c : controller W) (tenant : Types.Tenant) (e : option error),
      isCNCIWorkload wl = true →
      GetTenant tenantID (world c) = (Some tenant, e) →
      ∃ cfg err c',
        newConfig wl instanceID tenantID c = Ret ((cfg, err), c')
        ∧ cnci cfg = true
        ∧ mac cfg = Types.CNCIMAC tenant
        ∧ Payloads.VnicMAC (Payloads.Networking (Payloads.Start_ (sc cfg)))
          = Types.CNCIMAC tenant
        ∧ ip cfg = ""
        ∧ Payloads.PrivateIP (Payloads.Networking (Payloads.Start_ (sc cfg)))
          = ""
        ∧ world c' = world c
        ∧ calls c' = calls c ++ [CGetTenant tenantID])
  ∧ (∀ (wl : Types.Workload) (tenantID : string)
       (c : controller W) (tenant : Types.Tenant) (e : option error),
      isCNCIWorkload wl = true →
      GetTenant tenantID (world c) = (Some tenant, e) →
      (json_MarshalIndent_UserData (uuid_Generate (uuids c))
                                   ("cnci-" ++ tenantID)%string).2 = None →
      ∃ i c',
        newInstance tenantID wl c = Ret ((Some i, None), c')
        ∧ Types.CNCI (Instance i) = true
        ∧ Types.IPAddress (Instance i) = ""
        ∧ Types.MACAddress (Instance i) = Types.CNCIMAC tenant
        ∧ world c' = world c
        ∧ calls c' = calls c ++ [CGetTenant tenantID]).
Proof.
  split; [| split; [| split]].
  - intros i c Hc. unfold Allowed. rewrite Hc. reflexivity.
  - intros i c Hc. unfold Clean. rewrite Hc. run. now destruct c.
  - intros wl iid tid c tenant e Hw Ht.
    destruct (newConfig_cnci_run wl iid tid c tenant e Hw Ht)
      as (cfg & err & c' & E & H3 & H4 & H5 & H6 & H7 & H8 & H9 & _).
    exists cfg, err, c'. repeat split; assumption.
  - intros wl tid c tenant e. apply newInstance_cnci_run.
Qed.

Lemma CNCI_bypass_witness :
  Allowed Scenario.cnci1 Scenario.ctl1 = Ret ((true, None), Scenario.ctl1)
  ∧ Clean Scenario.cnci1 Scenario.ctl1 = Ret (None, Scenario.ctl1)
  ∧ (∃ cfg err c',
        newConfig Scenario.cnciWorkload "c1" "t1" Scenario.ctl1
        = Ret ((cfg, err), c')
        ∧ mac cfg = "02:00:ac:10:00:01"
        ∧ calls c' = [CGetTenant "t1"])
  ∧ (∃ i c',
        newInstance "t1" Scenario.cnciWorkload Scenario.ctl1
        = Ret ((Some i, None), c')
        ∧ Types.CNCI (Instance i) = true
        ∧ Types.IPAddress (Instance i) = "").
Proof.
  split; [| split; [| split]].
  - apply (proj1 (@CNCI_bypass _ Ref.backend Ref.lib Ref.consts)).
    reflexivity.
  - apply (proj1 (proj2 (@CNCI_bypass _ Ref.backend Ref.lib Ref.consts))).
    reflexivity.
  - destruct (proj1 (proj2 (proj2 (@CNCI_bypass _ Ref.backend Ref.lib Ref.consts)))
                Scenario.cnciWorkload "c1" "t1"
                Scenario.ctl1 Scenario.tenant1 None
                ltac:(reflexivity) ltac:(reflexivity))
      as (cfg & err & c' & E & _ & Hm & _ & _ & _ & _ & Hc).
    exists cfg, err, c'. split; [exact E |]. split; [exact Hm | exact Hc].
  - destruct (proj2 (proj2 (proj2 (@CNCI_bypass _ Ref.backend Ref.lib Ref.consts)))
                Scenario.cnciWorkload "t1" Scenario.ctl1 Scenario.tenant1 None
                ltac:(reflexivity) ltac:(reflexivity) ltac:(reflexivity))
      as (i & c' & E & Hc & Hip & _).
    exists i, c'. split; [exact E |]. split; [exact Hc | exact Hip].
Defined.

(** C5, as stated, fails: after [Clean] on the persisted instance i1
    the address is back in the pool, but the record of i1 is still in
    the datastore; the only call made is [ReleaseTenantIP]. *)
Lemma Clean_keeps_record :
  ∃ c', Clean Scenario.vm1 Scenario.ctl1 = Ret (None, c')
        ∧ calls c' = [CReleaseTenantIP "t1" "172.16.0.2"]
        ∧ Ref.pool (world c') !! "t1" = Some [Scenario.addr2; Scenario.addr3]
        ∧ Ref.instances (world Scenario.ctl1) !! "i1"
          = Some (Instance Scenario.vm1)
        ∧ Ref.instances (world c') !! "i1" = Some (Instance Scenario.vm1).
Proof.
  eexists. split; [reflexivity |]. repeat split; reflexivity.
Qed.

Lemma Ref_release_returns_address (s : Ref.store) (tenantID ip : string)
      (a : Net.IP) :
  Ref.failing s = false →
  a ∈ default [] (Ref.leased s !! tenantID) →
  IP_String a = ip →
  let s' := (ReleaseTenantIP tenantID ip s).2 in
  ((a ∈ default [] (Ref.pool s' !! tenantID))
   ∧ (a ∉ default [] (Ref.leased s' !! tenantID))
   ∧ Ref.instances s' = Ref.instances s).
Proof.
  intros Hf Hin Hip. cbn. unfold Ref.fallible. rewrite Hf. cbn.
  rewrite !lookup_insert_eq. cbn. split; [| split; [| reflexivity]].
  - apply elem_of_app. left. apply list_elem_of_filter. auto.
  - rewrite list_elem_of_filter. tauto.
Qed.

(** C5, amended.  For an instance that is not a CNCI, [Clean] makes one
    call, [ReleaseTenantIP] with the tenant and the address of the
    instance, and when that call succeeds [Clean] returns nil; a
    successful release in the reference datastore makes the address free
    again; the instance records are left as they are. *)
Theorem Clean_releases_address :
  (∀ (W : Type) (B : Backend W) (i : instance) (c : controller W),
      Types.CNCI (Instance i) = false →
      let release :=
        ReleaseTenantIP (Types.TenantID (Instance i))
                        (Types.IPAddress (Instance i)) (world c) in
      ∃ err c',
        Clean i c = Ret (err, c')
        ∧ world c' = release.2
        ∧ calls c' = calls c ++ [CReleaseTenantIP (Types.TenantID (Instance i))
                                                  (Types.IPAddress (Instance i))]
        ∧ (release.1 = None → err = None))
  ∧ (∀ (s : Ref.store) (tenantID ip : string) (a : Net.IP),
        Ref.failing s = false →
        a ∈ default [] (Ref.leased s !! tenantID) →
        IP_String a = ip →
        let s' := (ReleaseTenantIP tenantID ip s).2 in
        ((a ∈ default [] (Ref.pool s' !! tenantID))
         ∧ (a ∉ default [] (Ref.leased s' !! tenantID))
         ∧ Ref.instances s' = Ref.instances s)).
Proof.
  split; [| exact Ref_release_returns_address].
  intros W B i c Hc. unfold Clean. rewrite Hc. cbn [negb]. run.
  destruct (ReleaseTenantIP _ _ _) as [err w']. cbn.
  eexists _, _. split; [reflexivity |]. repeat split; reflexivity.
Qed.

Lemma Clean_releases_address_witness :
  (∃ err c', Clean Scenario.vm1 Scenario.ctl1 = Ret (err, c')
             ∧ calls c' = [CReleaseTenantIP "t1" "172.16.0.2"]
             ∧ err = None)
  ∧ Scenario.addr2
    ∈ default [] (Ref.pool (ReleaseTenantIP "t1" "172.16.0.2"
                              (world Scenario.ctl1)).2 !! "t1").
Proof.
  split.
  - destruct (proj1 Clean_releases_address _ Ref.backend Scenario.vm1
                Scenario.ctl1 ltac:(reflexivity))
      as (err & c' & E & _ & Hcalls & Herr).
    exists err, c'. split; [exact E |]. split; [exact Hcalls |].
    apply Herr. reflexivity.
  - apply (proj2 Clean_releases_address (world Scenario.ctl1) "t1"
             "172.16.0.2" Scenario.addr2);
      [reflexivity | vm_compute; set_solver | reflexivity].
Defined.

End ControllerFacts.

Module TestutilFacts.
Import Testutil Traces TestutilSpec.

Ltac run_client :=
  repeat (unfold AddChan, SendResultAndDelChan, make_chan, chan_send,
            chan_close, println, ssntp_SendError, select_enter,
            select_timeout, modify, get, panic,
            mbind, M_bind, mret, M_ret in *;
          cbn [heap next wire stdout instances Ssntp_ UUID Role_ StartFail
               StartFailReason CmdChans EventChans ErrorChans StatusChans
               receivers fst snd delivered closed] in * ).

Section Facts.
Context {T : Type} `{Ssntp T} `{Payloads.Consts}.
Local Abbreviation client := (SsntpTestClient T).

Lemma table_set_table_eq k m (s : client) : table k (set_table k m s) = m.
Proof. now destruct k. Qed.

Lemma table_set_table_ne k k' m (s : client) :
  k ≠ k' → table k (set_table k' m s) = table k s.
Proof. now destruct k, k'. Qed.

Lemma table_set_heap k h n (s : client) :
  table k (set_heap h n s) = table k s.
Proof. now destruct k. Qed.

Lemma table_set_receivers k r (s : client) :
  table k (set_receivers r s) = table k s.
Proof. now destruct k. Qed.

Lemma heap_set_heap h n (s : client) : heap (set_heap h n s) = h.
Proof. reflexivity. Qed.

Lemma next_set_heap h n (s : client) : next (set_heap h n s) = n.
Proof. reflexivity. Qed.

Lemma heap_set_table k m (s : client) : heap (set_table k m s) = heap s.
Proof. now destruct k. Qed.

Lemma next_set_table k m (s : client) : next (set_table k m s) = next s.
Proof. now destruct k. Qed.

Lemma heap_set_receivers r (s : client) : heap (set_receivers r s) = heap s.
Proof. reflexivity. Qed.

Lemma next_set_receivers r (s : client) : next (set_receivers r s) = next s.
Proof. reflexivity. Qed.

Lemma receivers_set_receivers r (s : client) :
  receivers (set_receivers r s) = r.
Proof. reflexivity. Qed.

Lemma receivers_set_table k m (s : client) :
  receivers (set_table k m s) = receivers s.
Proof. now destruct k. Qed.

Lemma AddChan_run k key (s : client) :
  AddChan k key s
  = Ret (next s,
         set_table k (<[key := next s]> (table k s))
           (set_heap (<[next s := mkChan [] false]> (heap s))
                     (S (next s)) s)).
Proof. run_client. now rewrite table_set_heap. Qed.

(** The client after [result] went to the receiver on [c], the channel
    of the waiter for [key]. *)
Local Abbreviation handed k key c result s :=
  (set_receivers (receivers s ∖ {[c]})
     (set_heap (<[c := mkChan [result] true]> (heap s)) (next s)
        (set_table k (delete key (table k s)) s))).

Lemma Resolve_run_some k key c result (s : client) :
  table k s !! key = Some c →
  heap s !! c = Some (mkChan [] false) →
  c ∈ receivers s →
  SendResultAndDelChan k key result s = Ret (tt, handed k key c result s).
Proof.
  intros Ht Hh Hr. run_client. rewrite Ht. run_client.
  rewrite heap_set_table, Hh. run_client.
  rewrite receivers_set_table.
  destruct (decide (c ∈ receivers s)) as [_ | Hn]; [| now destruct Hn].
  run_client. rewrite heap_set_receivers, heap_set_heap, lookup_insert_eq.
  cbn [closed delivered app].
  rewrite insert_insert_eq, next_set_receivers, next_set_heap.
  rewrite ?next_set_table. reflexivity.
Qed.

Lemma Resolve_run_blocked k key c result (s : client) :
  table k s !! key = Some c →
  heap s !! c = Some (mkChan [] false) →
  c ∉ receivers s →
  SendResultAndDelChan k key result s = Blocked.
Proof.
  intros Ht Hh Hr. run_client. rewrite Ht. run_client.
  rewrite heap_set_table, Hh. run_client.
  rewrite receivers_set_table.
  now destruct (decide (c ∈ receivers s)).
Qed.

Lemma Resolve_run_none k key result (s : client) :
  table k s !! key = None →
  SendResultAndDelChan k key result s = Ret (tt, s).
Proof. intros Ht. run_client. now rewrite Ht. Qed.

Lemma set_table_set_heap k m h n (s : client) :
  set_table k m (set_heap h n s) = set_heap h n (set_table k m s).
Proof. now destruct k. Qed.

Lemma entry_after_insert k key c k2 key2 c2 (s : client) :
  table k2 (set_table k (<[key := c]> (table k s)) s) !! key2 = Some c2 →
  (k2 = k ∧ key2 = key ∧ c2 = c)
  ∨ (¬ (k2 = k ∧ key2 = key) ∧ table k2 s !! key2 = Some c2).
Proof.
  destruct (decide (k2 = k)) as [-> | Hk].
  - rewrite table_set_table_eq.
    destruct (decide (key2 = key)) as [-> | Hkey].
    + rewrite lookup_insert_eq. intros [= <-]. now left.
    + rewrite lookup_insert_ne by done. right. split; [tauto | done].
  - rewrite table_set_table_ne by done. right. split; [tauto | done].
Qed.

Lemma entry_after_delete k key k2 key2 c2 (s : client) :
  table k2 (set_table k (delete key (table k s)) s) !! key2 = Some c2 →
  table k2 s !! key2 = Some c2 ∧ ¬ (k2 = k ∧ key2 = key).
Proof.
  destruct (decide (k2 = k)) as [-> | Hk].
  - rewrite table_set_table_eq.
    destruct (decide (key2 = key)) as [-> | Hkey].
    + now rewrite lookup_delete_eq.
    + rewrite lookup_delete_ne by done. intros ?. split; [done | tauto].
  - rewrite table_set_table_ne by done. intros ?. split; [done | tauto].
Qed.

Lemma Inv_register k key (s : client) :
  Inv s →
  Inv (set_table k (<[key := next s]> (table k s))
         (set_heap (<[next s := mkChan [] false]> (heap s)) (S (next s)) s)).
Proof.
  intros [Ht Hi Hh]. rewrite set_table_set_heap.
  assert (Hold : ∀ k2 key2 c2, table k2 s !! key2 = Some c2 →
                               (c2 < next s)%nat).
  { intros k2 key2 c2 E. apply Ht in E. now apply Hh in E. }
  split.
  - intros k2 key2 c2. rewrite table_set_heap, heap_set_heap.
    intros E. apply entry_after_insert in E as [(-> & -> & ->) | [_ E]].
    + apply lookup_insert_eq.
    + rewrite lookup_insert_ne; [eauto |]. apply Hold in E. lia.
  - intros k1 key1 k2 key2 c. rewrite !table_set_heap. intros E1 E2.
    apply entry_after_insert in E1 as [(-> & -> & ->) | [_ E1]];
      apply entry_after_insert in E2 as [(-> & -> & E) | [_ E2]]; try done.
    + apply Hold in E2. lia.
    + subst c. apply Hold in E1. lia.
    + eauto.
  - intros c st. rewrite heap_set_heap, next_set_heap.
    destruct (decide (c = next s)) as [-> | Hc].
    + rewrite lookup_insert_eq. intros [= <-]. cbn. lia.
    + rewrite lookup_insert_ne by done. intros E. apply Hh in E. lia.
Qed.

Lemma Orphan_register k key c0 (s : client) :
  Inv s → Orphan c0 s →
  Orphan c0 (set_table k (<[key := next s]> (table k s))
               (set_heap (<[next s := mkChan [] false]> (heap s))
                         (S (next s)) s)).
Proof.
  intros [Ht Hi Hh] [Ho Hn]. rewrite set_table_set_heap.
  assert (c0 < next s)%nat by now apply Hh in Ho.
  split.
  - rewrite heap_set_heap, lookup_insert_ne by lia. exact Ho.
  - intros k2 key2. rewrite table_set_heap. intros E.
    apply entry_after_insert in E as [(-> & -> & E) | [_ E]]; [lia |].
    now apply Hn in E.
Qed.

(** Taking a registered channel out of its table and putting it in a
    final state. *)
Lemma Inv_retire k key c st' (s : client) :
  Inv s → table k s !! key = Some c →
  (length (delivered st') ≤ 1)%nat →
  Inv (set_heap (<[c := st']> (heap s)) (next s)
         (set_table k (delete key (table k s)) s)).
Proof.
  intros [Ht Hi Hh] Hc Hlen. split.
  - intros k2 key2 c2. rewrite table_set_heap, heap_set_heap.
    intros E. apply entry_after_delete in E as [E Hne].
    rewrite lookup_insert_ne; [eauto |].
    intros <-. apply Hne. eapply Hi; eauto.
  - intros k1 key1 k2 key2 c1. rewrite !table_set_heap. intros E1 E2.
    apply entry_after_delete in E1 as [E1 _].
    apply entry_after_delete in E2 as [E2 _]. eauto.
  - intros c1 st. rewrite heap_set_heap, next_set_heap.
    destruct (decide (c1 = c)) as [-> | Hne].
    + rewrite lookup_insert_eq. intros [= <-]. split; [| done].
      apply Ht in Hc. now apply Hh in Hc.
    + rewrite lookup_insert_ne by done. apply Hh.
Qed.

Lemma Orphan_retire k key c st' c0 (s : client) :
  table k s !! key = Some c → Orphan c0 s →
  Orphan c0 (set_heap (<[c := st']> (heap s)) (next s)
               (set_table k (delete key (table k s)) s)).
Proof.
  intros Hc [Ho Hn]. split.
  - rewrite heap_set_heap, lookup_insert_ne; [done |].
    intros ->. now apply Hn in Hc.
  - intros k2 key2. rewrite table_set_heap. intros E.
    apply entry_after_delete in E as [E _]. now apply Hn in E.
Qed.

Lemma safe_bind (m1 m2 : M client unit) (s : client) :
  safe m1 s → (∀ s1, Inv s1 → safe m2 s1) →
  safe (_ ← m1; m2) s.
Proof.
  intros (s1 & E1 & I1 & O1) H2.
  destruct (H2 s1 I1) as (s2 & E2 & I2 & O2).
  exists s2. split; [| split; [done | auto]].
  unfold mbind, M_bind. now rewrite E1.
Qed.

Lemma close_entries_safe k l (s : client) :
  Inv s → NoDup (l.*1) →
  (∀ key c, (key, c) ∈ l → table k s !! key = Some c) →
  safe (close_entries k l) s.
Proof.
  revert s. induction l as [|[key c] l IH]; intros s HI Hnd Hin.
  - exists s. split; [reflexivity | split; [done | auto]].
  - assert (Hc : table k s !! key = Some c) by (apply Hin; left).
    assert (Hf := inv_table s HI _ _ _ Hc).
    apply NoDup_cons in Hnd as [Hnotin Hnd]. cbn [close_entries].
    set (s1 := set_heap (<[c := mkChan [] true]> (heap s)) (next s)
                 (set_table k (delete key (table k s)) s)).
    assert (E : (_ ← chan_close c;
                 modify (λ s, set_table k (delete key (table k s)) s)) s
                = Ret (tt, s1)).
    { run_client. rewrite Hf. cbn [closed delivered].
      now rewrite table_set_heap, set_table_set_heap. }
    destruct (IH s1) as (s' & E' & I' & O').
    + apply Inv_retire; [done | done | cbn; lia].
    + exact Hnd.
    + intros key' c' Hin'. unfold s1.
      rewrite table_set_heap, table_set_table_eq, lookup_delete_ne.
      * apply Hin. now right.
      * intros Heq. apply Hnotin. apply list_elem_of_fmap.
        exists (key', c'). split; [now rewrite Heq | done].
    + exists s'. split; [| split; [done |]].
      * revert E. run_client. intros E.
        destruct (heap s !! c) as [st|]; [| discriminate].
        destruct (closed st); [discriminate |].
        injection E as <-. exact E'.
      * intros c0 Ho. apply O'. now apply Orphan_retire.
Qed.

Lemma close_table_safe k (s : client) : Inv s → safe (close_table k) s.
Proof.
  intros HI. unfold close_table.
  destruct (close_entries_safe k (map_to_list (table k s)) s HI)
    as (s' & E & I' & O').
  - apply NoDup_fst_map_to_list.
  - intros key c Hin. now apply elem_of_map_to_list in Hin.
  - exists s'. split; [| done]. run_client. exact E.
Qed.

Lemma closeClientChans_safe (s : client) : Inv s → safe closeClientChans s.
Proof.
  intros HI. unfold closeClientChans.
  apply safe_bind; [now apply close_table_safe |]. intros s1 I1.
  apply safe_bind; [now apply close_table_safe |]. intros s2 I2.
  apply safe_bind; [now apply close_table_safe |]. intros s3 I3.
  now apply close_table_safe.
Qed.

Lemma Inv_set_receivers r (s : client) : Inv s → Inv (set_receivers r s).
Proof.
  intros [I1 I2 I3]. split.
  - intros k key c. rewrite table_set_receivers. apply I1.
  - intros k1 key1 k2 key2 c. rewrite !table_set_receivers. apply I2.
  - exact I3.
Qed.

Lemma Orphan_set_receivers r c0 (s : client) :
  Orphan c0 s → Orphan c0 (set_receivers r s).
Proof.
  intros [Ho Hn]. split; [exact Ho |].
  intros k key. rewrite table_set_receivers. apply Hn.
Qed.

Lemma Inv_handed k key c result (s : client) :
  Inv s → table k s !! key = Some c → Inv (handed k key c result s).
Proof.
  intros HI Hc. apply Inv_set_receivers.
  apply Inv_retire; [done | done | cbn; lia].
Qed.

Lemma Orphan_handed k key c result c0 (s : client) :
  table k s !! key = Some c → Orphan c0 s →
  Orphan c0 (handed k key c result s).
Proof.
  intros Hc Ho. apply Orphan_set_receivers. now apply Orphan_retire.
Qed.

(** A resolve whose waiter, if there is one, is receiving returns. *)
Lemma Resolve_safe k key result (s : client) :
  Inv s → ready k key s → safe (SendResultAndDelChan k key result) s.
Proof.
  intros HI Hr. destruct (table k s !! key) as [c|] eqn:Hc.
  - assert (Hf := inv_table s HI _ _ _ Hc).
    unfold safe. rewrite (Resolve_run_some k key c result s Hc Hf (Hr c Hc)).
    eexists. split; [reflexivity |].
    split; [now apply Inv_handed |].
    intros c0 Ho. now apply Orphan_handed.
  - exists s. split; [now apply Resolve_run_none |]. split; [done | auto].
Qed.

(** A resolve whose waiter is not receiving blocks. *)
Lemma Resolve_stuck k key result (s : client) :
  Inv s → ¬ ready k key s → SendResultAndDelChan k key result s = Blocked.
Proof.
  intros HI Hr. destruct (table k s !! key) as [c|] eqn:Hc.
  - apply (Resolve_run_blocked k key c); [done | |].
    + exact (inv_table s HI _ _ _ Hc).
    + intros Hin. apply Hr. intros c' Hc'. rewrite Hc in Hc'.
      now injection Hc' as <-.
  - destruct Hr. intros c Hc'. rewrite Hc in Hc'. discriminate.
Qed.

Lemma ready_dec k key (s : client) : ready k key s ∨ ¬ ready k key s.
Proof.
  unfold ready. destruct (table k s !! key) as [c|].
  - destruct (decide (c ∈ receivers s)) as [Hin | Hn].
    + left. now intros c' [= <-].
    + right. intros Hr. apply Hn. now apply Hr.
  - left. discriminate.
Qed.

Lemma safe_sound (m : M client unit) (s : client) : safe m s → sound m s.
Proof. intros (s' & E & I' & O'). unfold sound. now rewrite E. Qed.

Lemma Resolve_sound k key result (s : client) :
  Inv s → sound (SendResultAndDelChan k key result) s.
Proof.
  intros HI. destruct (ready_dec k key s) as [Hr | Hr].
  - apply safe_sound. now apply Resolve_safe.
  - unfold sound. now rewrite Resolve_stuck.
Qed.

Lemma sound_bind {A} (m1 : M client A) (m2 : A → M client unit) (s : client) :
  sound m1 s → (∀ a s1, Inv s1 → sound (m2 a) s1) →
  sound (a ← m1; m2 a) s.
Proof.
  unfold sound, mbind, M_bind. intros H1 H2.
  destruct (m1 s) as [[a s1] | msg |]; [| done | done].
  destruct H1 as [I1 O1]. specialize (H2 a s1 I1). unfold sound in H2.
  destruct (m2 a s1) as [[[] s2] | msg |]; [| done | done].
  destruct H2 as [I2 O2]. split; [done | auto].
Qed.

Lemma Inv_same_chans (s s' : client) : same_chans s s' → Inv s → Inv s'.
Proof.
  intros (Ht & Hh & Hn & _) [I1 I2 I3]. split.
  - intros k key c. rewrite Ht, Hh. apply I1.
  - intros k1 key1 k2 key2 c. rewrite !Ht. apply I2.
  - intros c st. rewrite Hh, Hn. apply I3.
Qed.

Lemma Orphan_same_chans (s s' : client) c0 :
  same_chans s s' → Orphan c0 s → Orphan c0 s'.
Proof.
  intros (Ht & Hh & Hn & _) [Ho Hno]. split.
  - now rewrite Hh.
  - intros k key. rewrite Ht. apply Hno.
Qed.

Lemma ready_same_chans k key (s s' : client) :
  same_chans s s' → ready k key s → ready k key s'.
Proof.
  intros (Ht & _ & _ & Hr) Hrd c. rewrite Ht, Hr. apply Hrd.
Qed.

Lemma same_chans_refl (s : client) : same_chans s s.
Proof. now repeat split. Qed.

Lemma same_chans_set_StartFail b reason (s : client) :
  same_chans s (set_StartFail b reason s).
Proof. split; [now intros [] | now repeat split]. Qed.

Lemma same_chans_set_instances l (s : client) :
  same_chans s (set_instances l s).
Proof. split; [now intros [] | now repeat split]. Qed.

(** Marshalling a failure and sending it as an error frame, as
    [sendStartFailure] and its siblings do: nothing is sent if the
    failure does not marshal, and the error of the transport is
    printed. *)
Lemma send_failure_run (op : Error) (r : list byte * option error)
      (s : client) :
  ∃ s1, (let '(y, err) := r in
         match err with
         | Some _ => mret tt
         | None =>
             err ← ssntp_SendError op y;
             match err with
             | Some e => println e
             | None => mret tt
             end
         end) s = Ret (tt, s1)
        ∧ same_chans s s1
        ∧ instances s1 = instances s
        ∧ StartFail s1 = StartFail s
        ∧ (∀ y, r = (y, None) →
                Ssntp_ s1 = (SendError op y (Ssntp_ s)).2
                ∧ wire s1 = wire s ++ [SentError op y]
                ∧ stdout s1 = stdout s ++ complaint (SendError op y (Ssntp_ s)).1)
        ∧ (∀ y e, r = (y, Some e) →
                  Ssntp_ s1 = Ssntp_ s ∧ wire s1 = wire s
                  ∧ stdout s1 = stdout s).
Proof.
  destruct r as [y [e|]].
  - exists s. split; [reflexivity |]. split; [apply same_chans_refl |].
    split; [reflexivity |]. split; [reflexivity |].
    split; [discriminate | done].
  - run_client. destruct (SendError op y (Ssntp_ s)) as [[e|] t] eqn:Es;
      (eexists; split; [reflexivity |]);
      (split; [split; [now intros [] | now repeat split] |]);
      (split; [reflexivity |]); (split; [reflexivity |]);
      (split; [| discriminate]); intros ? [= <-]; rewrite Es;
      cbn; now rewrite ?app_nil_r.
Qed.

(** The result with which a client set to fail answers a Start
    command. *)
Local Abbreviation refusal payload s :=
  (mkResult (Some (StartFailureReason_String (StartFailReason s))) (UUID s)
     (Payloads.TenantUUID (Payloads.Start_ (yaml_Unmarshal_Start payload).1))
     (is_InstanceUUID (running payload)) (IsNetAgent (Role_ s))).

Lemma handleStart_fail (s : client) (payload : list byte) :
  Inv s →
  ready KError StartFailure s →
  (yaml_Unmarshal_Start payload).2 = None →
  StartFail s = true →
  ∃ s', handleStart payload s = Ret (refusal payload s, s')
        ∧ Inv s'
        ∧ instances s' = instances s
        ∧ (∀ y, yaml_Marshal_ErrorStartFailure
                  (is_InstanceUUID (running payload)) (StartFailReason s)
                = (y, None) →
                Ssntp_ s' = (SendError StartFailure y (Ssntp_ s)).2
                ∧ wire s' = wire s ++ [SentError StartFailure y]
                ∧ stdout s'
                  = stdout s
                    ++ complaint (SendError StartFailure y (Ssntp_ s)).1)
        ∧ (∀ y e, yaml_Marshal_ErrorStartFailure
                    (is_InstanceUUID (running payload)) (StartFailReason s)
                  = (y, Some e) →
                  Ssntp_ s' = Ssntp_ s ∧ wire s' = wire s
                  ∧ stdout s' = stdout s)
        ∧ ErrorChans s' !! StartFailure = None
        ∧ (∀ c, ErrorChans s !! StartFailure = Some c →
                heap s' !! c = Some (mkChan [refusal payload s] true)
                ∧ c ∉ receivers s')
        ∧ (∀ k key, k ≠ KError → table k s' !! key = table k s !! key)
        ∧ ∀ c0, Orphan c0 s → Orphan c0 s'.
Proof.
  intros HI Hr Hd Hfail. unfold handleStart, running.
  destruct (yaml_Unmarshal_Start payload) as [cmd err]. cbn in Hd. subst err.
  cbn [fst is_InstanceUUID].
  unfold mbind at 1, M_bind at 1, get at 1. rewrite Hfail.
  destruct (send_failure_run StartFailure
              (yaml_Marshal_ErrorStartFailure
                 (Payloads.InstanceUUID (Payloads.Start_ cmd))
                 (StartFailReason s)) s)
    as (s1 & E1 & Hsame & Hi1 & Hf1 & Hw1 & Hn1).
  unfold mbind at 1, M_bind at 1. unfold sendStartFailure. rewrite E1.
  assert (I1 : Inv s1) by now apply (Inv_same_chans s).
  assert (R1 : ready KError StartFailure s1)
    by now apply (ready_same_chans _ _ s).
  destruct Hsame as (Ht & Hh & Hn & Hrc).
  unfold SendResultAndDelErrorChan.
  match goal with
  | |- context [SendResultAndDelChan KError StartFailure ?r] =>
      set (res := r)
  end.
  destruct (table KError s1 !! StartFailure) as [c|] eqn:Hc.
  - assert (Hf := inv_table s1 I1 _ _ _ Hc).
    unfold mbind, M_bind.
    rewrite (Resolve_run_some KError StartFailure c res s1 Hc Hf (R1 c Hc)).
    eexists. split; [reflexivity |].
    split; [now apply Inv_handed |]. split; [exact Hi1 |].
    split; [exact Hw1 |]. split; [exact Hn1 |].
    split; [apply lookup_delete_eq |]. split; [| split].
    + intros c' Hc'. change (table KError s !! StartFailure = Some c') in Hc'.
      rewrite <- (Ht KError), Hc in Hc'. injection Hc' as <-.
      split; [apply lookup_insert_eq |].
      cbn [receivers set_receivers].
      intros [_ Hout]%elem_of_difference. apply Hout.
      now apply elem_of_singleton.
    + intros k key Hk. rewrite table_set_receivers, table_set_heap.
      rewrite table_set_table_ne by done. now rewrite Ht.
    + intros c0 Ho. apply Orphan_handed; [done |].
      apply (Orphan_same_chans s); [now repeat split | done].
  - unfold mbind, M_bind.
    rewrite (Resolve_run_none KError StartFailure res s1 Hc).
    eexists. split; [reflexivity |].
    split; [exact I1 |]. split; [exact Hi1 |].
    split; [exact Hw1 |]. split; [exact Hn1 |].
    split; [exact Hc |]. split; [| split].
    + intros c' Hc'. change (table KError s !! StartFailure = Some c') in Hc'.
      rewrite <- (Ht KError), Hc in Hc'. discriminate.
    + intros k key _. now rewrite Ht.
    + intros c0 Ho. apply (Orphan_same_chans s); [now repeat split | done].
Qed.

(** A client set to fail whose waiter on the failure is not receiving
    blocks in the resolve, after the frame was sent. *)
Lemma handleStart_stuck (s : client) (payload : list byte) :
  Inv s →
  ¬ ready KError StartFailure s →
  (yaml_Unmarshal_Start payload).2 = None →
  StartFail s = true →
  handleStart payload s = Blocked.
Proof.
  intros HI Hr Hd Hfail. unfold handleStart.
  destruct (yaml_Unmarshal_Start payload) as [cmd err]. cbn in Hd. subst err.
  unfold mbind at 1, M_bind at 1, get at 1. rewrite Hfail.
  destruct (send_failure_run StartFailure
              (yaml_Marshal_ErrorStartFailure
                 (Payloads.InstanceUUID (Payloads.Start_ cmd))
                 (StartFailReason s)) s)
    as (s1 & E1 & Hsame & _).
  unfold mbind at 1, M_bind at 1. unfold sendStartFailure. rewrite E1.
  assert (I1 : Inv s1) by now apply (Inv_same_chans s).
  assert (R1 : ¬ ready KError StartFailure s1).
  { intros R1. apply Hr. apply (ready_same_chans _ _ s1); [| done].
    destruct Hsame as (Ht & Hh & Hn & Hrc). now repeat split. }
  unfold SendResultAndDelErrorChan, mbind, M_bind.
  now rewrite Resolve_stuck.
Qed.

Lemma handleStart_ok (s : client) (payload : list byte) :
  (yaml_Unmarshal_Start payload).2 = None →
  StartFail s = false →
  ∃ r, handleStart payload s
       = Ret (r, set_instances (instances s ++ [running payload]) s)
       ∧ Err r = None
       ∧ InstanceUUID r = is_InstanceUUID (running payload).
Proof.
  intros Hd Hok. unfold handleStart, running.
  destruct (yaml_Unmarshal_Start payload) as [cmd err]. cbn in Hd. subst err.
  run_client. rewrite Hok. eexists. split; [reflexivity |]. now split.
Qed.

(** The waiter on StartFailure, if there is one, is receiving: an
    agent set to fail can deliver the failure. *)
Local Abbreviation attended s := (ready KError StartFailure s).


Lemma Inv_open (s : client) : heap s = ∅ → Inv (openClientChans s).
Proof.
  intros Hh. split.
  - intros k key c. destruct k; cbn; now rewrite lookup_empty.
  - intros k1 key1 k2 key2 c. destruct k1; cbn; now rewrite lookup_empty.
  - intros c st. cbn. now rewrite Hh, lookup_empty.
Qed.

(** [handleStart] does not panic; when it returns, the tables are in
    order, and the active set is as it was unless the command decoded
    and the client was not set to fail. *)
Lemma handleStart_sound (s : client) (payload : list byte) :
  Inv s →
  match handleStart payload s with
  | Ret (_, s') =>
      Inv s' ∧ (∀ c0, Orphan c0 s → Orphan c0 s')
      ∧ instances s'
        = instances s
          ++ (if StartFail s then []
              else match (yaml_Unmarshal_Start payload).2 with
                   | Some _ => []
                   | None => [running payload]
                   end)
  | Panic _ => False
  | Blocked => StartFail s = true ∧ ¬ attended s
  end.
Proof.
  intros HI. destruct (yaml_Unmarshal_Start payload) as [cmd [e|]] eqn:Hd.
  - unfold handleStart. rewrite Hd. cbn.
    split; [done |]. split; [auto |]. destruct (StartFail s); now rewrite app_nil_r.
  - assert (Hd' : (yaml_Unmarshal_Start payload).2 = None) by now rewrite Hd.
    destruct (StartFail s) eqn:Hf.
    + destruct (ready_dec KError StartFailure s) as [Hr | Hr].
      * destruct (handleStart_fail s payload HI Hr Hd' Hf)
          as (s' & E & I' & Hi & _ & _ & _ & _ & _ & O').
        rewrite E. split; [done |]. split; [done |]. now rewrite app_nil_r.
      * now rewrite (handleStart_stuck s payload HI Hr Hd' Hf).
    + destruct (handleStart_ok s payload Hd' Hf) as (r & E & _).
      rewrite E.
      assert (Hsame := same_chans_set_instances
                         (instances s ++ [running payload]) s).
      split; [now apply (Inv_same_chans s) |].
      split; [| reflexivity].
      intros c0 Ho. now apply (Orphan_same_chans s).
Qed.


Lemma step_sound o (s : client) : Inv s → sound (step o) s.
Proof.
  intros HI. destruct o as [k key | k key result | fail reason payload | | c | c];
    cbn [step].
  - unfold sound, mbind, M_bind. rewrite AddChan_run. cbn.
    split; [now apply Inv_register |].
    intros c0 Ho. now apply Orphan_register.
  - now apply Resolve_sound.
  - set (s0 := set_StartFail fail reason s).
    assert (Hsame : same_chans s s0) by apply same_chans_set_StartFail.
    assert (Hs := handleStart_sound s0 payload
                    (Inv_same_chans s s0 Hsame HI)).
    unfold sound, mbind, M_bind, modify. fold s0.
    destruct (handleStart payload s0) as [[r s1] | msg |]; [| done | done].
    destruct Hs as (I1 & O1 & _). cbn. split; [done |].
    intros c0 Ho. apply O1. now apply (Orphan_same_chans s).
  - apply safe_sound. now apply closeClientChans_safe.
  - unfold sound, select_enter, modify.
    split; [now apply Inv_set_receivers |].
    intros c0. apply Orphan_set_receivers.
  - unfold sound, select_timeout, modify.
    split; [now apply Inv_set_receivers |].
    intros c0. apply Orphan_set_receivers.
Qed.

Lemma run_ops_sound l (s : client) : Inv s → sound (run_ops l) s.
Proof.
  revert s. induction l as [|o l IH]; intros s HI; cbn [run_ops].
  - unfold sound. cbn. auto.
  - apply sound_bind; [now apply step_sound | auto].
Qed.

Lemma Inv_reachable (s : client) : reachable s → Inv s.
Proof.
  intros (s0 & ops & Hh & E).
  assert (Hs := run_ops_sound ops (openClientChans s0) (Inv_open s0 Hh)).
  unfold sound in Hs. rewrite E in Hs. apply Hs.
Qed.

Lemma Resolve_registered k key c result (s : client) :
  Inv s → table k s !! key = Some c → c ∈ receivers s →
  ∃ s', SendResultAndDelChan k key result s = Ret (tt, s')
        ∧ table k s' !! key = None
        ∧ (∀ k' key', ¬ (k' = k ∧ key' = key) →
                      table k' s' !! key' = table k' s !! key')
        ∧ heap s' !! c = Some (mkChan [result] true)
        ∧ (∀ c', c' ≠ c → heap s' !! c' = heap s !! c')
        ∧ receivers s' = receivers s ∖ {[c]}
        ∧ (∀ result',
              SendResultAndDelChan k key result' s' = Ret (tt, s')).
Proof.
  intros HI Hc Hr. assert (Hf := inv_table s HI _ _ _ Hc).
  rewrite (Resolve_run_some k key c result s Hc Hf Hr).
  eexists. split; [reflexivity |].
  assert (Hgone : table k (handed k key c result s) !! key = None).
  { now rewrite table_set_receivers, table_set_heap, table_set_table_eq,
      lookup_delete_eq. }
  split; [exact Hgone |]. split; [| split; [| split; [| split]]].
  - intros k' key' Hne. rewrite table_set_receivers, table_set_heap.
    destruct (decide (k' = k)) as [-> | Hk].
    + rewrite table_set_table_eq, lookup_delete_ne; [done |].
      intros ->. now apply Hne.
    + now rewrite table_set_table_ne.
  - now rewrite heap_set_receivers, heap_set_heap, lookup_insert_eq.
  - intros c' Hne.
    now rewrite heap_set_receivers, heap_set_heap, lookup_insert_ne.
  - reflexivity.
  - intros result'. now apply Resolve_run_none.
Qed.


Lemma Orphan_displaced k key c1 (s : client) :
  Inv s → table k s !! key = Some c1 →
  Orphan c1 (set_table k (<[key := next s]> (table k s))
               (set_heap (<[next s := mkChan [] false]> (heap s))
                         (S (next s)) s)).
Proof.
  intros HI Hc. assert (Hf := inv_table s HI _ _ _ Hc).
  assert (c1 < next s)%nat by now apply (inv_heap s HI) in Hf.
  rewrite set_table_set_heap. split.
  - rewrite heap_set_heap, lookup_insert_ne by lia. exact Hf.
  - intros k' key'. rewrite table_set_heap. intros E.
    apply entry_after_insert in E as [(-> & -> & E) | [Hne E]]; [lia |].
    destruct (inv_inj s HI _ _ _ _ _ Hc E) as [-> ->]. now apply Hne.
Qed.

(** C8.  In a client whose tables are in order ([Inv]), registering
    again for a key whose waiter is still registered is accepted: the
    table now holds the new channel, no table holds the old one, which
    is open and empty, so the wait on it ends with the Timeout error
    after the full timeout.  Once the new waiter receives, a resolve of
    the key goes to the new channel and leaves the old one as it is.
    Whatever is done afterwards, the client does not panic and, in
    every state it comes to, the old channel is still unreferenced,
    open and empty, and the wait on it still times out. *)
Theorem second_registration_displaces_first
        (k : kind) (key : N) (c1 : chan) (s1 : client) :
  Inv s1 →
  table k s1 !! key = Some c1 →
  ∃ c2 s2,
    AddChan k key s1 = Ret (c2, s2)
    ∧ c2 ≠ c1
    ∧ table k s2 !! key = Some c2
    ∧ (∀ k' key', table k' s2 !! key' ≠ Some c1)
    ∧ heap s2 !! c1 = Some (mkChan [] false)
    ∧ (∀ after tie,
          offers (heap s2 !! c1) after = Never
          ∧ GetChanResult k (offers (heap s2 !! c1) after) tie key
            = (zeroResult, Some (timeout_error k key))
          ∧ select_elapsed (offers (heap s2 !! c1) after) (timeout k)
            = timeout k)
    ∧ (∀ result, ∃ s3,
          (_ ← select_enter c2; SendResultAndDelChan k key result) s2
          = Ret (tt, s3)
          ∧ heap s3 !! c2 = Some (mkChan [result] true)
          ∧ heap s3 !! c1 = Some (mkChan [] false))
    ∧ (∀ ops,
          match run_ops ops s2 with
          | Ret (_, s3) =>
              heap s3 !! c1 = Some (mkChan [] false)
              ∧ (∀ k' key', table k' s3 !! key' ≠ Some c1)
              ∧ ∀ after tie,
                  GetChanResult k (offers (heap s3 !! c1) after) tie key
                  = (zeroResult, Some (timeout_error k key))
                  ∧ select_elapsed (offers (heap s3 !! c1) after) (timeout k)
                    = timeout k
          | Panic _ => False
          | Blocked => True
          end).
Proof.
  intros HI Hc. rewrite AddChan_run. eexists _, _. split; [reflexivity |].
  assert (Hf := inv_table s1 HI _ _ _ Hc).
  assert (Hlt : (c1 < next s1)%nat) by now apply (inv_heap s1 HI) in Hf.
  assert (HI2 := Inv_register k key s1 HI).
  assert (HO2 := Orphan_displaced k key c1 s1 HI Hc).
  set (s2 := set_table k _ _) in *.
  assert (Hnew : table k s2 !! key = Some (next s1))
    by (unfold s2; now rewrite table_set_table_eq, lookup_insert_eq).
  split; [lia |]. split; [exact Hnew |]. split; [apply HO2 |].
  destruct HO2 as [Hh2 Hn2]. split; [exact Hh2 |]. split; [| split].
  - intros after tie. rewrite Hh2. cbn [offers]. repeat split; reflexivity.
  - intros result. unfold mbind at 1, M_bind at 1, select_enter, modify.
    set (s2' := set_receivers _ s2).
    assert (HI2' : Inv s2') by now apply Inv_set_receivers.
    assert (Hnew' : table k s2' !! key = Some (next s1))
      by (unfold s2'; now rewrite table_set_receivers).
    assert (Hr' : next s1 ∈ receivers s2').
    { unfold s2'. rewrite receivers_set_receivers.
      apply elem_of_union. left. now apply elem_of_singleton. }
    destruct (Resolve_registered k key _ result s2' HI2' Hnew' Hr')
      as (s3 & E & _ & _ & Hd & Hother & _).
    exists s3. split; [exact E |]. split; [exact Hd |].
    rewrite Hother by lia. exact Hh2.
  - intros ops. assert (Hs := run_ops_sound ops s2 HI2). unfold sound in Hs.
    destruct (run_ops ops s2) as [[[] s3] | msg |]; [| done | done].
    destruct Hs as [_ HO]. destruct (HO c1 (conj Hh2 Hn2)) as [Hh Hn].
    split; [exact Hh |]. split; [exact Hn |].
    intros after tie. rewrite Hh. cbn [offers]. split; reflexivity.
Qed.

(** C6.  The wait on a command or status result lasts at most 5 s,
    the wait on an event or error result at most 20 s; a wait that is
    offered nothing, or something only after its timeout, returns the
    Timeout error, and a result offered before the timeout is
    returned. *)
Theorem waits_are_bounded :
  (timeout KCmd = 5 * Second ∧ timeout KStatus = 5 * Second
   ∧ timeout KEvent = 20 * Second ∧ timeout KError = 20 * Second)
  ∧ (∀ k1 k2, k1 ∈ [KCmd; KStatus] → k2 ∈ [KEvent; KError] →
              timeout k1 < timeout k2)
  ∧ (∀ k a, select_elapsed a (timeout k) ≤ timeout k)
  ∧ (∀ k tie op,
        GetChanResult k Never tie op
        = (zeroResult, Some (timeout_error k op)))
  ∧ (∀ k t r tie op,
        timeout k < t →
        GetChanResult k (Arrives t r) tie op
        = (zeroResult, Some (timeout_error k op)))
  ∧ (∀ k t r tie op,
        t < timeout k →
        (GetChanResult k (Arrives t r) tie op).1 = r
        ∧ ((GetChanResult k (Arrives t r) tie op).2 = None
           ↔ Err r = None)).
Proof.
  split; [repeat split; reflexivity |].
  split; [| split; [| split; [| split]]].
  - intros k1 k2 H1 H2.
    apply elem_of_cons in H1 as [-> | H1];
      [| apply list_elem_of_singleton in H1 as ->];
      (apply elem_of_cons in H2 as [-> | H2];
       [| apply list_elem_of_singleton in H2 as ->]); reflexivity.
  - intros k [t r|]; cbn [select_elapsed]; lia.
  - reflexivity.
  - intros k t r tie op Hlt. unfold GetChanResult, select_recv_after.
    destruct (Z.ltb_spec t (timeout k)); [lia |].
    destruct (Z.ltb_spec (timeout k) t); [reflexivity | lia].
  - intros k t r tie op Hlt. unfold GetChanResult, select_recv_after.
    destruct (Z.ltb_spec t (timeout k)); [| lia].
    destruct (Err r); cbn; split; try reflexivity; split; congruence.
Qed.


End Facts.

Import AgentScenario.

Lemma Inv_agent : Inv agent.
Proof. apply Inv_open. reflexivity. Qed.

Lemma Inv_waiting : Inv waiting.
Proof. exact (Inv_register KCmd START agent Inv_agent). Qed.








Lemma second_registration_displaces_first_witness :
  ∃ c2 s2, AddCmdChan START waiting = Ret (c2, s2)
           ∧ c2 ≠ 0%nat
           ∧ CmdChans s2 !! START = Some c2
           ∧ heap s2 !! 0%nat = Some (mkChan [] false)
           ∧ GetCmdChanResult (T := bool) (offers (heap s2 !! 0%nat) 0)
                              true START
             = (zeroResult, Some (timeout_error KCmd START)).
Proof.
  destruct (second_registration_displaces_first KCmd START 0%nat waiting
              Inv_waiting ltac:(reflexivity))
    as (c2 & s2 & E & Hne & Hnew & _ & Hh & Hwait & _).
  exists c2, s2. split; [exact E |]. split; [exact Hne |].
  split; [exact Hnew |]. split; [exact Hh |]. apply (Hwait 0 true).
Defined.

Lemma waits_are_bounded_witness :
  GetCmdChanResult (T := bool) Never false START
  = (zeroResult,
     Some ("Timeout waiting for client START command result" ++ newline)%string)
  ∧ GetEventChanResult (T := bool) (Arrives (21 * Second) result1) true 7%N
    = (zeroResult,
       Some ("Timeout waiting for client EVENT event result" ++ newline)%string)
  ∧ timeout KStatus < timeout KError.
Proof.
  split; [| split].
  - exact (proj1 (proj2 (proj2 (proj2 (waits_are_bounded (T := bool)))))
             KCmd false START).
  - exact (proj1 (proj2 (proj2 (proj2 (proj2 (waits_are_bounded (T := bool))))))
             KEvent (21 * Second) result1 true 7%N ltac:(reflexivity)).
  - apply (proj1 (proj2 (waits_are_bounded (T := bool)))); set_solver.
Defined.


End TestutilFacts.

Module ComputeFacts.
Import Compute ComputeSpec.

Section Facts.
Context {W : Type} `{Backend W} `{GoLib} `{Payloads.Consts} `{WebLib}.

Lemma status_returnErrorCode code message args :
  status (returnErrorCode code message args) = code.
Proof.
  unfold returnErrorCode.
  pose proof (json_Marshal_ReturnErrorCode_ok
                code (http_StatusText code) (fmt_Sprintf message args))
    as Hok.
  destruct (json_Marshal_ReturnErrorCode _ _ _) as [b err].
  cbn in Hok. now subst err.
Qed.

Ltac run_handler Hv Hg Hne :=
  run; unfold c_validateToken; run; rewrite Hv; run; cbn [negb];
  rewrite Hg; run;
  apply String.eqb_neq in Hne; rewrite Hne; reflexivity.

Lemma showServerDetails_foreign r c i :
  foreign_instance r (var r "server") (world c) i →
  refused showServerDetails r c.
Proof.
  intros (Hv & Hg & Hne). unfold refused, showServerDetails, dumpRequest,
    dumpRequestBody. run_handler Hv Hg Hne.
Qed.

Lemma deleteServer_foreign r c i :
  foreign_instance r (var r "server") (world c) i →
  refused deleteServer r c.
Proof.
  intros (Hv & Hg & Hne). unfold refused, deleteServer, dumpRequest,
    dumpRequestBody. run_handler Hv Hg Hne.
Qed.

Lemma serverAction_foreign r c i :
  foreign_instance r (var r "server") (world c) i →
  refused serverAction r c.
Proof.
  intros (Hv & Hg & Hne). unfold refused, serverAction, dumpRequest,
    dumpRequestBody. run_handler Hv Hg Hne.
Qed.

Lemma action_step (a : instanceAction) (id id0 : string) (c : controller W) :
  is_lifecycle a → lifecycle_isolated id → id0 ≠ id →
  ∃ err c1 call,
    a id0 c = Ret (err, c1)
    ∧ calls c1 = calls c ++ [call]
    ∧ ¬ lifecycle_on id call
    ∧ GetInstance id (world c1) = GetInstance id (world c).
Proof.
  intros Ha Hiso Hne. destruct (Hiso id0 (world c) Hne) as (Hr1 & Hr2 & Hr3).
  destruct Ha as [-> | [-> | ->]]; run.
  - destruct (restartInstance id0 (world c)) as [err w'].
    exists err, (mkController w' (calls c ++ [CrestartInstance id0])
                              (logs c) (uuids c) (clock c)),
           (CrestartInstance id0).
    repeat split; try done. unfold lifecycle_on. intros [E | [E | E]]; congruence.
  - destruct (stopInstance id0 (world c)) as [err w'].
    exists err, (mkController w' (calls c ++ [CstopInstance id0])
                              (logs c) (uuids c) (clock c)),
           (CstopInstance id0).
    repeat split; try done. unfold lifecycle_on. intros [E | [E | E]]; congruence.
  - destruct (deleteInstance id0 (world c)) as [err w'].
    exists err, (mkController w' (calls c ++ [CdeleteInstance id0])
                              (logs c) (uuids c) (clock c)),
           (CdeleteInstance id0).
    repeat split; try done. unfold lifecycle_on. intros [E | [E | E]]; congruence.
Qed.

Lemma not_lifecycle_GetInstance id id0 : ¬ lifecycle_on id (CGetInstance id0).
Proof. unfold lifecycle_on. intros [E | [E | E]]; discriminate. Qed.

Lemma serverIDs_loop_foreign (a : instanceAction) (tenant id : string)
      (i : Types.Instance) (ids : list string) (c : controller W) :
  is_lifecycle a → record_or_error → lifecycle_isolated id →
  id ∈ ids →
  GetInstance id (world c) = (Some i, None) →
  Types.TenantID i ≠ tenant →
  ∃ resp c' l,
    serverIDs_loop a tenant ids c = Ret (Some resp, c')
    ∧ status resp = StatusNotFound
    ∧ calls c' = calls c ++ l
    ∧ Forall (λ x, ¬ lifecycle_on id x) l
    ∧ GetInstance id (world c') = GetInstance id (world c).
Proof.
  intros Ha Hnil Hiso Hin Hget Hne. revert c Hin Hget.
  induction ids as [|id0 rest IH]; intros c Hin Hget.
  - now apply elem_of_nil in Hin.
  - cbn [serverIDs_loop]. run.
    destruct (GetInstance id0 (world c)) as [oi oe] eqn:E0.
    destruct oe as [e|].
    { eexists _, _, [CGetInstance id0]. split; [reflexivity |].
      split; [apply status_returnErrorCode |]. split; [reflexivity |].
      split; [| reflexivity].
      constructor; [apply not_lifecycle_GetInstance | constructor]. }
    destruct oi as [i0|].
    2:{ exfalso. apply (Hnil id0 (world c)); now rewrite E0. }
    run. destruct (String.eqb_spec (Types.TenantID i0) tenant) as [Heq | Hdiff];
      cbn [negb].
    2:{ eexists _, _, [CGetInstance id0]. split; [reflexivity |].
        split; [apply status_returnErrorCode |]. split; [reflexivity |].
        split; [| reflexivity].
        constructor; [apply not_lifecycle_GetInstance | constructor]. }
    assert (Hid : id0 ≠ id).
    { intros ->. rewrite Hget in E0. injection E0 as <-. contradiction. }
    set (c0 := mkController (world c) (calls c ++ [CGetInstance id0])
                            (logs c) (uuids c) (clock c)).
    destruct (action_step a id id0 c0 Ha Hiso Hid)
      as (err & c1 & call & Ea & Hcalls & Hcall & Hsame).
    apply elem_of_cons in Hin as [-> | Hin]; [done |].
    destruct (IH c1 Hin) as (resp & c' & l & El & Hst & Hl & Hall & Hfin).
    { rewrite Hsame. exact Hget. }
    exists resp, c', (CGetInstance id0 :: call :: l).
    split.
    { unfold mbind, M_bind in *. rewrite Ea. exact El. }
    split; [exact Hst |]. split.
    { rewrite Hl, Hcalls. unfold c0. cbn [calls].
      now rewrite <- !app_assoc. }
    split.
    { constructor; [apply not_lifecycle_GetInstance |].
      constructor; [exact Hcall | exact Hall]. }
    rewrite Hfin, Hsame. reflexivity.
Qed.

Lemma tenantServersAction_foreign (r : Request) (c : controller W)
      (body : string) (servers : CiaoServersAction)
      (id : string) (i : Types.Instance) :
  record_or_error → lifecycle_isolated id →
  foreign_instance r id (world c) i →
  Body r = (body, None) →
  json_Unmarshal_ServersAction body = (servers, None) →
  Action servers ∈ ["os-start"; "os-stop"; "os-delete"] →
  id ∈ ServerIDs servers →
  ∃ resp c' l,
    tenantServersAction r c = Ret (resp, c')
    ∧ status resp = StatusNotFound
    ∧ calls c' = calls c ++ l
    ∧ Forall (λ x, ¬ lifecycle_on id x) l
    ∧ GetInstance id (world c') = GetInstance id (world c).
Proof.
  intros Hnil Hiso (Hv & Hg & Hne) Hb Hj Hact Hin.
  unfold tenantServersAction, dumpRequestBody, c_validateToken.
  run_monad. rewrite Hv. run_monad. cbn [negb].
  rewrite Hb, Hj.
  assert (Hlen : (0 <? Z.of_nat (length (ServerIDs servers))) = true).
  { apply Z.ltb_lt. destruct (ServerIDs servers);
      [now apply elem_of_nil in Hin | cbn; lia]. }
  assert (Hloop : ∀ a, is_lifecycle a →
            ∃ resp c' l,
              serverIDs_loop a (var r "tenant") (ServerIDs servers) c
              = Ret (Some resp, c')
              ∧ status resp = StatusNotFound
              ∧ calls c' = calls c ++ l
              ∧ Forall (λ x, ¬ lifecycle_on id x) l
              ∧ GetInstance id (world c') = GetInstance id (world c)).
  { intros a Ha. now apply (serverIDs_loop_foreign a _ id i). }
  repeat (apply elem_of_cons in Hact as [-> | Hact]);
    [| | | now apply elem_of_nil in Hact]; cbn [String.eqb Ascii.eqb Bool.eqb];
    rewrite Hlen.
  - destruct (Hloop c_restartInstance) as (resp & c' & l & E & Hrest);
      [unfold is_lifecycle; tauto |].
    exists resp, c', l. split; [| exact Hrest].
    unfold mbind, M_bind in *. now rewrite E.
  - destruct (Hloop c_stopInstance) as (resp & c' & l & E & Hrest);
      [unfold is_lifecycle; tauto |].
    exists resp, c', l. split; [| exact Hrest].
    unfold mbind, M_bind in *. now rewrite E.
  - destruct (Hloop c_deleteInstance) as (resp & c' & l & E & Hrest);
      [unfold is_lifecycle; tauto |].
    exists resp, c', l. split; [| exact Hrest].
    unfold mbind, M_bind in *. now rewrite E.
Qed.

Lemma unauthorized (r : Request) (c : controller W) :
  validateToken (world c) r = Ret false →
  let resp := returnErrorCode StatusUnauthorized "Invalid token" [] in
  showServerDetails r c = Ret (resp, c)
  ∧ deleteServer r c = Ret (resp, c)
  ∧ serverAction r c = Ret (resp, c)
  ∧ tenantServersAction r c = Ret (resp, c).
Proof.
  intros Hv. unfold showServerDetails, deleteServer, serverAction,
    tenantServersAction, dumpRequest, dumpRequestBody, c_validateToken.
  run_monad. rewrite Hv. now repeat split.
Qed.

(** C9, amended.  For a request that passes token validation, a
    handler for one named instance that finds the instance under
    another tenant answers 404, having made no call but the lookup and
    having changed nothing.  The action on a list of servers, once its
    body is read and decoded and names a supported action, answers 404
    as well and makes no lifecycle call on that instance, whose record
    stays as it is.  A request that fails token validation is answered
    with 401 before any lookup. *)
Theorem foreign_instance_refused :
  (∀ (r : Request) (c : controller W) (i : Types.Instance),
      foreign_instance r (var r "server") (world c) i →
      refused showServerDetails r c
      ∧ refused deleteServer r c
      ∧ refused serverAction r c
      ∧ status (returnErrorCode StatusNotFound
                                "Instance does not belong to tenant" [])
        = 404)
  ∧ (∀ (r : Request) (c : controller W) (body : string)
       (servers : CiaoServersAction) (id : string) (i : Types.Instance),
        record_or_error → lifecycle_isolated id →
        foreign_instance r id (world c) i →
        Body r = (body, None) →
        json_Unmarshal_ServersAction body = (servers, None) →
        Action servers ∈ ["os-start"; "os-stop"; "os-delete"] →
        id ∈ ServerIDs servers →
        ∃ resp c' l,
          tenantServersAction r c = Ret (resp, c')
          ∧ status resp = 404
          ∧ calls c' = calls c ++ l
          ∧ Forall (λ x, ¬ lifecycle_on id x) l
          ∧ GetInstance id (world c') = GetInstance id (world c))
  ∧ (∀ (r : Request) (c : controller W),
        validateToken (world c) r = Ret false →
        let resp := returnErrorCode StatusUnauthorized "Invalid token" [] in
        status resp = 401
        ∧ showServerDetails r c = Ret (resp, c)
        ∧ deleteServer r c = Ret (resp, c)
        ∧ serverAction r c = Ret (resp, c)
        ∧ tenantServersAction r c = Ret (resp, c)).
Proof.
  split; [| split].
  - intros r c i Hf. split; [now apply (showServerDetails_foreign r c i) |].
    split; [now apply (deleteServer_foreign r c i) |].
    split; [now apply (serverAction_foreign r c i) |].
    apply status_returnErrorCode.
  - intros r c body servers id i. apply tenantServersAction_foreign.
  - intros r c Hv. split; [apply status_returnErrorCode |].
    now apply unauthorized.
Qed.

End Facts.

Import Scenario RequestScenario.

Lemma Ref_record_or_error : record_or_error (W := Ref.store).
Proof.
  intros id w. cbn. unfold Ref.lookup_rec.
  destruct (Ref.failing w); [discriminate |].
  destruct (Ref.instances w !! id); [discriminate | cbn; discriminate].
Qed.

Lemma Ref_lifecycle_isolated id : lifecycle_isolated (W := Ref.store) id.
Proof.
  intros id' w _. cbn. unfold Ref.fallible, Ref.lookup_rec.
  destruct (Ref.failing w) eqn:E; cbn; rewrite ?E; done.
Qed.

(** C9, as stated, fails: instance i1 exists and belongs to tenant t1,
    the request names tenant t2, and yet the answer is 401, because the
    token does not validate. *)
Lemma foreign_instance_without_token :
  GetInstance "i1" (world ctl1) = (Some (Controller.Instance vm1), None)
  ∧ Types.TenantID (Controller.Instance vm1) ≠ var intruder "tenant"
  ∧ ∃ resp, showServerDetails intruder ctl1 = Ret (resp, ctl1)
            ∧ status resp = 401.
Proof.
  split; [reflexivity |]. split; [vm_compute; discriminate |].
  eexists. split; reflexivity.
Qed.

Lemma foreign_instance_refused_witness :
  (∃ resp c', showServerDetails foreign ctl1 = Ret (resp, c')
              ∧ status resp = 404
              ∧ calls c' = [CGetInstance "i1"]
              ∧ world c' = world ctl1)
  ∧ (∃ resp c', tenantServersAction foreign_list ctl1 = Ret (resp, c')
                ∧ status resp = 404)
  ∧ status (returnErrorCode StatusUnauthorized "Invalid token" []) = 401.
Proof.
  pose proof (@foreign_instance_refused Ref.store Ref.backend Ref.consts RefLibs.web)
    as (Hone & Hlist & Hno).
  split; [| split].
  - destruct (Hone foreign ctl1 (Controller.Instance vm1)) as (Hs & _ & _ & Hst).
    + split; [reflexivity |]. split; [reflexivity |]. vm_compute; discriminate.
    + eexists _, _. split; [exact Hs |]. split; [exact Hst |].
      split; reflexivity.
  - destruct (Hlist foreign_list ctl1 "os-stop i1"
                (Build_CiaoServersAction "os-stop" ["i1"]) "i1"
                (Controller.Instance vm1))
      as (resp & c' & l & E & Hst & _).
    + apply Ref_record_or_error.
    + apply Ref_lifecycle_isolated.
    + split; [reflexivity |]. split; [reflexivity |]. vm_compute; discriminate.
    + reflexivity.
    + reflexivity.
    + cbn [Action]. apply elem_of_cons. right. apply elem_of_cons. now left.
    + cbn [ServerIDs]. now apply list_elem_of_singleton.
    + now exists resp, c'.
  - apply (Hno intruder ctl1). reflexivity.
Defined.

End ComputeFacts.

(* ===================================================================== *)
(** * Further properties of the code                                      *)
(* ===================================================================== *)

Module ControllerExtra.
Import Controller ControllerSpec ControllerMore.

Lemma GetResources_snoc (rr : list Payloads.RequestedResource)
      (r : Payloads.RequestedResource) :
  foldl (λ resources r, <[Payloads.Type_ r := Payloads.Value r]> resources)
        (∅ : gmap string Z) (rr ++ [r])
  = <[Payloads.Type_ r := Payloads.Value r]>
      (foldl (λ resources r, <[Payloads.Type_ r := Payloads.Value r]> resources)
             ∅ rr).
Proof. now rewrite foldl_app. Qed.

(** X1.  The usage map that [GetResources] builds holds, for every
    resource name, the value of the last request for that name, and no
    entry for a name that is not requested. *)
Theorem GetResources_last_wins (c : config) (name : string) :
  GetResources c !! name
  = Payloads.Value
      <$> last (requests_for name
                  (Payloads.RequestedResources (Payloads.Start_ (sc c)))).
Proof.
  unfold GetResources, requests_for.
  induction (Payloads.RequestedResources (Payloads.Start_ (sc c)))
    as [|r rr IH] using rev_ind.
  - reflexivity.
  - rewrite GetResources_snoc, filter_app.
    destruct (decide (Payloads.Type_ r = name)) as [E | E].
    + rewrite E, lookup_insert_eq.
      rewrite (filter_cons_True _ r []) by exact E.
      now rewrite filter_nil, last_snoc.
    + rewrite lookup_insert_ne by exact E.
      rewrite (filter_cons_False _ r []) by exact E.
      now rewrite filter_nil, app_nil_r.
Qed.

Lemma Allowed_loop_agree (usage1 usage2 : gmap string Z)
      (rs : list Types.Resource) :
  (∀ res, res ∈ rs → Types.Rtype res ≠ 1 →
          default 0 (usage1 !! Types.Rname res)
          = default 0 (usage2 !! Types.Rname res)) →
  Allowed_loop usage1 rs = Allowed_loop usage2 rs.
Proof.
  induction rs as [|res rs IH]; intros Hag; [reflexivity |].
  cbn [Allowed_loop].
  rewrite IH by (intros res' Hin; apply Hag; now right).
  destruct (Z.eqb_spec (Types.Rtype res) 1) as [E | E]; [reflexivity |].
  rewrite (Hag res); [reflexivity | now left | exact E].
Qed.

(** X2.  [Allowed] reads of an instance only the quantities of the
    resources its tenant tracks, the instance count apart: two instances
    of a tenant that ask the same of every such resource (a missing entry
    counting as 0) get the same answer, whatever else they ask for. *)
Theorem Allowed_reads_tracked_only {W} `{Backend W}
        (i1 i2 : instance) (c : controller W) (tenant : Types.Tenant) :
  Types.CNCI (Instance i1) = false →
  Types.CNCI (Instance i2) = false →
  Types.TenantID (Instance i1) = Types.TenantID (Instance i2) →
  GetTenant (Types.TenantID (Instance i1)) (world c) = (Some tenant, None) →
  (∀ res, res ∈ Types.Resources tenant → Types.Rtype res ≠ 1 →
          requested i1 res = requested i2 res) →
  Allowed i1 c = Allowed i2 c.
Proof.
  intros H1 H2 Ht Hg Hag.
  rewrite (ControllerFacts.Allowed_run i1 c tenant H1 Hg).
  rewrite Ht in Hg |- *.
  rewrite (ControllerFacts.Allowed_run i2 c tenant H2 Hg).
  now rewrite (Allowed_loop_agree _ (Types.i_Usage (Instance i2)) _ Hag).
Qed.

Lemma Allowed_reads_tracked_only_witness :
  Allowed vm1_disk Scenario.ctl1 = Allowed Scenario.vm1 Scenario.ctl1.
Proof.
  apply (Allowed_reads_tracked_only vm1_disk Scenario.vm1 Scenario.ctl1
           Scenario.tenant1); try reflexivity.
  intros res Hin Hty. cbn in Hin.
  apply elem_of_cons in Hin as [-> | Hin]; [now contradict Hty |].
  apply list_elem_of_singleton in Hin as ->. reflexivity.
Defined.

(** X3.  What [Allowed] does with an instance that is not a CNCI when
    the quota cannot be checked: an error of [GetTenant] is returned with
    the answer no; a tenant without quota lines admits everything; and when
    [GetTenant] returns neither a tenant nor an error, [Allowed] panics
    on the nil tenant. *)
Theorem Allowed_without_quota {W} `{Backend W}
        (i : instance) (c : controller W) :
  Types.CNCI (Instance i) = false →
  let tenantID := Types.TenantID (Instance i) in
  let c' := mkController (world c) (calls c ++ [CGetTenant tenantID])
                         (logs c) (uuids c) (clock c) in
  (∀ t e, GetTenant tenantID (world c) = (t, Some e) →
          Allowed i c = Ret ((false, Some e), c'))
  ∧ (∀ tenant, GetTenant tenantID (world c) = (Some tenant, None) →
               Types.Resources tenant = [] →
               Allowed i c = Ret ((true, None), c'))
  ∧ (GetTenant tenantID (world c) = (None, None) →
     ∃ msg, Allowed i c = Panic msg).
Proof.
  intros Hc tenantID c'. unfold Allowed. rewrite Hc. run. fold tenantID.
  split; [| split].
  - intros t e ->. reflexivity.
  - intros tenant -> Hr. cbn. now rewrite Hr.
  - intros ->. cbn. eauto.
Qed.

Lemma Allowed_without_quota_witness :
  (∃ c', Allowed Scenario.vm1 Scenario.ctl1_failing
         = Ret ((false, Some Ref.StorageError), c'))
  ∧ (∃ c', Allowed Scenario.vm1 (Ref.start store0) = Ret ((true, None), c'))
  ∧ (∃ msg, Allowed (W := unit) (H := Stub.backend false)
                    Scenario.vm1 Stub.start = Panic msg).
Proof.
  split; [| split].
  - eexists.
    apply (proj1 (Allowed_without_quota Scenario.vm1 Scenario.ctl1_failing
                    ltac:(reflexivity)) None Ref.StorageError).
    reflexivity.
  - eexists.
    apply (proj1 (proj2 (Allowed_without_quota Scenario.vm1 (Ref.start store0)
                           ltac:(reflexivity))) tenant0); reflexivity.
  - apply (proj2 (proj2 (@Allowed_without_quota unit (Stub.backend false)
                           Scenario.vm1 Stub.start ltac:(reflexivity)))).
    reflexivity.
Defined.

(** X4.  The four ways through [getStorage].  A workload that names an
    existing disk gets storage resources with an empty ID and no call is
    made.  For a new disk: a failure to create it is returned after that
    one call; a failure to record it is returned after the block device
    with the empty ID was deleted; otherwise the ID of the created device
    is returned.  The record handed to [AddBlockDevice] never carries the
    ID of the created device. *)
Theorem getStorage_paths {W} `{Backend W}
        (wl : Types.Workload) (s : Types.StorageResource) (tenant : string)
        (c : controller W) :
  Types.w_Storage wl = Some s →
  let created := CreateBlockDevice (Types.w_ImageID wl) (Types.s_Size s) (world c) in
  let data := Types.Build_BlockData (Types.Build_BlockDevice "")
                                    (Types.s_Size s) (clock c) tenant in
  let added := AddBlockDevice data created.2 in
  let create := CCreateBlockDevice (Types.w_ImageID wl) (Types.s_Size s) in
  (Types.s_ID s ≠ "" →
   getStorage wl tenant c
   = Ret ((Payloads.Build_StorageResources "" (Types.s_Bootable s), None), c))
  ∧ (Types.s_ID s = "" → ∀ e, created.1.2 = Some e →
     getStorage wl tenant c
     = Ret ((zeroStorage, Some e),
            mkController created.2 (calls c ++ [create])
                         (logs c) (uuids c) (clock c)))
  ∧ (Types.s_ID s = "" → created.1.2 = None → ∀ e, added.1 = Some e →
     getStorage wl tenant c
     = Ret ((zeroStorage, Some e),
            mkController (DeleteBlockDevice "" added.2).2
                         (calls c ++ [create; CAddBlockDevice data;
                                      CDeleteBlockDevice ""])
                         (logs c) (uuids c) (clock c)))
  ∧ (Types.s_ID s = "" → created.1.2 = None → added.1 = None →
     getStorage wl tenant c
     = Ret ((Payloads.Build_StorageResources
               (Types.bd_ID created.1.1) (Types.s_Bootable s), None),
            mkController added.2 (calls c ++ [create; CAddBlockDevice data])
                         (logs c) (uuids c) (clock c))).
Proof.
  intros Hs created data added create. unfold getStorage. rewrite Hs.
  split; [| split; [| split]].
  - intros Hid. apply String.eqb_neq in Hid. run. rewrite Hid. now destruct c.
  - intros Hid e He. run. rewrite Hid. cbn [String.eqb].
    subst created. destruct (CreateBlockDevice _ _ _) as [[device err] w1].
    cbn in He. subst err. reflexivity.
  - intros Hid Hc e He. run. rewrite Hid. cbn [String.eqb].
    subst added data created.
    destruct (CreateBlockDevice _ _ _) as [[device err] w1].
    cbn in Hc. subst err. cbn in *.
    destruct (AddBlockDevice _ w1) as [err w2]. cbn in He. subst err. cbn.
    destruct (DeleteBlockDevice "" w2) as [err w3]. cbn.
    now rewrite <- !app_assoc.
  - intros Hid Hc He. run. rewrite Hid. cbn [String.eqb].
    subst added data created.
    destruct (CreateBlockDevice _ _ _) as [[device err] w1].
    cbn in Hc. subst err. cbn in *.
    destruct (AddBlockDevice _ w1) as [err w2]. cbn in He. subst err. cbn.
    now rewrite <- app_assoc.
Qed.

Lemma getStorage_paths_witness :
  getStorage (diskWorkload "vol-7") "t1" Scenario.ctl1
  = Ret ((Payloads.Build_StorageResources "" true, None), Scenario.ctl1)
  ∧ (∃ c', getStorage (diskWorkload "") "t1" Scenario.ctl1_failing
           = Ret ((zeroStorage, Some Ref.StorageError), c'))
  ∧ (∃ c', getStorage (H := Stub.backend true) (diskWorkload "") "t1" Stub.start
           = Ret ((zeroStorage, Some "disk full"), c')
           ∧ calls c' = [CCreateBlockDevice "image-1" 20;
                         CAddBlockDevice
                           (Types.Build_BlockData (Types.Build_BlockDevice "")
                                                  20 0 "t1");
                         CDeleteBlockDevice ""])
  ∧ (∃ c', getStorage (H := Stub.backend false) (diskWorkload "") "t1" Stub.start
           = Ret ((Payloads.Build_StorageResources "vol-1" true, None), c')).
Proof.
  split; [| split; [| split]].
  - apply (proj1 (getStorage_paths (diskWorkload "vol-7") _ "t1" Scenario.ctl1
                    eq_refl)).
    discriminate.
  - eexists.
    apply (proj1 (proj2 (getStorage_paths (diskWorkload "") _ "t1"
                           Scenario.ctl1_failing eq_refl)));
      reflexivity.
  - eexists. split.
    + apply (proj1 (proj2 (proj2 (@getStorage_paths unit (Stub.backend true)
                                    (diskWorkload "") _ "t1" Stub.start eq_refl))));
        reflexivity.
    + reflexivity.
  - eexists.
    apply (proj2 (proj2 (proj2 (@getStorage_paths unit (Stub.backend false)
                                  (diskWorkload "") _ "t1" Stub.start eq_refl))));
      reflexivity.
Defined.

Lemma newConfig_regular_run {W} `{Backend W} `{GoLib} `{Payloads.Consts}
      (wl : Types.Workload) (instanceID tenantID : string)
      (c : controller W) (tenant : Types.Tenant) (e0 : option error)
      (a : Net.IP) (w1 : W) :
  isCNCIWorkload wl = false →
  GetTenant tenantID (world c) = (Some tenant, e0) →
  AllocateTenantIP tenantID (world c) = ((a, None), w1) →
  Types.w_Storage wl = None →
  ∃ cfg c1,
    newConfig wl instanceID tenantID c
    = Ret ((cfg, (json_MarshalIndent_UserData instanceID instanceID).2), c1)
    ∧ cnci cfg = false
    ∧ ip cfg = IP_String a
    ∧ mac cfg = HardwareAddr_String (HwAddr.newTenantHardwareAddr a)
    ∧ Payloads.Networking (Payloads.Start_ (sc cfg))
      = Payloads.Build_NetworkResources
          (HardwareAddr_String (HwAddr.newTenantHardwareAddr a))
          (uuid_Generate (uuids c))
          (Types.CNCIID tenant) (Types.CNCIIP tenant)
          (IPNet_String (IP_Mask a (IPv4Mask xff xff xff x00))
                        (IPv4Mask xff xff xff x00))
          (IP_String a)
    ∧ Payloads.RequestedResources (Payloads.Start_ (sc cfg)) = Types.w_Defaults wl
    ∧ Payloads.TenantUUID (Payloads.Start_ (sc cfg)) = tenantID
    ∧ Payloads.InstanceUUID (Payloads.Start_ (sc cfg)) = instanceID
    ∧ Payloads.Storage (Payloads.Start_ (sc cfg)) = zeroStorage
    ∧ world c1 = w1
    ∧ calls c1 = calls c ++ [CGetTenant tenantID; CAllocateTenantIP tenantID]
    ∧ uuids c1 = S (uuids c).
Proof.
  intros Hw Ht Ha Hs. unfold newConfig. rewrite Hw, Hs. run. rewrite Ht.
  destruct e0 as [e0|]; cbn [negb]; run; rewrite Ha; run;
    destruct (yaml_Marshal_Start _) as [y [ey|]];
    destruct (json_MarshalIndent_UserData _ _) as [b [eb|]];
    unfold warn; run; (eexists _, _; split; [reflexivity |]);
    cbn; rewrite <- ?app_assoc; repeat split; reflexivity.
Qed.

(** X5.  [newConfig] for a workload that is not a CNCI and has no disk,
    when the tenant is found and an address is allocated: two calls are
    made, [GetTenant] and [AllocateTenantIP]; the configuration carries
    the allocated address, the MAC derived from it, the concentrator of
    the tenant and the requested resources of the workload; the error
    returned is that of marshalling the user data, so an error of
    [GetTenant] that came with a tenant record is dropped. *)
Theorem newConfig_regular {W} `{Backend W} `{GoLib} `{Payloads.Consts}
        (wl : Types.Workload) (instanceID tenantID : string)
        (c : controller W) (tenant : Types.Tenant) (e0 : option error)
        (a : Net.IP) (w1 : W) :
  isCNCIWorkload wl = false →
  GetTenant tenantID (world c) = (Some tenant, e0) →
  AllocateTenantIP tenantID (world c) = ((a, None), w1) →
  Types.w_Storage wl = None →
  ∃ cfg c1,
    newConfig wl instanceID tenantID c
    = Ret ((cfg, (json_MarshalIndent_UserData instanceID instanceID).2), c1)
    ∧ cnci cfg = false
    ∧ ip cfg = IP_String a
    ∧ mac cfg = HardwareAddr_String (HwAddr.newTenantHardwareAddr a)
    ∧ Payloads.PrivateIP (Payloads.Networking (Payloads.Start_ (sc cfg)))
      = IP_String a
    ∧ Payloads.VnicMAC (Payloads.Networking (Payloads.Start_ (sc cfg)))
      = mac cfg
    ∧ Payloads.ConcentratorUUID (Payloads.Networking (Payloads.Start_ (sc cfg)))
      = Types.CNCIID tenant
    ∧ Payloads.ConcentratorIP (Payloads.Networking (Payloads.Start_ (sc cfg)))
      = Types.CNCIIP tenant
    ∧ Payloads.RequestedResources (Payloads.Start_ (sc cfg)) = Types.w_Defaults wl
    ∧ world c1 = w1
    ∧ calls c1 = calls c ++ [CGetTenant tenantID; CAllocateTenantIP tenantID].
Proof.
  intros Hw Ht Ha Hs.
  destruct (newConfig_regular_run wl instanceID tenantID c tenant e0 a w1
              Hw Ht Ha Hs)
    as (cfg & c1 & E & Hc & Hi & Hm & Hn & Hr & _ & _ & _ & Hwd & Hcl & _).
  exists cfg, c1. split; [exact E |]. rewrite Hn, Hm. cbn.
  repeat split; assumption.
Qed.

Lemma newConfig_regular_witness :
  ∃ cfg c1,
    newConfig Scenario.vmWorkload "i9" "t1" Scenario.ctl1 = Ret ((cfg, None), c1)
    ∧ ip cfg = "172.16.0.3"
    ∧ mac cfg = "02:00:ac:10:00:03"
    ∧ calls c1 = [CGetTenant "t1"; CAllocateTenantIP "t1"].
Proof.
  destruct (@newConfig_regular _ Ref.backend Ref.lib Ref.consts
              Scenario.vmWorkload "i9" "t1" Scenario.ctl1 Scenario.tenant1 None
              Scenario.addr3
              (AllocateTenantIP "t1" (world Scenario.ctl1)).2
              ltac:(reflexivity) ltac:(reflexivity) ltac:(reflexivity)
              ltac:(reflexivity))
    as (cfg & c1 & E & _ & Hi & Hm & _ & _ & _ & _ & _ & _ & Hc).
  exists cfg, c1. split; [exact E |]. split; [exact Hi |].
  split; [exact Hm | exact Hc].
Defined.

(** X6.  What [newConfig] does when it cannot go on.  If no address can
    be allocated, the error of [AllocateTenantIP] is returned with an
    empty configuration, with or without a tenant record.  If [GetTenant]
    returned no tenant record, [newConfig] panics on the nil tenant: at
    once for a CNCI workload, and for any other workload after an address
    was allocated. *)
Theorem newConfig_cannot_go_on {W} `{Backend W} `{GoLib} `{Payloads.Consts}
        (wl : Types.Workload) (instanceID tenantID : string)
        (c : controller W) :
  (∀ t e0 a e w1,
      isCNCIWorkload wl = false →
      GetTenant tenantID (world c) = (t, e0) →
      AllocateTenantIP tenantID (world c) = ((a, Some e), w1) →
      ∃ c1, newConfig wl instanceID tenantID c
            = Ret ((mkConfig zeroStart "" false "" "", Some e), c1)
            ∧ world c1 = w1
            ∧ calls c1 = calls c ++ [CGetTenant tenantID;
                                     CAllocateTenantIP tenantID])
  ∧ (∀ e0, isCNCIWorkload wl = true →
           GetTenant tenantID (world c) = (None, e0) →
           ∃ msg, newConfig wl instanceID tenantID c = Panic msg)
  ∧ (∀ e0 a w1,
        isCNCIWorkload wl = false →
        GetTenant tenantID (world c) = (None, e0) →
        AllocateTenantIP tenantID (world c) = ((a, None), w1) →
        ∃ msg, newConfig wl instanceID tenantID c = Panic msg).
Proof.
  split; [| split].
  - intros t e0 a e w1 Hw Ht Ha. unfold newConfig. rewrite Hw. run. rewrite Ht.
    destruct e0 as [e0|]; cbn [negb]; run; rewrite Ha; run;
      (eexists; split; [reflexivity |]); cbn; rewrite <- ?app_assoc;
      split; reflexivity.
  - intros e0 Hw Ht. unfold newConfig. rewrite Hw. run. rewrite Ht.
    destruct e0 as [e0|]; cbn [negb]; run; eauto.
  - intros e0 a w1 Hw Ht Ha. unfold newConfig. rewrite Hw. run. rewrite Ht.
    destruct e0 as [e0|]; cbn [negb]; run; rewrite Ha; run; eauto.
Qed.

Lemma newConfig_cannot_go_on_witness :
  (∃ c1, newConfig Scenario.vmWorkload "i9" "t1" Scenario.ctl1_failing
         = Ret ((mkConfig zeroStart "" false "" "", Some Ref.StorageError), c1))
  ∧ (∃ msg, newConfig (H := Stub.backend false) Scenario.cnciWorkload
                      "c9" "t1" Stub.start = Panic msg)
  ∧ (∃ msg, newConfig (H := Stub.backend false) Scenario.vmWorkload
                      "i9" "t1" Stub.start = Panic msg).
Proof.
  split; [| split].
  - destruct (proj1 (@newConfig_cannot_go_on _ Ref.backend Ref.lib Ref.consts
                       Scenario.vmWorkload "i9" "t1" Scenario.ctl1_failing)
                None (Some Ref.StorageError) [] Ref.StorageError
                (world Scenario.ctl1_failing)
                ltac:(reflexivity) ltac:(reflexivity) ltac:(reflexivity))
      as (c1 & E & _).
    now exists c1.
  - apply (proj1 (proj2 (@newConfig_cannot_go_on _ (Stub.backend false)
                           Ref.lib Ref.consts Scenario.cnciWorkload "c9" "t1"
                           Stub.start)) None); reflexivity.
  - apply (proj2 (proj2 (@newConfig_cannot_go_on _ (Stub.backend false)
                           Ref.lib Ref.consts Scenario.vmWorkload "i9" "t1"
                           Stub.start)) None [xac; x10; x00; x09] tt);
      reflexivity.
Defined.

(** X7.  An error of [getStorage] does not stop [newConfig]: the error
    is logged, the configuration is completed with empty storage
    resources and the address already allocated, and the error is not
    returned. *)
Theorem newConfig_goes_on_without_storage
        {W} `{Backend W} `{GoLib} `{Payloads.Consts}
        (wl : Types.Workload) (instanceID tenantID : string)
        (c c2 : controller W) (tenant : Types.Tenant)
        (a : Net.IP) (w1 : W) (s : Types.StorageResource)
        (st : Payloads.StorageResources) (e : error) :
  isCNCIWorkload wl = false →
  GetTenant tenantID (world c) = (Some tenant, None) →
  AllocateTenantIP tenantID (world c) = ((a, None), w1) →
  Types.w_Storage wl = Some s →
  getStorage wl tenantID
    (mkController w1
       (calls c ++ [CGetTenant tenantID; CAllocateTenantIP tenantID])
       (logs c) (S (uuids c)) (clock c))
  = Ret ((st, Some e), c2) →
  ∃ cfg c3,
    newConfig wl instanceID tenantID c
    = Ret ((cfg, (json_MarshalIndent_UserData instanceID instanceID).2), c3)
    ∧ Payloads.Storage (Payloads.Start_ (sc cfg)) = st
    ∧ ip cfg = IP_String a
    ∧ e ∈ logs c3
    ∧ world c3 = world c2
    ∧ calls c3 = calls c2.
Proof.
  intros Hw Ht Ha Hs Hg. unfold newConfig. rewrite Hw, Hs.
  unfold ds_GetTenant, ds_AllocateTenantIP, read, update, record_call,
    uuid_Generate_String, deref, log_line.
  run_monad. rewrite Ht. cbn [negb]. run_monad. rewrite Ha. run_monad.
  rewrite <- app_assoc. cbn [app]. rewrite Hg. unfold warn, log_line.
  run_monad.
  destruct (yaml_Marshal_Start _) as [y [ey|]];
    destruct (json_MarshalIndent_UserData _ _) as [b [eb|]];
    unfold log_line; run_monad; (eexists _, _; split; [reflexivity |]); cbn;
    repeat split; try reflexivity;
    rewrite ?elem_of_app, ?list_elem_of_singleton; tauto.
Qed.

Lemma newConfig_goes_on_without_storage_witness :
  ∃ cfg c3,
    newConfig (H := Stub.known true) (diskWorkload "") "i9" "t1"
              (mkController tt [] [] 0 0)
    = Ret ((cfg, None), c3)
    ∧ Payloads.Storage (Payloads.Start_ (sc cfg)) = zeroStorage
    ∧ "disk full" ∈ logs c3.
Proof.
  destruct (@newConfig_goes_on_without_storage _ (Stub.known true)
              Ref.lib Ref.consts (diskWorkload "") "i9" "t1"
              (mkController tt [] [] 0 0)
              (mkController tt
                 [CGetTenant "t1"; CAllocateTenantIP "t1";
                  CCreateBlockDevice "image-1" 20;
                  CAddBlockDevice
                    (Types.Build_BlockData (Types.Build_BlockDevice "")
                                           20 0 "t1");
                  CDeleteBlockDevice ""] [] 1%nat 0)
              (Types.Build_Tenant "cnci-0" "02:00:ac:10:00:00"
                                  "192.168.0.1" [])
              [xac; x10; x00; x09] tt
              (Types.Build_StorageResource "" true 20) zeroStorage "disk full"
              ltac:(reflexivity) ltac:(reflexivity) ltac:(reflexivity)
              ltac:(reflexivity) ltac:(reflexivity))
    as (cfg & c3 & E & Hst & _ & Hlog & _).
  now exists cfg, c3.
Defined.

(** X8.  [newInstance] for a workload that is not a CNCI and has no
    disk, when the tenant is found and an address is allocated.  If the
    user data can be marshalled, the instance is pending, is named by the
    UUID drawn first, carries the allocated address, its MAC and the
    resources that its configuration asks for, which are the defaults of
    the workload, and [Clean] of that instance releases
    exactly the address that was allocated.  If the user data cannot be
    marshalled, no instance is returned and the address stays allocated:
    no call releases it. *)
Theorem newInstance_then_Clean {W} `{Backend W} `{GoLib} `{Payloads.Consts}
        (wl : Types.Workload) (tenantID : string)
        (c : controller W) (tenant : Types.Tenant) (e0 : option error)
        (a : Net.IP) (w1 : W) :
  isCNCIWorkload wl = false →
  GetTenant tenantID (world c) = (Some tenant, e0) →
  AllocateTenantIP tenantID (world c) = ((a, None), w1) →
  Types.w_Storage wl = None →
  match (json_MarshalIndent_UserData (uuid_Generate (uuids c))
                                     (uuid_Generate (uuids c))).2 with
  | None =>
      ∃ i c1 c2,
        newInstance tenantID wl c = Ret ((Some i, None), c1)
        ∧ Types.State (Instance i) = Payloads.Pending
        ∧ Types.ID (Instance i) = uuid_Generate (uuids c)
        ∧ Types.TenantID (Instance i) = tenantID
        ∧ Types.WorkloadID (Instance i) = Types.w_ID wl
        ∧ Types.CNCI (Instance i) = false
        ∧ Types.IPAddress (Instance i) = IP_String a
        ∧ Types.MACAddress (Instance i)
          = HardwareAddr_String (HwAddr.newTenantHardwareAddr a)
        ∧ Types.i_Usage (Instance i) = GetResources (newConfig_ i)
        ∧ Payloads.RequestedResources (Payloads.Start_ (sc (newConfig_ i)))
          = Types.w_Defaults wl
        ∧ Clean i c1 = Ret (None, c2)
        ∧ world c2 = (ReleaseTenantIP tenantID (IP_String a) w1).2
        ∧ calls c2 = calls c ++ [CGetTenant tenantID;
                                 CAllocateTenantIP tenantID;
                                 CReleaseTenantIP tenantID (IP_String a)]
  | Some e =>
      ∃ c1, newInstance tenantID wl c = Ret ((None, Some e), c1)
            ∧ world c1 = w1
            ∧ calls c1 = calls c ++ [CGetTenant tenantID;
                                     CAllocateTenantIP tenantID]
  end.
Proof.
  intros Hw Ht Ha Hs. unfold newInstance.
  unfold mbind at 1, M_bind at 1, uuid_Generate_String. run_monad.
  set (c0 := mkController (world c) (calls c) (logs c) (S (uuids c)) (clock c)).
  destruct (newConfig_regular_run wl (uuid_Generate (uuids c)) tenantID c0
              tenant e0 a w1 Hw Ht Ha Hs)
    as (cfg & c1 & E & Hc & Hi & Hm & _ & Hr & _ & _ & _ & Hwd & Hcl & _).
  rewrite E.
  destruct (json_MarshalIndent_UserData _ _).2 as [e|].
  - exists c1. split; [reflexivity |]. split; assumption.
  - eexists _, c1,
      (mkController (ReleaseTenantIP tenantID (ip cfg) (world c1)).2
         (calls c1 ++ [CReleaseTenantIP tenantID (ip cfg)])
         (logs c1) (uuids c1) (clock c1)).
    split; [reflexivity |]. cbn [Instance Types.State
      Types.ID Types.TenantID Types.WorkloadID Types.CNCI Types.IPAddress
      Types.MACAddress Types.i_Usage].
    cbn [newConfig_].
    do 9 (split; [first [reflexivity | assumption] |]).
    unfold Clean. cbn [Instance Types.CNCI Types.TenantID Types.IPAddress].
    rewrite Hc. cbn [negb]. run.
    destruct (ReleaseTenantIP _ _ _) as [r w2] eqn:Er.
    run. rewrite ?Er. cbn [snd]. split; [reflexivity |]. cbn.
    rewrite <- Hi, <- Hwd, Hcl, ?Er. cbn. rewrite <- app_assoc. split; reflexivity.
Qed.

Lemma newInstance_then_Clean_witness :
  ∃ i c1 c2,
    newInstance "t1" Scenario.vmWorkload Scenario.ctl1 = Ret ((Some i, None), c1)
    ∧ Types.IPAddress (Instance i) = "172.16.0.3"
    ∧ Clean i c1 = Ret (None, c2)
    ∧ calls c2 = [CGetTenant "t1"; CAllocateTenantIP "t1";
                  CReleaseTenantIP "t1" "172.16.0.3"].
Proof.
  destruct (@newInstance_then_Clean _ Ref.backend Ref.lib Ref.consts
              Scenario.vmWorkload "t1" Scenario.ctl1 Scenario.tenant1 None
              Scenario.addr3
              (AllocateTenantIP "t1" (world Scenario.ctl1)).2
              ltac:(reflexivity) ltac:(reflexivity) ltac:(reflexivity)
              ltac:(reflexivity))
    as (i & c1 & c2 & E & _ & _ & _ & _ & _ & Hi & _ & _ & _ & Hcl & _ & Hc).
  exists i, c1, c2. repeat split; assumption.
Defined.

End ControllerExtra.

Module ComputeExtra.
Import Compute ComputeSpec ComputeMore.

Section Facts.
Context {W : Type} `{Backend W} `{GoLib} `{Payloads.Consts} `{WebLib}.

(** X9.  [validateToken] looks at the first value of the X-Auth-Token
    header only.  Without the header the answer is no; with a header
    that has no value the code indexes an empty slice and panics.
    Otherwise the token is accepted if it validates for the tenant of
    the request and the compute service (named ciao, nova, or unnamed),
    provided the request names a tenant, or if it carries one of the two
    admin roles, whatever the tenant. *)
Theorem validateToken_first_token (w : W) (r : Request) :
  match Header r !! "X-Auth-Token" with
  | None => validateToken w r = Ret false
  | Some [] => ∃ msg, validateToken w r = Panic msg
  | Some (t :: _) =>
      let tenant := var r "tenant" in
      validateToken w r
      = Ret (negb (String.eqb tenant "")
             && (validateService t tenant "compute" "ciao" w
                 || validateService t tenant "compute" "nova" w
                 || validateService t tenant "compute" "" w)
             || validateProjectRole t "service" "admin" w
             || validateProjectRole t "admin" "admin" w)
  end.
Proof.
  unfold validateToken, tenantToken, adminToken.
  destruct (Header r !! "X-Auth-Token") as [[|t rest]|].
  - destruct (String.eqb _ _); cbn; eauto.
  - cbn. destruct (String.eqb (var r "tenant") ""); cbn.
    + now rewrite orb_false_r.
    + repeat match goal with
             | |- context [validateService ?a ?b ?c ?d ?e] =>
                 destruct (validateService a b c d e)
             end; cbn; now rewrite ?orb_false_r.
  - destruct (String.eqb _ _); reflexivity.
Qed.

Lemma validateToken_unblocked (w : W) (r : Request) :
  validateToken w r ≠ Blocked.
Proof.
  unfold validateToken, tenantToken, adminToken, first_token.
  destruct (Header r !! "X-Auth-Token") as [[|t rest]|];
    repeat case_match; discriminate.
Qed.

Ltac enter_handler Hv :=
  unfold dumpRequest, dumpRequestBody, c_validateToken; run_monad;
  match goal with
  | |- context [validateToken ?w ?r] =>
      destruct (validateToken w r) as [[|]|m|] eqn:Hv;
      [| | | now apply validateToken_unblocked in Hv]
  end; run_monad; cbn [negb].

Ltac lookup Hg :=
  unfold ds_GetInstance, ds_GetWorkload, read, record_call; run_monad;
  match goal with
  | |- context [GetInstance ?id ?w] =>
      destruct (GetInstance id w) as [[?i|] [?e|]] eqn:Hg
  end; unfold deref; run_monad.

(** X10.  [showServerDetails] only reads.  Whenever it answers, the
    collaborators are as before and the calls it made are lookups; an
    answer 200 is given only to a request with a valid token for an
    instance that exists, belongs to the tenant of the request and
    whose workload is found, and carries the server record of that
    instance; it panics only if token validation does, or if a lookup
    answers with neither a record nor an error. *)
Theorem showServerDetails_reads_only (r : Request) (c : controller W) :
  let server := var r "server" in
  match showServerDetails r c with
  | Ret (resp, c') =>
      world c' = world c
      ∧ (∃ l, calls c' = calls c ++ l
              ∧ Forall (λ x, ∃ id, x = CGetInstance id ∨ x = CGetWorkload id) l)
      ∧ (status resp = StatusOK →
         validateToken (world c) r = Ret true
         ∧ ∃ i wl,
             GetInstance server (world c) = (Some i, None)
             ∧ Types.TenantID i = var r "tenant"
             ∧ GetWorkload (Types.WorkloadID i) (world c) = (Some wl, None)
             ∧ json_Marshal_ComputeServer (server_of i wl)
               = (written resp, None)
             ∧ contentType resp = "application/json"
             ∧ calls c' = calls c ++ [CGetInstance server;
                                      CGetWorkload (Types.WorkloadID i)])
  | Panic _ =>
      (∃ m, validateToken (world c) r = Panic m)
      ∨ GetInstance server (world c) = (None, None)
      ∨ (∃ i, GetInstance server (world c) = (Some i, None)
              ∧ GetWorkload (Types.WorkloadID i) (world c) = (None, None))
  | Blocked => False
  end.
Proof.
  assert (Hno : ∀ code msg, code ≠ StatusOK →
                  status (returnErrorCode code msg []) = StatusOK → False).
  { intros code msg Hc. now rewrite ComputeFacts.status_returnErrorCode. }
  cbn zeta. unfold showServerDetails. enter_handler Hv.
  2:{ split; [reflexivity |]. split; [exists []; now rewrite app_nil_r |].
      intros Hs. now apply Hno in Hs. }
  2:{ left. now exists m. }
  lookup Hg.
  1,3: split; [reflexivity |]; (split; [eexists [_]; split;
         [reflexivity | repeat constructor; eexists; now left] |]);
       intros Hs; now apply Hno in Hs.
  2:{ right. now left. }
  destruct (String.eqb_spec (Types.TenantID i) (var r "tenant")) as [Ht | Ht];
    cbn [negb].
  2:{ split; [reflexivity |]. split; [eexists [_]; split;
        [reflexivity | repeat constructor; eexists; now left] |].
      intros Hs. now apply Hno in Hs. }
  unfold instanceToServer, ds_GetWorkload, read, record_call, deref. run_monad.
  destruct (GetWorkload (Types.WorkloadID i) (world c))
    as [[wl|] [e|]] eqn:Hw; run_monad.
  1,3: split; [reflexivity |]; (split; [eexists [_; _]; split;
         [now rewrite <- app_assoc
         | repeat constructor; eexists; [now left | now right]] |]);
       intros Hs; now apply Hno in Hs.
  2:{ right. right. now exists i. }
  fold (server_of i wl).
  destruct (json_Marshal_ComputeServer (server_of i wl)) as [b [e|]] eqn:Hj;
    run_monad.
  - split; [reflexivity |]. split; [eexists [_; _]; split;
      [now rewrite <- app_assoc
      | repeat constructor; eexists; [now left | now right]] |].
    intros Hs. now apply Hno in Hs.
  - split; [reflexivity |]. split; [eexists [_; _]; split;
      [now rewrite <- app_assoc
      | repeat constructor; eexists; [now left | now right]] |].
    intros _. split; [reflexivity |]. exists i, wl. cbn.
    rewrite <- app_assoc. now repeat split.
Qed.

(** X11.  [deleteServer] calls [deleteInstance] exactly when the token
    is valid and the named instance exists and belongs to the tenant of
    the request; the answer is then 202 with an empty body, or 500 with
    the error of the call, whose text [returnErrorCode] takes as the
    format of the message and passes through [fmt.Sprintf] without
    arguments.  In every other case that answers, nothing is changed,
    the only call is the lookup, and the answer is 401 or 404. *)
Theorem deleteServer_outcomes (r : Request) (c : controller W) :
  let server := var r "server" in
  match deleteServer r c with
  | Ret (resp, c') =>
      (∃ i, validateToken (world c) r = Ret true
            ∧ GetInstance server (world c) = (Some i, None)
            ∧ Types.TenantID i = var r "tenant"
            ∧ resp = answer (deleteInstance server (world c)).1
            ∧ c' = called c (deleteInstance server (world c)).2
                          [CGetInstance server; CdeleteInstance server])
      ∨ ((c' = c ∧ status resp = StatusUnauthorized
          ∧ validateToken (world c) r = Ret false)
         ∨ (c' = called c (world c) [CGetInstance server]
            ∧ status resp = StatusNotFound
            ∧ turned_away (var r "tenant") (world c) server))
  | Panic _ =>
      (∃ m, validateToken (world c) r = Panic m)
      ∨ GetInstance server (world c) = (None, None)
  | Blocked => False
  end.
Proof.
  cbn zeta. unfold deleteServer. enter_handler Hv.
  2:{ right. left. split; [reflexivity |].
      split; [apply ComputeFacts.status_returnErrorCode | reflexivity]. }
  2:{ left. now exists m. }
  lookup Hg.
  1,3: right; right; split; [reflexivity |];
       (split; [apply ComputeFacts.status_returnErrorCode |]);
       left; eauto.
  2:{ now right. }
  destruct (String.eqb_spec (Types.TenantID i) (var r "tenant")) as [Ht | Ht];
    cbn [negb].
  2:{ right. right. split; [reflexivity |].
      split; [apply ComputeFacts.status_returnErrorCode |].
      right. now exists i. }
  unfold c_deleteInstance, update, record_call. run_monad.
  destruct (deleteInstance (var r "server") (world c)) as [[e|] w'];
    run_monad; left; exists i; (do 3 (split; [done |]));
    cbn; unfold called; rewrite <- app_assoc; now split.
Qed.

(** X12.  [serverAction], for a valid token and an instance of the
    tenant, looks for the action in the text of the body: a body that
    contains os-start restarts the instance, even if it contains
    os-stop as well; otherwise a body that contains os-stop stops it;
    any other body is answered with 503 and no lifecycle call.  A body
    that cannot be read is answered with 400, after the lookup.  The
    answer after the call is 202, or 500 with the error of the call,
    whose text [returnErrorCode] takes as the format of the message and
    passes through [fmt.Sprintf] without arguments. *)
Theorem serverAction_outcomes (r : Request) (c : controller W)
        (i : Types.Instance) :
  let server := var r "server" in
  validateToken (world c) r = Ret true →
  GetInstance server (world c) = (Some i, None) →
  Types.TenantID i = var r "tenant" →
  serverAction r c
  = match Body r with
    | (_, Some _) =>
        Ret (returnErrorCode StatusBadRequest
                             "Service cannot read Request Body" [],
             called c (world c) [CGetInstance server])
    | (body, None) =>
        if strings_Contains body "os-start" then
          Ret (answer (restartInstance server (world c)).1,
               called c (restartInstance server (world c)).2
                      [CGetInstance server; CrestartInstance server])
        else if strings_Contains body "os-stop" then
          Ret (answer (stopInstance server (world c)).1,
               called c (stopInstance server (world c)).2
                      [CGetInstance server; CstopInstance server])
        else
          Ret (returnErrorCode StatusServiceUnavailable "Unsupported action" [],
               called c (world c) [CGetInstance server])
    end.
Proof.
  cbn zeta. intros Hv Hg Ht. unfold serverAction, dumpRequestBody,
    c_validateToken, ds_GetInstance, read, record_call, deref.
  run_monad. rewrite Hv. run_monad. cbn [negb]. rewrite Hg. run_monad.
  apply String.eqb_eq in Ht. rewrite Ht. cbn [negb].
  destruct (Body r) as [body [e|]]; [reflexivity |].
  destruct (strings_Contains body "os-start").
  - unfold c_restartInstance, update, record_call. run_monad.
    destruct (restartInstance _ _) as [[e|] w']; run_monad; cbn;
      unfold called; now rewrite <- app_assoc.
  - destruct (strings_Contains body "os-stop"); [| reflexivity].
    unfold c_stopInstance, update, record_call. run_monad.
    destruct (stopInstance _ _) as [[e|] w']; run_monad; cbn;
      unfold called; now rewrite <- app_assoc.
Qed.

Lemma called_called (c : controller W) w1 l1 w2 l2 :
  called (called c w1 l1) w2 l2 = called c w2 (l1 ++ l2).
Proof. unfold called. cbn. now rewrite app_assoc. Qed.

Lemma called_nil (c : controller W) : called c (world c) [] = c.
Proof. unfold called. rewrite app_nil_r. now destruct c. Qed.

Lemma action_fn_run (action id : string) (c : controller W) :
  action_fn action id c
  = Ret ((action_op action id (world c)).1,
         called c (action_op action id (world c)).2 [action_call action id]).
Proof.
  unfold action_fn, action_op, action_call.
  destruct (String.eqb action "os-start");
    [| destruct (String.eqb action "os-stop")];
    unfold c_restartInstance, c_stopInstance, c_deleteInstance, update,
      record_call; run_monad;
    match goal with
    | |- context [let '(_, _) := ?x in _] => destruct x as [err w']
    end; reflexivity.
Qed.

Lemma action_op_isolated (action id id' : string) (w : W) :
  lifecycle_isolated id → id' ≠ id →
  GetInstance id (action_op action id' w).2 = GetInstance id w.
Proof.
  intros Hiso Hne. destruct (Hiso id' w Hne) as (Hr1 & Hr2 & Hr3).
  unfold action_op.
  destruct (String.eqb action "os-start");
    [| destruct (String.eqb action "os-stop")]; assumption.
Qed.

Lemma chosen_supported (action : string) :
  supported action →
  ((if String.eqb action "os-start" then
      Some (c_restartInstance, Payloads.ComputeStatusStopped)
    else if String.eqb action "os-stop" then
      Some (c_stopInstance, Payloads.ComputeStatusRunning)
    else if String.eqb action "os-delete" then
      Some (c_deleteInstance, "")
    else None) : option (instanceAction * string))
  = Some (action_fn action, action_filter action).
Proof.
  unfold supported, action_fn, action_filter. intros Hs.
  repeat (apply elem_of_cons in Hs as [-> | Hs]);
    [reflexivity | reflexivity | reflexivity | now apply elem_of_nil in Hs].
Qed.

Lemma instances_loop_run (action : string) (instances : list Types.Instance)
      (c : controller W) :
  let ids := Types.ID <$> filter (selected action) instances in
  instances_loop (action_fn action) (action_filter action) instances c
  = Ret (tt, called c (apply_all action ids (world c))
                    (action_call action <$> ids)).
Proof.
  cbn zeta. revert c. induction instances as [|i rest IH]; intros c.
  - cbn. now rewrite called_nil.
  - cbn [instances_loop]. run_monad. rewrite filter_cons.
    destruct (decide (selected action i)) as [Hs | Hs].
    + assert (Hf : negb (String.eqb (action_filter action) "")
                   && negb (String.eqb (Types.State i) (action_filter action))
                   = false).
      { destruct Hs as [-> | ->]; [reflexivity |].
        rewrite String.eqb_refl. apply andb_false_r. }
      rewrite Hf, action_fn_run. run_monad. rewrite IH. cbn.
      now rewrite called_called.
    + assert (Hf : negb (String.eqb (action_filter action) "")
                   && negb (String.eqb (Types.State i) (action_filter action))
                   = true).
      { apply andb_true_iff. split; apply negb_true_iff, String.eqb_neq;
          intros E; apply Hs; [now left | now right]. }
      rewrite Hf. run_monad. apply IH.
Qed.

Lemma serverIDs_loop_owned (action tenant : string) (pre tail : list string)
      (c : controller W) :
  (∀ id, lifecycle_isolated id) →
  NoDup pre →
  Forall (owned tenant (world c)) pre →
  serverIDs_loop (action_fn action) tenant (pre ++ tail) c
  = serverIDs_loop (action_fn action) tenant tail
      (called c (apply_all action pre (world c)) (visits action pre))
  ∧ ∀ id, id ∉ pre →
          GetInstance id (apply_all action pre (world c))
          = GetInstance id (world c).
Proof.
  intros Hiso. revert c. induction pre as [|id pre IH]; intros c Hnd Hown.
  - cbn. now rewrite called_nil.
  - apply NoDup_cons in Hnd as [Hnotin Hnd].
    apply Forall_cons in Hown as [(i & Hg & Ht) Hown].
    set (w1 := (action_op action id (world c)).2).
    set (c1 := called c w1 [CGetInstance id; action_call action id]).
    assert (Hown1 : Forall (owned tenant (world c1)) pre).
    { apply Forall_forall. intros id' Hin.
      rewrite Forall_forall in Hown. destruct (Hown id' Hin) as (i' & Hg' & Ht').
      exists i'. split; [| exact Ht']. cbn. unfold w1.
      rewrite action_op_isolated; [exact Hg' | apply Hiso |].
      intros ->. contradiction. }
    destruct (IH c1 Hnd Hown1) as [Hrun Hsame]. split.
    + cbn [app serverIDs_loop]. unfold ds_GetInstance, read, record_call, deref.
      run_monad. rewrite Hg. run_monad.
      apply String.eqb_eq in Ht. rewrite Ht. cbn [negb].
      rewrite action_fn_run. run_monad.
      change (mkController (world c) (calls c ++ [CGetInstance id])
                           (logs c) (uuids c) (clock c))
        with (called c (world c) [CGetInstance id]).
      rewrite called_called. cbn [app]. fold w1. fold c1.
      rewrite Hrun. unfold c1. rewrite called_called. reflexivity.
    + intros id' Hnot. apply not_elem_of_cons in Hnot as [Hne Hnot].
      change (apply_all action (id :: pre) (world c))
        with (apply_all action pre (world c1)).
      rewrite (Hsame id' Hnot). cbn. unfold w1.
      apply action_op_isolated; [apply Hiso | congruence].
Qed.

(** X13.  [tenantServersAction] with a supported action and no server
    named acts on the instances of the tenant that are in the state the
    action applies to (stopped ones for os-start, running ones for
    os-stop, all of them for os-delete), in the order the datastore
    lists them, and answers 202 whatever the results of the operations;
    if the instances cannot be listed the answer is 404 and nothing is
    done. *)
Theorem tenantServersAction_all_instances (r : Request) (c : controller W)
        (body : string) (servers : CiaoServersAction) :
  let tenant := var r "tenant" in
  validateToken (world c) r = Ret true →
  Body r = (body, None) →
  json_Unmarshal_ServersAction body = (servers, None) →
  supported (Action servers) →
  ServerIDs servers = [] →
  tenantServersAction r c
  = match GetAllInstancesFromTenant tenant (world c) with
    | (_, Some _) =>
        Ret (returnErrorCode StatusNotFound "No instances for tenant" [],
             called c (world c) [CGetAllInstancesFromTenant tenant])
    | (instances, None) =>
        let ids := Types.ID <$> filter (selected (Action servers)) instances in
        Ret (mkResponse StatusAccepted "" "",
             called c (apply_all (Action servers) ids (world c))
                    (CGetAllInstancesFromTenant tenant
                     :: (action_call (Action servers) <$> ids)))
    end.
Proof.
  cbn zeta. intros Hv Hb Hj Hs Hids.
  unfold tenantServersAction, dumpRequestBody, c_validateToken.
  run_monad. rewrite Hv. run_monad. cbn [negb]. rewrite Hb, Hj.
  rewrite (chosen_supported _ Hs), Hids.
  change (0 <? Z.of_nat (length (@nil string))) with false. cbv iota.
  unfold ds_GetAllInstancesFromTenant, read, record_call. run_monad.
  destruct (GetAllInstancesFromTenant _ _) as [instances [e|]]; [reflexivity |].
  rewrite instances_loop_run. cbn. unfold called. cbn.
  now rewrite <- app_assoc.
Qed.

(** X14.  [tenantServersAction] with a supported action on a list of
    servers works through the list in order and is not atomic.  While
    the servers exist and belong to the tenant, each is looked up and
    acted on, whatever the result of the operation; if all of them are,
    the answer is 202.  The first server whose lookup fails or that
    belongs to another tenant ends the request with 404: the servers
    before it have been acted on, the ones after it are not looked at.
    Stated for servers named once, where an operation on one instance
    leaves the records of the others as they are. *)
Theorem tenantServersAction_named_servers (r : Request) (c : controller W)
        (body : string) (servers : CiaoServersAction) (pre : list string) :
  let tenant := var r "tenant" in
  let action := Action servers in
  validateToken (world c) r = Ret true →
  Body r = (body, None) →
  json_Unmarshal_ServersAction body = (servers, None) →
  supported action →
  (∀ id, lifecycle_isolated id) →
  NoDup pre →
  Forall (owned tenant (world c)) pre →
  (ServerIDs servers = pre → pre ≠ [] →
   tenantServersAction r c
   = Ret (mkResponse StatusAccepted "" "",
          called c (apply_all action pre (world c)) (visits action pre)))
  ∧ (∀ bad rest,
        ServerIDs servers = pre ++ bad :: rest →
        bad ∉ pre →
        turned_away tenant (world c) bad →
        ∃ resp,
          tenantServersAction r c
          = Ret (resp,
                 called c (apply_all action pre (world c))
                        (visits action pre ++ [CGetInstance bad]))
          ∧ status resp = StatusNotFound).
Proof.
  cbn zeta. intros Hv Hb Hj Hs Hiso Hnd Hown.
  destruct (serverIDs_loop_owned (Action servers) (var r "tenant") pre []
              c Hiso Hnd Hown) as [Hall _].
  rewrite app_nil_r in Hall.
  unfold tenantServersAction, dumpRequestBody, c_validateToken.
  run_monad. rewrite Hv. run_monad. cbn [negb]. rewrite Hb, Hj.
  rewrite (chosen_supported _ Hs). split.
  - intros Hids Hne. rewrite Hids.
    assert (Hlen : (0 <? Z.of_nat (length pre)) = true).
    { apply Z.ltb_lt. destruct pre; [done | cbn; lia]. }
    rewrite Hlen, Hall. reflexivity.
  - intros bad rest Hids Hnot Hbad.
    destruct (serverIDs_loop_owned (Action servers) (var r "tenant") pre
                (bad :: rest) c Hiso Hnd Hown) as [Hrun Hsame].
    rewrite Hids.
    assert (Hlen : (0 <? Z.of_nat (length (pre ++ bad :: rest))) = true).
    { apply Z.ltb_lt. rewrite length_app. cbn. lia. }
    rewrite Hlen, Hrun. cbn [serverIDs_loop].
    unfold ds_GetInstance, read, record_call, deref. run_monad.
    unfold called at 1. cbn [world]. rewrite (Hsame bad Hnot).
    destruct Hbad as [(oi & e & Hg) | (i & Hg & Ht)]; rewrite Hg; run_monad.
    + eexists. split; [| apply ComputeFacts.status_returnErrorCode].
      unfold called. cbn. now rewrite <- app_assoc.
    + apply String.eqb_neq in Ht. rewrite Ht. cbn [negb].
      eexists. split; [| apply ComputeFacts.status_returnErrorCode].
      unfold called. cbn. now rewrite <- app_assoc.
Qed.

End Facts.

Import Scenario RequestScenario.

(** The text of an error is the format of the message: a percent sign
    in it begins a verb, which finds no argument, and the arguments of
    a message are put in the place of its verbs. *)
Lemma returnErrorCode_formats :
  written (returnErrorCode StatusInternalServerError "disk 100% full" [])
  = ("{Internal Server Error: disk 100%!f(MISSING)ull}" ++ newline)%string
  ∧ written (returnErrorCode StatusNotFound
               "Instance %s does not belong to tenant %s" ["i1"; "t2"])
    = ("{Not Found: Instance i1 does not belong to tenant t2}"
       ++ newline)%string.
Proof. split; reflexivity. Qed.

Lemma serverAction_outcomes_witness :
  serverAction (request "token-t1" "t1" "i1" "os-stop os-start") ctl3
  = Ret (mkResponse 202 "" "",
         called ctl3 (Ref.dispatch "RESTART" "i1" store3)
                [CGetInstance "i1"; CrestartInstance "i1"]).
Proof.
  rewrite (@serverAction_outcomes Ref.store Ref.backend RefLibs.web
             (request "token-t1" "t1" "i1" "os-stop os-start") ctl3
             (vm_in "i1" "pending")
             ltac:(reflexivity) ltac:(reflexivity) ltac:(reflexivity)).
  reflexivity.
Defined.

Lemma tenantServersAction_all_instances_witness :
  tenantServersAction (request "token-t1" "t1" "" "os-stop") ctl3
  = Ret (mkResponse 202 "" "",
         called ctl3 (Ref.dispatch "STOP" "i3" store3)
                [CGetAllInstancesFromTenant "t1"; CstopInstance "i3"]).
Proof.
  rewrite (@tenantServersAction_all_instances
             Ref.store Ref.backend Ref.consts RefLibs.web
             (request "token-t1" "t1" "" "os-stop") ctl3 "os-stop"
             (Build_CiaoServersAction "os-stop" [])
             ltac:(reflexivity) ltac:(reflexivity) ltac:(reflexivity)
             ltac:(apply elem_of_cons; right; apply elem_of_cons; now left)
             ltac:(reflexivity)).
  reflexivity.
Defined.

Lemma tenantServersAction_named_servers_witness :
  ∃ resp,
    tenantServersAction (request "token-t1" "t1" "" "os-stop i3 j1 i4") ctl3
    = Ret (resp,
           called ctl3 (Ref.dispatch "STOP" "i3" store3)
                  [CGetInstance "i3"; CstopInstance "i3"; CGetInstance "j1"])
    ∧ status resp = 404.
Proof.
  apply (proj2 (@tenantServersAction_named_servers
                  Ref.store Ref.backend Ref.consts RefLibs.web
                  (request "token-t1" "t1" "" "os-stop i3 j1 i4") ctl3
                  "os-stop i3 j1 i4"
                  (Build_CiaoServersAction "os-stop" ["i3"; "j1"; "i4"])
                  ["i3"]
                  ltac:(reflexivity) ltac:(reflexivity) ltac:(reflexivity)
                  ltac:(apply elem_of_cons; right; apply elem_of_cons; now left)
                  ComputeFacts.Ref_lifecycle_isolated
                  ltac:(apply NoDup_singleton)
                  ltac:(constructor;
                        [exists (vm_in "i3" "active"); now split
                        | constructor]))
          "j1" ["i4"]).
  - reflexivity.
  - intros Hin. apply list_elem_of_singleton in Hin. discriminate.
  - right. eexists. split; [reflexivity |]. cbn. discriminate.
Defined.

End ComputeExtra.

Module PagerFacts.
Import Pager PagerSpec.

Lemma page_nil {A} (limit offset : Z) : page (@nil A) limit offset = [].
Proof. unfold page. rewrite drop_nil. now destruct (0 <? limit); rewrite ?take_nil. Qed.

Lemma page_beyond {A} (l : list A) (limit offset : Z) :
  Z.of_nat (length l) ≤ offset → page l limit offset = [].
Proof.
  intros Hle. unfold page. rewrite drop_ge by lia.
  now destruct (0 <? limit); rewrite ?take_nil.
Qed.

Lemma from_ok {A} (l : list A) (lo : Z) :
  0 ≤ lo → lo ≤ Z.of_nat (length l) → from l lo = Ret (drop (Z.to_nat lo) l).
Proof.
  intros H0 H1. unfold from.
  destruct (Z.ltb_spec lo 0); [lia |].
  destruct (Z.ltb_spec (Z.of_nat (length l)) lo); [lia | reflexivity].
Qed.

Lemma from_negative {A} (l : list A) (lo : Z) :
  lo < 0 → from l lo = Panic "slice bounds out of range".
Proof. intros Hlo. unfold from. now destruct (Z.ltb_spec lo 0); [| lia]. Qed.

Lemma budget_step {A} (limit n : Z) (x : A) (rest : list A) :
  0 ≤ n → (0 < limit → n < limit) →
  budget limit n (x :: rest)
  = x :: (if (0 <? limit) && (limit <=? n + 1) then []
          else budget limit (n + 1) rest).
Proof.
  intros Hn Hlt. unfold budget. destruct (Z.ltb_spec 0 limit); cbn [andb].
  - specialize (Hlt ltac:(lia)).
    replace (Z.to_nat (limit - n)) with (S (Z.to_nat (limit - (n + 1))))
      by lia.
    cbn [take]. destruct (Z.leb_spec limit (n + 1)); [| reflexivity].
    now replace (Z.to_nat (limit - (n + 1))) with 0%nat by lia.
  - reflexivity.
Qed.

Lemma budget_page {A} (l : list A) (limit offset : Z) :
  budget limit 0 (drop (Z.to_nat offset) l) = page l limit offset.
Proof. unfold budget, page. now rewrite Z.sub_0_r. Qed.

Section Nodes.
Context `{PagerJSON}.

Lemma getNodes_loop_budget (limit : Z) (nodes : list CiaoComputeNode)
      (acc : CiaoComputeNodes) (n : Z) :
  0 ≤ n → (0 < limit → n < limit) →
  nodePager.getNodes_loop limit nodes acc n
  = {| Nodes := Nodes acc ++ budget limit n nodes |}.
Proof.
  revert acc n. induction nodes as [|x rest IH]; intros acc n Hn Hlt.
  - cbn. unfold budget. destruct (0 <? limit); rewrite ?take_nil, app_nil_r;
      now destruct acc.
  - cbn [nodePager.getNodes_loop]. rewrite budget_step by assumption.
    destruct ((0 <? limit) && (limit <=? n + 1)) eqn:E; [reflexivity |].
    rewrite IH.
    + cbn. now rewrite <- app_assoc.
    + lia.
    + intros Hl. apply andb_false_iff in E as [E | E];
        [apply Z.ltb_ge in E | apply Z.leb_gt in E]; lia.
Qed.

Lemma getNodeServers_loop_budget (limit : Z) (items : list CiaoServerStats)
      (acc : CiaoServersStats) (n : Z) :
  0 ≤ n → (0 < limit → n < limit) →
  nodeServerPager.getNodeServers_loop limit items acc n
  = {| ss_TotalServers := ss_TotalServers acc;
       ss_Servers := ss_Servers acc ++ budget limit n items |}.
Proof.
  revert acc n. induction items as [|x rest IH]; intros acc n Hn Hlt.
  - cbn. unfold budget. destruct (0 <? limit); rewrite ?take_nil, app_nil_r;
      now destruct acc.
  - cbn [nodeServerPager.getNodeServers_loop].
    rewrite budget_step by assumption.
    destruct ((0 <? limit) && (limit <=? n + 1)) eqn:E; [reflexivity |].
    rewrite IH.
    + cbn. now rewrite <- app_assoc.
    + lia.
    + intros Hl. apply andb_false_iff in E as [E | E];
        [apply Z.ltb_ge in E | apply Z.leb_gt in E]; lia.
Qed.

Lemma getNodes_nil (filterType : pagerFilterType) (filter : string)
      (limit offset : Z) :
  nodePager.getNodes filterType filter None limit offset = Ret (node_doc []).
Proof.
  unfold nodePager.getNodes, node_doc. rewrite app_nil_r.
  now destruct NewCiaoComputeNodes.
Qed.

Lemma getNodes_negative (filterType : pagerFilterType) (filter : string)
      (l : list CiaoComputeNode) (limit offset : Z) :
  offset < 0 →
  nodePager.getNodes filterType filter (Some l) limit offset
  = Panic "slice bounds out of range".
Proof.
  intros Hneg. unfold nodePager.getNodes.
  change (len (Some l)) with (Z.of_nat (length l)).
  destruct (Z.leb_spec (Z.of_nat (length l)) offset); [lia |].
  now rewrite from_negative.
Qed.

Lemma getNodes_from (filterType : pagerFilterType) (filter : string)
      (l : list CiaoComputeNode) (limit offset : Z) :
  0 ≤ offset →
  nodePager.getNodes filterType filter (Some l) limit offset
  = Ret (node_doc (page l limit offset)).
Proof.
  intros Hpos. unfold nodePager.getNodes, node_doc.
  change (len (Some l)) with (Z.of_nat (length l)).
  destruct (Z.leb_spec (Z.of_nat (length l)) offset) as [Hle | Hgt].
  - rewrite page_beyond, app_nil_r by assumption.
    now destruct NewCiaoComputeNodes.
  - rewrite from_ok by lia. cbn.
    rewrite getNodes_loop_budget by lia. now rewrite budget_page.
Qed.

(** X15.  [getNodes] returns the marshalled document of the nodes from
    [offset] on, at most [limit] of them if [limit] is positive and all
    of them otherwise, after the nodes the new document starts with; an
    offset at or past the end gives the empty page, and so does a nil
    slice.  A negative offset on a slice that is not nil panics: the
    code slices [nodes[offset:]] unchecked.  The filter arguments play
    no role. *)
Theorem getNodes_page (filterType : pagerFilterType) (filter : string)
        (nodes : slice CiaoComputeNode) (limit offset : Z) :
  nodePager.getNodes filterType filter nodes limit offset
  = match nodes with
    | None => Ret (marshalled (json_Marshal_ComputeNodes NewCiaoComputeNodes))
    | Some l =>
        if offset <? 0 then Panic "slice bounds out of range"
        else Ret (marshalled
                    (json_Marshal_ComputeNodes
                       {| Nodes := Nodes NewCiaoComputeNodes
                                   ++ page l limit offset |}))
    end.
Proof.
  destruct nodes as [l|].
  - destruct (Z.ltb_spec offset 0) as [Hneg | Hpos].
    + now apply getNodes_negative.
    + now apply getNodes_from.
  - reflexivity.
Qed.

Lemma marker_index_found {A} (ID : A → string) (m : string)
      (before : list A) (x : A) (after : list A) (i : Z) :
  first_with ID m before x →
  marker_index ID m (before ++ x :: after) i
  = Some (i + Z.of_nat (length before)).
Proof.
  intros [Hx Hb]. revert i. induction before as [|y before IH]; intros i.
  - cbn. apply String.eqb_eq in Hx. rewrite Hx. f_equal. lia.
  - apply Forall_cons in Hb as [Hy Hb]. cbn [app marker_index].
    apply String.eqb_neq in Hy. rewrite Hy, (IH Hb). f_equal. cbn [length]. lia.
Qed.

Lemma marker_index_none {A} (ID : A → string) (m : string) (l : list A)
      (i : Z) :
  Forall (λ y, ID y ≠ m) l → marker_index ID m l i = None.
Proof.
  intros Hl. revert i. induction Hl as [|y l Hy _ IH]; intros i; [reflexivity |].
  cbn. apply String.eqb_neq in Hy. now rewrite Hy.
Qed.

Lemma nextPage_with_offset {S A} (ID : A → string)
      (getPage : slice A → Z → Z → M S (option string * option error))
      (items : slice A) (values : gmap string (list string))
      (limit offset : Z) (s : S) :
  pagerQueryParse values = Ret (limit, offset, "") →
  nextPage_with ID getPage items values s = getPage items limit offset s.
Proof.
  intros Hq. unfold nextPage_with, lift. run_monad. rewrite Hq. cbn.
  destruct (Z.eqb_spec limit 0) as [-> | _]; reflexivity.
Qed.

Lemma nextPage_with_marker {S A} (ID : A → string)
      (getPage : slice A → Z → Z → M S (option string * option error))
      (values : gmap string (list string))
      (limit offset : Z) (m : string) (before : list A) (x : A)
      (after : list A) (s : S) :
  pagerQueryParse values = Ret (limit, offset, m) → m ≠ "" →
  first_with ID m before x →
  nextPage_with ID getPage (Some (before ++ x :: after)) values s
  = getPage (after_marker after) limit 0 s.
Proof.
  intros Hq Hm Hf. unfold nextPage_with, lift. run_monad. rewrite Hq.
  apply String.eqb_neq in Hm. rewrite Hm. cbn [from_option id].
  rewrite (marker_index_found ID m before x after 0 Hf).
  change (len (Some (before ++ x :: after)))
    with (Z.of_nat (length (before ++ x :: after))).
  rewrite length_app. cbn [length].
  destruct after as [|y after]; cbn [length after_marker];
    match goal with
    | |- context [?a <=? ?b] => destruct (Z.leb_spec a b)
    end; try lia; [reflexivity |].
  rewrite from_ok; [| lia | rewrite length_app; cbn [length]; lia].
  replace (Z.to_nat (0 + Z.of_nat (length before) + 1))
    with (length (before ++ [x])) by (rewrite length_app; cbn; lia).
  replace (before ++ x :: y :: after) with ((before ++ [x]) ++ y :: after)
    by now rewrite <- app_assoc.
  now rewrite drop_app_length.
Qed.

Lemma nextPage_with_not_found {S A} (ID : A → string)
      (getPage : slice A → Z → Z → M S (option string * option error))
      (items : slice A) (values : gmap string (list string))
      (limit offset : Z) (m : string) (s : S) :
  pagerQueryParse values = Ret (limit, offset, m) → m ≠ "" →
  Forall (λ y, ID y ≠ m) (default [] items) →
  nextPage_with ID getPage items values s
  = Ret ((None, Some ("Item " ++ m ++ " not found")%string), s).
Proof.
  intros Hq Hm Hall. unfold nextPage_with, lift. run_monad. rewrite Hq.
  apply String.eqb_neq in Hm. rewrite Hm.
  now rewrite (marker_index_none ID m _ 0 Hall).
Qed.

(** X16.  [nodePager.nextPage] with a marker returns the nodes that
    follow the first node with that ID, at most [limit] of them if
    [limit] is positive, whatever offset the query names; a marker that
    is the ID of no node gives the error Item ... not found and no
    document. *)
Theorem nodePager_nextPage_marker {S} (filterType : pagerFilterType)
        (filter : string) (l : list CiaoComputeNode)
        (values : gmap string (list string)) (limit offset : Z)
        (m : string) (s : S) :
  pagerQueryParse values = Ret (limit, offset, m) →
  m ≠ "" →
  (∀ before x after,
      l = before ++ x :: after →
      first_with node_ID m before x →
      nodePager.nextPage (Some l) filterType filter values s
      = Ret (node_doc (page after limit 0), s))
  ∧ (Forall (λ y, node_ID y ≠ m) l →
     nodePager.nextPage (Some l) filterType filter values s
     = Ret ((None, Some ("Item " ++ m ++ " not found")%string), s)).
Proof.
  intros Hq Hm. split.
  - intros before x after -> Hf. unfold nodePager.nextPage.
    rewrite (nextPage_with_marker _ _ _ limit offset m before x after s Hq Hm Hf).
    unfold lift.
    destruct after as [|y after]; cbn [after_marker].
    + now rewrite getNodes_nil, page_nil.
    + now rewrite getNodes_from.
  - intros Hall. unfold nodePager.nextPage.
    now apply (nextPage_with_not_found _ _ _ _ limit offset).
Qed.

Lemma getNodeServers_page (filterType : pagerFilterType) (filter : string)
      (instances : slice CiaoServerStats) (limit offset : Z) :
  nodeServerPager.getNodeServers filterType filter instances limit offset
  = match instances with
    | None => Ret (stats_doc 0 [])
    | Some l =>
        if offset <? 0 then Panic "slice bounds out of range"
        else Ret (stats_doc (Z.of_nat (length l)) (page l limit offset))
    end.
Proof.
  unfold nodeServerPager.getNodeServers, stats_doc.
  destruct instances as [l|]; [| now rewrite app_nil_r].
  change (len (Some l)) with (Z.of_nat (length l)).
  destruct (Z.leb_spec (Z.of_nat (length l)) offset) as [Hle | Hgt].
  - destruct (Z.ltb_spec offset 0); [lia |].
    now rewrite page_beyond, app_nil_r by assumption.
  - destruct (Z.ltb_spec offset 0) as [Hneg | Hpos].
    + now rewrite from_negative.
    + rewrite from_ok by lia. cbn.
      rewrite getNodeServers_loop_budget by lia. now rewrite budget_page.
Qed.

(** X17.  The count that [nodeServerPager.nextPage] reports depends on
    how the page is asked for.  By offset, TotalServers is the number
    of all servers of the node; after a marker it is the number of
    servers that follow the marker, and 0 if the marker is the last
    one.  The servers listed are the page from the offset, or the page
    that follows the marker. *)
Theorem nodeServerPager_total {S} (filterType : pagerFilterType)
        (filter : string) (l : list CiaoServerStats)
        (values : gmap string (list string)) (limit offset : Z)
        (m : string) (s : S) :
  pagerQueryParse values = Ret (limit, offset, m) →
  (m = "" → 0 ≤ offset →
   nodeServerPager.nextPage (Some l) filterType filter values s
   = Ret (stats_doc (Z.of_nat (length l)) (page l limit offset), s))
  ∧ (m ≠ "" →
     ∀ before x after,
       l = before ++ x :: after →
       first_with stats_ID m before x →
       nodeServerPager.nextPage (Some l) filterType filter values s
       = Ret (stats_doc (Z.of_nat (length after)) (page after limit 0), s)).
Proof.
  intros Hq. split.
  - intros -> Hoff. unfold nodeServerPager.nextPage.
    rewrite (nextPage_with_offset _ _ _ _ limit offset s Hq).
    unfold lift. rewrite getNodeServers_page.
    now destruct (Z.ltb_spec offset 0); [lia |].
  - intros Hm before x after -> Hf. unfold nodeServerPager.nextPage.
    rewrite (nextPage_with_marker _ _ _ limit offset m before x after s Hq Hm Hf).
    unfold lift. rewrite getNodeServers_page.
    destruct after as [|y after]; cbn [after_marker].
    + now rewrite page_nil.
    + reflexivity.
Qed.

(** X18.  [pagerQueryParse] on a parsed query, where every key has a
    value, never panics.  The limit is the number of the key limit; a
    value that is no 32-bit number reads as 0, and a negative number is
    passed on.  When the key marker is present the offset is 0 whatever
    the key offset says, even if the marker is the empty string;
    otherwise the offset is the number of the key offset. *)
Theorem pagerQueryParse_well_formed (values : gmap string (list string)) :
  well_formed values →
  pagerQueryParse values
  = Ret (number (values !! "limit"),
         match values !! "marker" with
         | Some _ => 0
         | None => number (values !! "offset")
         end,
         match values !! "marker" with
         | Some (m :: _) => m
         | _ => ""
         end).
Proof.
  intros Hwf. unfold pagerQueryParse, number.
  assert (Hk : ∀ k, match values !! k with Some [] => False | _ => True end).
  { intros k. destruct (values !! k) as [[|]|] eqn:E; try exact I.
    now apply (Hwf k []). }
  pose proof (Hk "limit") as Hl. pose proof (Hk "marker") as Hm.
  pose proof (Hk "offset") as Ho.
  destruct (values !! "limit") as [[|sl ?]|]; [done | |];
    destruct (values !! "marker") as [[|sm ?]|]; try done;
    destruct (values !! "offset") as [[|so ?]|]; try done; cbn;
    repeat match goal with
           | |- context [strconv_ParseInt ?x] =>
               destruct (strconv_ParseInt x) as [? [?|]]
           end; reflexivity.
Qed.

Lemma first_with_NoDup {A} (ID : A → string) (before : list A) (x : A)
      (after : list A) :
  NoDup (ID <$> (before ++ x :: after)) → first_with ID (ID x) before x.
Proof.
  intros Hnd. split; [reflexivity |].
  rewrite fmap_app in Hnd. apply NoDup_app in Hnd as (_ & Hdis & _).
  apply Forall_forall. intros y Hy Heq.
  apply (Hdis (ID y)); [now apply list_elem_of_fmap_2 |].
  rewrite Heq. cbn. apply elem_of_cons. now left.
Qed.

(** X21.  Paging by marker continues where paging by offset stopped.
    If the nodes have distinct IDs and the page of [limit] nodes from
    [offset] ends with the node [x], then the page after the marker
    [x] is the page from [offset + limit]. *)
Theorem nodePager_marker_continues {S} (filterType : pagerFilterType)
        (filter : string) (l p : list CiaoComputeNode) (x : CiaoComputeNode)
        (values1 values2 : gmap string (list string))
        (limit offset offset2 : Z) (s : S) :
  NoDup (node_ID <$> l) →
  0 ≤ offset → 0 < limit →
  page l limit offset = p ++ [x] →
  node_ID x ≠ "" →
  pagerQueryParse values1 = Ret (limit, offset + limit, "") →
  pagerQueryParse values2 = Ret (limit, offset2, node_ID x) →
  nodePager.nextPage (Some l) filterType filter values2 s
  = nodePager.nextPage (Some l) filterType filter values1 s
  ∧ nodePager.nextPage (Some l) filterType filter values1 s
    = Ret (node_doc (page l limit (offset + limit)), s).
Proof.
  intros Hnd Hoff Hlim Hp Hx Hq1 Hq2.
  set (after := drop (Z.to_nat limit) (drop (Z.to_nat offset) l)).
  assert (Hl : l = (take (Z.to_nat offset) l ++ p) ++ x :: after).
  { rewrite <- (take_drop (Z.to_nat offset) l) at 1.
    rewrite <- (take_drop (Z.to_nat limit) (drop (Z.to_nat offset) l)).
    unfold page in Hp. destruct (Z.ltb_spec 0 limit); [| lia].
    rewrite Hp. fold after. now rewrite <- !app_assoc. }
  assert (Hpage : page after limit 0 = page l limit (offset + limit)).
  { unfold page, after. change (Z.to_nat 0) with 0%nat.
    rewrite drop_0, drop_drop.
    now replace (Z.to_nat (offset + limit))
      with (Z.to_nat offset + Z.to_nat limit)%nat by lia. }
  assert (H2 : nodePager.nextPage (Some l) filterType filter values1 s
               = Ret (node_doc (page l limit (offset + limit)), s)).
  { unfold nodePager.nextPage.
    rewrite (nextPage_with_offset _ _ _ _ limit (offset + limit) s Hq1).
    unfold lift. now rewrite getNodes_from by lia. }
  split; [| exact H2]. rewrite H2, <- Hpage. clear H2 Hpage Hp.
  unfold nodePager.nextPage.
  set (before := take (Z.to_nat offset) l ++ p) in Hl.
  clearbody before after. subst l.
  rewrite (nextPage_with_marker _ _ _ limit offset2 (node_ID x) _ x after s
             Hq2 Hx (first_with_NoDup _ _ _ _ Hnd)).
  unfold lift.
  destruct after as [|y after']; cbn [after_marker].
  - now rewrite getNodes_nil, page_nil.
  - now rewrite getNodes_from.
Qed.

End Nodes.

Section Servers.
Context {W : Type} `{Backend W} `{GoLib} `{Payloads.Consts} `{Compute.WebLib}.
Context `{PagerJSON}.
Import Compute ComputeMore.

Lemma instanceToServer_found (i : Types.Instance) (wl : Types.Workload)
      (c : controller W) :
  workload_found (world c) i wl →
  instanceToServer i c
  = Ret ((server_of i wl, None),
         called c (world c) [CGetWorkload (Types.WorkloadID i)]).
Proof.
  intros Hw. unfold instanceToServer, ds_GetWorkload, read, record_call, deref.
  run_monad. unfold workload_found in Hw. rewrite Hw. reflexivity.
Qed.

Lemma instanceToServer_error (i : Types.Instance) owl (e : error)
      (c : controller W) :
  GetWorkload (Types.WorkloadID i) (world c) = (owl, Some e) →
  instanceToServer i c
  = Ret ((zeroServer, Some e),
         called c (world c) [CGetWorkload (Types.WorkloadID i)]).
Proof.
  intros Hw. unfold instanceToServer, ds_GetWorkload, read, record_call, deref.
  run_monad. rewrite Hw. reflexivity.
Qed.

Lemma skipped_iff (ft : pagerFilterType) (f : string) (i : Types.Instance) :
  negb (ft =? none)%N && serverPager.filter ft f i = false ↔ kept ft f i.
Proof.
  unfold serverPager.filter, kept, workloadFilter, none.
  destruct (N.eqb_spec ft 1) as [-> | Hne].
  - cbn. destruct (String.eqb_spec (Types.WorkloadID i) f); cbn; split;
      intros; tauto || congruence || auto.
  - rewrite andb_false_r. tauto.
Qed.

Lemma getInstances_loop_prefix (ft : pagerFilterType) (f : string) (limit : Z)
      (tail : list Types.Instance) :
  ∀ (acc : ComputeServers) (n : Z) (c : controller W)
    (ok rest : list Types.Instance) (wls : list Types.Workload),
    0 ≤ n → (0 < limit → n < limit) →
    budget limit n (base.filter (kept ft f) tail) = ok ++ rest →
    Forall2 (workload_found (world c)) ok wls →
    let servers := {| cs_TotalServers := cs_TotalServers acc;
                      cs_Servers := cs_Servers acc
                                    ++ zip_with server_of ok wls |} in
    (rest = [] →
     serverPager.getInstances_loop ft f limit tail acc n c
     = Ret ((servers, None), called c (world c) (lookups ok)))
    ∧ (∀ bad rest' owl e,
          rest = bad :: rest' →
          GetWorkload (Types.WorkloadID bad) (world c) = (owl, Some e) →
          serverPager.getInstances_loop ft f limit tail acc n c
          = Ret ((servers, Some e),
                 called c (world c) (lookups (ok ++ [bad])))).
Proof.
  induction tail as [|i tail IH]; intros acc n c ok rest wls Hn Hlt Hb Hf;
    cbn zeta.
  - assert (Hnil : ok ++ rest = []).
    { rewrite <- Hb. unfold budget. cbn.
      now destruct (0 <? limit); rewrite ?take_nil. }
    apply app_eq_nil in Hnil as [-> ->]. inversion Hf; subst.
    split; [| intros; discriminate].
    intros _. cbn. rewrite app_nil_r. unfold lookups. cbn [fmap list_fmap].
    rewrite ComputeExtra.called_nil. now destruct acc.
  - cbn [serverPager.getInstances_loop]. rewrite filter_cons in Hb.
    destruct (decide (kept ft f i)) as [Hk | Hk].
    2:{ assert (Hs : negb (ft =? none)%N && serverPager.filter ft f i = true).
        { destruct (negb (ft =? none)%N && serverPager.filter ft f i) eqn:E;
            [reflexivity |]. now apply skipped_iff in E. }
        rewrite Hs. now apply IH. }
    apply skipped_iff in Hk. rewrite Hk.
    rewrite budget_step in Hb by assumption.
    destruct ok as [|i0 ok].
    + inversion Hf; subst. cbn [app] in Hb. split; [intros ->; discriminate |].
      intros bad rest' owl e -> Hw. injection Hb as <- _.
      run_monad. rewrite (instanceToServer_error i owl e c Hw).
      cbn. rewrite app_nil_r. now destruct acc.
    + inversion Hf as [|? wl ? wls' Hw Hf']; subst.
      cbn [app] in Hb. injection Hb as <- Hb.
      run_monad. rewrite (instanceToServer_found i wl c Hw).
      destruct ((0 <? limit) && (limit <=? n + 1)) eqn:E.
      * symmetry in Hb. apply app_eq_nil in Hb as [-> ->].
        inversion Hf'; subst. split; [| intros; discriminate].
        intros _. reflexivity.
      * set (c1 := called c (world c) [CGetWorkload (Types.WorkloadID i)]).
        destruct (IH {| cs_TotalServers := cs_TotalServers acc;
                        cs_Servers := cs_Servers acc ++ [server_of i wl] |}
                     (n + 1) c1 ok rest wls') as [IH1 IH2].
        { lia. }
        { intros Hl. apply andb_false_iff in E as [E | E];
            [apply Z.ltb_ge in E | apply Z.leb_gt in E]; lia. }
        { exact Hb. }
        { exact Hf'. }
        assert (Hc1 : ∀ l, called c1 (world c1) l
                           = called c (world c)
                               (CGetWorkload (Types.WorkloadID i) :: l)).
        { intros l. unfold c1. now rewrite ComputeExtra.called_called. }
        split.
        -- intros Hr. rewrite (IH1 Hr), Hc1. cbn. now rewrite <- app_assoc.
        -- intros bad rest' owl e Hr Hw'.
           rewrite (IH2 bad rest' owl e Hr Hw'), Hc1. cbn.
           now rewrite <- app_assoc.
Qed.

(** X19.  [serverPager.getInstances] on a slice that is not nil, from
    an offset that is not negative: the instances from the offset on
    that the filter keeps are turned into servers, at most [limit] of
    them if [limit] is positive, so that skipped instances do not count
    against the limit.  Only the workload filter skips anything (the
    instances of another workload); the status filter keeps them all.
    If the workload of each of these instances is found, the document
    lists their servers, TotalServers is the length of the whole slice,
    and the calls made are the workload lookups, in order.  The first
    lookup that fails ends the listing: its error is returned and no
    document. *)
Theorem serverPager_getInstances (ft : pagerFilterType) (f : string)
        (l : list Types.Instance) (limit offset : Z) (c : controller W)
        (ok rest : list Types.Instance) (wls : list Types.Workload) :
  0 ≤ offset →
  page (base.filter (kept ft f) (drop (Z.to_nat offset) l)) limit 0
  = ok ++ rest →
  Forall2 (workload_found (world c)) ok wls →
  (rest = [] →
   serverPager.getInstances ft f (Some l) limit offset c
   = Ret (servers_doc (Z.of_nat (length l)) (zip_with server_of ok wls),
          called c (world c) (lookups ok)))
  ∧ (∀ bad rest' owl e,
        rest = bad :: rest' →
        GetWorkload (Types.WorkloadID bad) (world c) = (owl, Some e) →
        serverPager.getInstances ft f (Some l) limit offset c
        = Ret ((None, Some e), called c (world c) (lookups (ok ++ [bad])))).
Proof.
  intros Hoff Hp Hf. unfold serverPager.getInstances.
  change (len (Some l)) with (Z.of_nat (length l)).
  destruct (Z.leb_spec (Z.of_nat (length l)) offset) as [Hle | Hgt].
  - rewrite drop_ge in Hp by lia. rewrite filter_nil, page_nil in Hp.
    symmetry in Hp. apply app_eq_nil in Hp as [-> ->]. inversion Hf; subst.
    split; [| intros; discriminate]. intros _. cbn.
    unfold lookups. cbn. rewrite ComputeExtra.called_nil.
    unfold servers_doc. now rewrite app_nil_r.
  - unfold lift. run_monad. rewrite from_ok by lia.
    rewrite <- budget_page in Hp. cbn [Z.to_nat drop] in Hp.
    destruct (getInstances_loop_prefix ft f limit (drop (Z.to_nat offset) l)
                {| cs_TotalServers := Z.of_nat (length l);
                   cs_Servers := cs_Servers NewComputeServers |}
                0 c ok rest wls ltac:(lia) ltac:(lia) Hp Hf) as [H1' H2'].
    split.
    + intros Hr. now rewrite (H1' Hr).
    + intros bad rest' owl e Hr Hw. now rewrite (H2' bad rest' owl e Hr Hw).
Qed.

(** X20.  A negative offset in the query makes every pager panic when
    it has a slice that is not nil, even an empty one: [nextPage]
    passes the offset on and the page function slices from it
    unchecked. *)
Theorem nextPage_negative_offset (ft : pagerFilterType) (f : string)
        (values : gmap string (list string)) (limit offset : Z)
        (nodes : list CiaoComputeNode) (stats : list CiaoServerStats)
        (instances : list Types.Instance) (c : controller W) :
  pagerQueryParse values = Ret (limit, offset, "") →
  offset < 0 →
  nodePager.nextPage (Some nodes) ft f values c
  = Panic "slice bounds out of range"
  ∧ nodeServerPager.nextPage (Some stats) ft f values c
    = Panic "slice bounds out of range"
  ∧ serverPager.nextPage (Some instances) ft f values c
    = Panic "slice bounds out of range".
Proof.
  intros Hq Hneg.
  unfold nodePager.nextPage, nodeServerPager.nextPage, serverPager.nextPage.
  rewrite !(nextPage_with_offset _ _ _ _ limit offset c Hq).
  unfold lift. rewrite getNodes_negative, getNodeServers_page by assumption.
  destruct (Z.ltb_spec offset 0); [| lia].
  split; [reflexivity |]. split; [reflexivity |].
  unfold serverPager.getInstances.
  change (len (Some instances)) with (Z.of_nat (length instances)).
  destruct (Z.leb_spec (Z.of_nat (length instances)) offset); [lia |].
  unfold lift. run_monad. now rewrite from_negative.
Qed.

End Servers.

Import PagerRef.

Lemma query_well_formed (l : list (string * string)) : well_formed (query l).
Proof.
  intros k v Hk ->. unfold query in Hk.
  apply elem_of_list_to_map_2 in Hk.
  apply list_elem_of_fmap in Hk as ([k' v'] & E & _). discriminate.
Qed.

Lemma nodePager_nextPage_marker_witness :
  nodePager.nextPage nodes5 none ""
    (query [("marker", "n2"); ("limit", "2"); ("offset", "4")]) tt
  = Ret ((Some "0:n3,n4", None), tt).
Proof.
  apply (proj1 (@nodePager_nextPage_marker lib json unit none ""
                  ["n1"; "n2"; "n3"; "n4"; "n5"]
                  (query [("marker", "n2"); ("limit", "2"); ("offset", "4")])
                  2 0 "n2" tt ltac:(reflexivity) ltac:(discriminate))
          ["n1"] "n2" ["n3"; "n4"; "n5"] eq_refl).
  split; [reflexivity | repeat constructor; discriminate].
Defined.

Lemma nodeServerPager_total_witness :
  nodeServerPager.nextPage (Some ["s1"; "s2"; "s3"]) none ""
    (query [("limit", "1")]) tt
  = Ret ((Some "3:s1", None), tt)
  ∧ nodeServerPager.nextPage (Some ["s1"; "s2"; "s3"]) none ""
      (query [("limit", "1"); ("marker", "s1")]) tt
    = Ret ((Some "2:s2", None), tt).
Proof.
  split.
  - apply (proj1 (@nodeServerPager_total lib json unit none ""
                    ["s1"; "s2"; "s3"] (query [("limit", "1")])
                    1 0 "" tt ltac:(reflexivity)));
      [reflexivity | lia].
  - apply (proj2 (@nodeServerPager_total lib json unit none ""
                    ["s1"; "s2"; "s3"] (query [("limit", "1"); ("marker", "s1")])
                    1 0 "s1" tt ltac:(reflexivity))
             ltac:(discriminate) [] "s1" ["s2"; "s3"] eq_refl).
    split; [reflexivity | constructor].
Defined.

Lemma pagerQueryParse_well_formed_witness :
  pagerQueryParse (query [("limit", "-7"); ("marker", ""); ("offset", "3")])
  = Ret (-7, 0, "").
Proof.
  rewrite (@pagerQueryParse_well_formed lib _ (query_well_formed _)).
  reflexivity.
Defined.

Lemma nodePager_marker_continues_witness :
  nodePager.nextPage nodes5 none ""
    (query [("limit", "2"); ("marker", "n3")]) tt
  = nodePager.nextPage nodes5 none ""
      (query [("limit", "2"); ("offset", "3")]) tt
  ∧ nodePager.nextPage nodes5 none ""
      (query [("limit", "2"); ("offset", "3")]) tt
    = Ret ((Some "0:n4,n5", None), tt).
Proof.
  apply (@nodePager_marker_continues lib json unit none ""
           ["n1"; "n2"; "n3"; "n4"; "n5"] ["n2"] "n3"
           (query [("limit", "2"); ("offset", "3")])
           (query [("limit", "2"); ("marker", "n3")]) 2 1 0 tt).
  - apply (bool_decide_unpack _). reflexivity.
  - lia.
  - lia.
  - reflexivity.
  - discriminate.
  - reflexivity.
  - reflexivity.
Defined.

Lemma serverPager_getInstances_witness :
  serverPager.getInstances workloadFilter "wl-vm"
    (Some [ComputeMore.vm_in "i1" "pending"; ComputeMore.vm_in "i3" "active";
           ComputeMore.vm_in "i4" "exited"]) 2 1 ComputeMore.ctl3
  = Ret ((Some "3:i3,i4", None),
         ComputeMore.called ComputeMore.ctl3 ComputeMore.store3
           [CGetWorkload "wl-vm"; CGetWorkload "wl-vm"]).
Proof.
  apply (proj1 (@serverPager_getInstances
                  Ref.store Ref.backend lib json
                  workloadFilter "wl-vm"
                  [ComputeMore.vm_in "i1" "pending";
                   ComputeMore.vm_in "i3" "active";
                   ComputeMore.vm_in "i4" "exited"] 2 1 ComputeMore.ctl3
                  [ComputeMore.vm_in "i3" "active";
                   ComputeMore.vm_in "i4" "exited"] []
                  [Scenario.vmWorkload; Scenario.vmWorkload]
                  ltac:(lia) ltac:(reflexivity)
                  ltac:(repeat constructor))).
  reflexivity.
Defined.

Lemma nextPage_negative_offset_witness :
  nodePager.nextPage nodes5 none "" (query [("offset", "-1")]) ComputeMore.ctl3
  = Panic "slice bounds out of range"
  ∧ serverPager.nextPage (Some []) none "" (query [("offset", "-1")])
      ComputeMore.ctl3
    = Panic "slice bounds out of range".
Proof.
  destruct (@nextPage_negative_offset
              Ref.store Ref.backend lib json none ""
              (query [("offset", "-1")]) 0 (-1)
              ["n1"; "n2"; "n3"; "n4"; "n5"] [] [] ComputeMore.ctl3
              ltac:(reflexivity) ltac:(lia)) as (Hn & _ & Hs).
  split; [exact Hn | exact Hs].
Defined.

End PagerFacts.

Module TestutilExtra.
Import Testutil TestutilMore TestutilSpec TestutilMoreSpec.

Section Facts.
Context {T : Type} `{Commands T} `{Payloads.Consts}.

Lemma with_instances_same (s : TestClient T) :
  with_instances (instances (base s)) s = s.
Proof. destruct s as [b ? ? ? ? ? ? ?]. now destruct b. Qed.

Lemma state_loop_marked (uuid state : string) (l : list InstanceStat) :
  Forall2 (marked uuid state) l (state_loop uuid state l).
Proof.
  induction l as [|x l IH]; [constructor |].
  cbn [state_loop]. constructor; [| exact IH].
  unfold marked, named.
  destruct (String.eqb_spec (is_InstanceUUID x) uuid);
    destruct (decide (is_InstanceUUID x = uuid)); congruence.
Qed.

Lemma state_loop_absent (uuid state : string) (l : list InstanceStat) :
  Forall (λ x, ¬ named uuid x) l → state_loop uuid state l = l.
Proof.
  induction 1 as [|x l Hx _ IH]; [reflexivity |].
  cbn [state_loop]. rewrite IH. apply String.eqb_neq in Hx. now rewrite Hx.
Qed.

Lemma state_loop_app (uuid state : string) (l1 l2 : list InstanceStat) :
  state_loop uuid state (l1 ++ l2)
  = state_loop uuid state l1 ++ state_loop uuid state l2.
Proof. induction l1 as [|x l1 IH]; [reflexivity |]. cbn. now rewrite IH. Qed.

Lemma delete_loop_first (uuid : string) (before : list InstanceStat)
      (x : InstanceStat) (after : list InstanceStat) :
  Forall (λ y, ¬ named uuid y) before → named uuid x →
  delete_loop uuid (before ++ x :: after) = before ++ after.
Proof.
  intros Hb Hx. induction Hb as [|y before Hy _ IH].
  - cbn. apply String.eqb_eq in Hx. now rewrite Hx.
  - cbn. apply String.eqb_neq in Hy. now rewrite Hy, IH.
Qed.

Lemma delete_loop_absent (uuid : string) (l : list InstanceStat) :
  Forall (λ x, ¬ named uuid x) l → delete_loop uuid l = l.
Proof.
  induction 1 as [|x l Hx _ IH]; [reflexivity |].
  cbn [delete_loop]. rewrite IH. apply String.eqb_neq in Hx. now rewrite Hx.
Qed.

Lemma handleStop_run (payload : list byte) (uuid : string) (s : TestClient T) :
  yaml_Unmarshal_Stop payload = (uuid, None) → StopFail s = false →
  handleStop payload s
  = Ret (zeroResult,
         with_instances (state_loop uuid Exited (instances (base s))) s).
Proof.
  intros Hd Hf. unfold handleStop, on_base. rewrite Hd. run_monad.
  now rewrite Hf.
Qed.

Lemma handleRestart_run (payload : list byte) (uuid : string)
      (s : TestClient T) :
  yaml_Unmarshal_Restart payload = (uuid, None) → RestartFail s = false →
  handleRestart payload s
  = Ret (zeroResult,
         with_instances
           (state_loop uuid Payloads.Running (instances (base s))) s).
Proof.
  intros Hd Hf. unfold handleRestart, on_base. rewrite Hd. run_monad.
  now rewrite Hf.
Qed.

Lemma handleDelete_run (payload : list byte) (uuid : string)
      (s : TestClient T) :
  yaml_Unmarshal_Delete payload = (uuid, None) → DeleteFail s = false →
  handleDelete payload s
  = Ret (zeroResult,
         with_instances (delete_loop uuid (instances (base s))) s).
Proof.
  intros Hd Hf. unfold handleDelete, on_base. rewrite Hd. run_monad.
  now rewrite Hf.
Qed.

(** X22.  [handleStop] and [handleRestart], for a payload that decodes
    and with the failure switch off, return the zero Result, which
    unlike the result of [handleStart] names neither the instance nor
    the node, and change nothing of the client but the states in the
    instance list: every instance with the UUID of the command, not
    only the first, is set to Exited by Stop and to Running by Restart,
    the others and the order are kept.  A UUID that no instance has is
    answered in the same way and nothing changes. *)
Theorem handleStop_handleRestart_mark (payload : list byte) (uuid : string)
        (s : TestClient T) :
  (yaml_Unmarshal_Stop payload = (uuid, None) → StopFail s = false →
   ∃ l, handleStop payload s = Ret (zeroResult, with_instances l s)
        ∧ Forall2 (marked uuid Exited) (instances (base s)) l
        ∧ (Forall (λ x, ¬ named uuid x) (instances (base s)) →
           with_instances l s = s))
  ∧ (yaml_Unmarshal_Restart payload = (uuid, None) → RestartFail s = false →
     ∃ l, handleRestart payload s = Ret (zeroResult, with_instances l s)
          ∧ Forall2 (marked uuid Payloads.Running) (instances (base s)) l
          ∧ (Forall (λ x, ¬ named uuid x) (instances (base s)) →
             with_instances l s = s)).
Proof.
  split; intros Hd Hf; eexists; (split; [| split]).
  - exact (handleStop_run payload uuid s Hd Hf).
  - apply state_loop_marked.
  - intros Ha. rewrite state_loop_absent by exact Ha.
    apply with_instances_same.
  - exact (handleRestart_run payload uuid s Hd Hf).
  - apply state_loop_marked.
  - intros Ha. rewrite state_loop_absent by exact Ha.
    apply with_instances_same.
Qed.

(** X23.  [handleDelete], for a payload that decodes and with the
    failure switch off, takes the first instance with the UUID of the
    command off the list and leaves every other one, also later ones
    with the same UUID; it returns the zero Result.  A UUID that no
    instance has is answered in the same way and nothing changes. *)
Theorem handleDelete_first_only (payload : list byte) (uuid : string)
        (s : TestClient T) :
  yaml_Unmarshal_Delete payload = (uuid, None) →
  DeleteFail s = false →
  (∀ before x after,
      instances (base s) = before ++ x :: after →
      Forall (λ y, ¬ named uuid y) before → named uuid x →
      handleDelete payload s
      = Ret (zeroResult, with_instances (before ++ after) s))
  ∧ (Forall (λ x, ¬ named uuid x) (instances (base s)) →
     handleDelete payload s = Ret (zeroResult, s)).
Proof.
  intros Hd Hf. split.
  - intros before x after Hl Hb Hx.
    rewrite (handleDelete_run payload uuid s Hd Hf), Hl.
    now rewrite delete_loop_first.
  - intros Ha. rewrite (handleDelete_run payload uuid s Hd Hf).
    rewrite delete_loop_absent by exact Ha.
    now rewrite with_instances_same.
Qed.

(** X24.  The four commands compose to a round trip on the instance
    list.  On a client with the failure switches off that runs no
    instance with the UUID of the commands, Start adds the instance as
    running, Stop then sets it to Exited, Restart brings back the state
    after Start, and Delete brings back the client as it was before
    Start. *)
Theorem start_stop_restart_delete (p1 p2 p3 p4 : list byte) (uuid : string)
        (s : TestClient T) :
  (yaml_Unmarshal_Start p1).2 = None →
  Payloads.InstanceUUID (Payloads.Start_ (yaml_Unmarshal_Start p1).1) = uuid →
  yaml_Unmarshal_Stop p2 = (uuid, None) →
  yaml_Unmarshal_Restart p3 = (uuid, None) →
  yaml_Unmarshal_Delete p4 = (uuid, None) →
  StartFail (base s) = false → StopFail s = false →
  RestartFail s = false → DeleteFail s = false →
  Forall (λ x, ¬ named uuid x) (instances (base s)) →
  let started :=
    with_instances (instances (base s)
                    ++ [mkInstanceStat uuid Payloads.Running 0 0 0]) s in
  let stopped :=
    with_instances (instances (base s)
                    ++ [mkInstanceStat uuid Exited 0 0 0]) s in
  (∃ r, on_base (handleStart p1) s = Ret (r, started))
  ∧ handleStop p2 started = Ret (zeroResult, stopped)
  ∧ handleRestart p3 stopped = Ret (zeroResult, started)
  ∧ handleDelete p4 started = Ret (zeroResult, s).
Proof.
  intros Hd1 Hu Hd2 Hd3 Hd4 Hf1 Hf2 Hf3 Hf4 Ha. cbn zeta.
  assert (Hmark : ∀ st st',
            state_loop uuid st' (instances (base s)
                                 ++ [mkInstanceStat uuid st 0 0 0])
            = instances (base s) ++ [mkInstanceStat uuid st' 0 0 0]).
  { intros st st'. rewrite state_loop_app, state_loop_absent by exact Ha.
    cbn. now rewrite String.eqb_refl. }
  split; [| split; [| split]].
  - destruct (TestutilFacts.handleStart_ok (base s) p1 Hd1 Hf1)
      as (r & E & _).
    exists r. unfold on_base. rewrite E. unfold running. now rewrite Hu.
  - rewrite (handleStop_run p2 uuid); [| exact Hd2 | exact Hf2]. cbn [base with_instances
      set_base instances set_instances]. now rewrite Hmark.
  - rewrite (handleRestart_run p3 uuid); [| exact Hd3 | exact Hf3]. cbn [base with_instances
      set_base instances set_instances]. now rewrite Hmark.
  - rewrite (handleDelete_run p4 uuid); [| exact Hd4 | exact Hf4]. cbn [base with_instances
      set_base instances set_instances].
    rewrite (delete_loop_first uuid _ (mkInstanceStat uuid Payloads.Running 0 0 0)
               [] Ha eq_refl).
    rewrite app_nil_r.
    transitivity (Ret (A := Result * TestClient T)
                      (zeroResult, with_instances (instances (base s)) s));
      [reflexivity | now rewrite with_instances_same].
Qed.










Lemma fail_run (op : Error) (reason : string)
      (r : list byte * option error) (s : TestClient T) :
  Inv (base s) →
  ready KError op (base s) →
  ∃ s', (_ ← on_base (let '(y, err) := r in
                      match err with
                      | Some _ => mret tt
                      | None =>
                          err ← ssntp_SendError op y;
                          match err with
                          | Some e => println e
                          | None => mret tt
                          end
                      end);
         _ ← on_base (SendResultAndDelErrorChan op (failed reason));
         mret (failed reason)) s = Ret (failed reason, s')
        ∧ instances (base s') = instances (base s)
        ∧ (∀ y, r = (y, None) →
                Ssntp_ (base s') = (SendError op y (Ssntp_ (base s))).2
                ∧ wire (base s') = wire (base s) ++ [SentError op y]
                ∧ stdout (base s')
                  = stdout (base s)
                    ++ complaint (SendError op y (Ssntp_ (base s))).1)
        ∧ (∀ y e, r = (y, Some e) →
                  Ssntp_ (base s') = Ssntp_ (base s)
                  ∧ wire (base s') = wire (base s)
                  ∧ stdout (base s') = stdout (base s))
        ∧ (∀ c, ErrorChans (base s) !! op = Some c →
                heap (base s') !! c = Some (mkChan [failed reason] true)
                ∧ ErrorChans (base s') !! op = None
                ∧ c ∉ receivers (base s'))
        ∧ (ErrorChans (base s) !! op = None → heap (base s') = heap (base s))
        ∧ CmdChans (base s') = CmdChans (base s).
Proof.
  intros HI Hr.
  destruct (TestutilFacts.send_failure_run op r (base s))
    as (b1 & E1 & (Ht & Hh & Hn & Hrc) & Hi1 & _ & Hw1 & Hn1).
  unfold mbind at 1, M_bind at 1. unfold on_base at 1. rewrite E1.
  unfold mbind, M_bind, on_base, mret, M_ret, SendResultAndDelErrorChan.
  cbn [base set_base].
  destruct (ErrorChans (base s) !! op) as [c|] eqn:Hc.
  - assert (Hc1 : table KError b1 !! op = Some c) by now rewrite (Ht KError).
    assert (Hf1 : heap b1 !! c = Some (mkChan [] false)).
    { rewrite Hh. exact (inv_table _ HI KError op c Hc). }
    assert (Hr1 : c ∈ receivers b1) by (rewrite Hrc; now apply Hr).
    rewrite (TestutilFacts.Resolve_run_some KError op c (failed reason) b1
               Hc1 Hf1 Hr1).
    eexists. split; [reflexivity |]. cbn.
    split; [exact Hi1 |]. split; [exact Hw1 |]. split; [exact Hn1 |]. split.
    + intros c' [= <-].
      split; [apply lookup_insert_eq |]. split; [apply lookup_delete_eq |].
      intros [_ Hout]%elem_of_difference. apply Hout.
      now apply elem_of_singleton.
    + split; [discriminate | exact (Ht KCmd)].
  - assert (Hc1 : table KError b1 !! op = None) by now rewrite (Ht KError).
    rewrite (TestutilFacts.Resolve_run_none KError op (failed reason) b1 Hc1).
    eexists. split; [reflexivity |]. cbn.
    split; [exact Hi1 |]. split; [exact Hw1 |]. split; [exact Hn1 |].
    split; [discriminate |].
    split; [intros _; exact Hh | exact (Ht KCmd)].
Qed.

(** X26.  A handler whose failure switch is set, given a payload that
    decodes, carries nothing out: [handleStop], [handleRestart] and
    [handleDelete] each return the reason of the failure as the error
    of the result, change no instance, send the matching failure frame
    through the SSNTP client if it can be marshalled, whose state
    becomes what [SendError] makes of it and whose error, if it gives
    one, is printed, and deliver the failing result to the waiter on
    that failure, if one is registered, who is taken off the table.
    The waiters on commands are not touched.  Stated for a client whose
    registered channels are open and distinct, as they are in every
    state the client reaches, and whose waiter on the failure, if there
    is one, is receiving. *)
Theorem handlers_set_to_fail (payload : list byte) (uuid : string)
        (s : TestClient T) :
  Inv (base s) →
  (yaml_Unmarshal_Stop payload = (uuid, None) → StopFail s = true →
   ready KError StopFailure (base s) →
   fails_with handleStop StopFailure
              (StopFailureReason_String (StopFailReason s))
              (yaml_Marshal_ErrorStopFailure uuid (StopFailReason s))
              payload s)
  ∧ (yaml_Unmarshal_Restart payload = (uuid, None) → RestartFail s = true →
     ready KError RestartFailure (base s) →
     fails_with handleRestart RestartFailure
                (RestartFailureReason_String (RestartFailReason s))
                (yaml_Marshal_ErrorRestartFailure uuid (RestartFailReason s))
                payload s)
  ∧ (yaml_Unmarshal_Delete payload = (uuid, None) → DeleteFail s = true →
     ready KError DeleteFailure (base s) →
     fails_with handleDelete DeleteFailure
                (DeleteFailureReason_String (DeleteFailReason s))
                (yaml_Marshal_ErrorDeleteFailure uuid (DeleteFailReason s))
                payload s).
Proof.
  intros HI. split; [| split]; intros Hd Hf Hr; unfold fails_with.
  - unfold handleStop. rewrite Hd.
    unfold mbind at 1, M_bind at 1, get at 1. rewrite Hf.
    now apply fail_run.
  - unfold handleRestart. rewrite Hd.
    unfold mbind at 1, M_bind at 1, get at 1. rewrite Hf.
    now apply fail_run.
  - unfold handleDelete. rewrite Hd.
    unfold mbind at 1, M_bind at 1, get at 1. rewrite Hf.
    now apply fail_run.
Qed.

End Facts.

Section Shutdown.
Context {T : Type} `{Ssntp T} `{Payloads.Consts}.
Local Abbreviation client := (SsntpTestClient T).
Import TestutilFacts.

Lemma close_entries_run k l (s : client) :
  Inv s → NoDup (l.*1) →
  (∀ key c, (key, c) ∈ l → table k s !! key = Some c) →
  ∃ s', close_entries k l s = Ret (tt, s') ∧ Inv s'
        ∧ (∀ key, key ∈ l.*1 → table k s' !! key = None)
        ∧ (∀ key, key ∉ l.*1 → table k s' !! key = table k s !! key)
        ∧ (∀ k2, k2 ≠ k → table k2 s' = table k2 s)
        ∧ (∀ c, c ∈ l.*2 → heap s' !! c = Some (mkChan [] true))
        ∧ (∀ c, c ∉ l.*2 → heap s' !! c = heap s !! c)
        ∧ instances s' = instances s.
Proof.
  revert s. induction l as [|[key c] l IH]; intros s HI Hnd Hin.
  - exists s. split; [reflexivity |]. split; [exact HI |].
    split; [intros key Hk; now apply elem_of_nil in Hk |].
    repeat split; auto. intros c Hc. now apply elem_of_nil in Hc.
  - assert (Hc : table k s !! key = Some c) by (apply Hin; left).
    assert (Hf := inv_table s HI _ _ _ Hc).
    apply NoDup_cons in Hnd as [Hnotin Hnd]. cbn [close_entries].
    set (s1 := set_heap (<[c := mkChan [] true]> (heap s)) (next s)
                 (set_table k (delete key (table k s)) s)).
    assert (E : (_ ← chan_close c;
                 modify (λ s, set_table k (delete key (table k s)) s)) s
                = Ret (tt, s1)).
    { run_client. rewrite Hf. cbn [closed delivered].
      now rewrite table_set_heap, set_table_set_heap. }
    assert (Hcl : c ∉ l.*2).
    { intros Hcin. apply list_elem_of_fmap in Hcin as ([key' c'] & Heq & Hin').
      cbn in Heq. subst c'. apply Hnotin.
      assert (Hc' : table k s !! key' = Some c) by (apply Hin; now right).
      destruct (inv_inj s HI _ _ _ _ _ Hc Hc') as [_ ->].
      apply list_elem_of_fmap. now exists (key', c). }
    destruct (IH s1) as (s' & E' & I' & Tin & Tout & Tk & Hin2 & Hout2 & Hi').
    + apply Inv_retire; [done | done | cbn; lia].
    + exact Hnd.
    + intros key' c' Hin'. unfold s1.
      rewrite table_set_heap, table_set_table_eq, lookup_delete_ne.
      * apply Hin. now right.
      * intros Heq. apply Hnotin. apply list_elem_of_fmap.
        exists (key', c'). split; [now rewrite Heq | done].
    + exists s'. split.
      { revert E. run_client. intros E.
        destruct (heap s !! c) as [st|]; [| discriminate].
        destruct (closed st); [discriminate |].
        injection E as <-. exact E'. }
      split; [exact I' |]. cbn [fmap list_fmap fst snd].
      split; [| split; [| split; [| split; [| split]]]].
      * intros key' Hk. apply elem_of_cons in Hk as [-> | Hk]; [| now apply Tin].
        rewrite (Tout key Hnotin). unfold s1.
        now rewrite table_set_heap, table_set_table_eq, lookup_delete_eq.
      * intros key' Hk. apply not_elem_of_cons in Hk as [Hne Hk].
        rewrite (Tout key' Hk). unfold s1.
        now rewrite table_set_heap, table_set_table_eq, lookup_delete_ne.
      * intros k2 Hk2. rewrite (Tk k2 Hk2). unfold s1.
        now rewrite table_set_heap, table_set_table_ne.
      * intros c' Hc'. apply elem_of_cons in Hc' as [-> | Hc'];
          [| now apply Hin2].
        rewrite (Hout2 c Hcl). unfold s1.
        now rewrite heap_set_heap, lookup_insert_eq.
      * intros c' Hc'. apply not_elem_of_cons in Hc' as [Hne Hc'].
        rewrite (Hout2 c' Hc'). unfold s1.
        now rewrite heap_set_heap, lookup_insert_ne.
      * rewrite Hi'. unfold s1. now destruct k.
Qed.

Lemma close_table_run k (s : client) :
  Inv s →
  ∃ s', close_table k s = Ret (tt, s') ∧ Inv s'
        ∧ table k s' = ∅
        ∧ (∀ k2, k2 ≠ k → table k2 s' = table k2 s)
        ∧ (∀ key c, table k s !! key = Some c →
                    heap s' !! c = Some (mkChan [] true))
        ∧ (∀ c, (∀ key, table k s !! key ≠ Some c) →
                heap s' !! c = heap s !! c)
        ∧ instances s' = instances s.
Proof.
  intros HI. unfold close_table.
  destruct (close_entries_run k (map_to_list (table k s)) s HI)
    as (s' & E & I' & Tin & Tout & Tk & Hin & Hout & Hi').
  - apply NoDup_fst_map_to_list.
  - intros key c Hin. now apply elem_of_map_to_list in Hin.
  - exists s'. split; [run_client; exact E |]. split; [exact I' |].
    split; [| split; [exact Tk | split; [| split; [| exact Hi']]]].
    + apply map_eq. intros key. rewrite lookup_empty.
      destruct (table k s !! key) as [c|] eqn:Hc.
      * apply Tin. apply list_elem_of_fmap. exists (key, c).
        split; [reflexivity | now apply elem_of_map_to_list].
      * rewrite Tout; [exact Hc |]. intros Hk.
        apply list_elem_of_fmap in Hk as ([key' c'] & -> & Hk).
        apply elem_of_map_to_list in Hk. cbn in Hc. congruence.
    + intros key c Hc. apply Hin. apply list_elem_of_fmap. exists (key, c).
      split; [reflexivity | now apply elem_of_map_to_list].
    + intros c Hno. apply Hout. intros Hc.
      apply list_elem_of_fmap in Hc as ([key' c'] & -> & Hk).
      apply elem_of_map_to_list in Hk. now apply (Hno key').
Qed.

Lemma close_tables_run ks (s : client) :
  NoDup ks → Inv s →
  ∃ s', close_tables ks s = Ret (tt, s') ∧ Inv s'
        ∧ (∀ k, k ∈ ks → table k s' = ∅)
        ∧ (∀ k, k ∉ ks → table k s' = table k s)
        ∧ (∀ c, registered_in ks s c → heap s' !! c = Some (mkChan [] true))
        ∧ (∀ c, ¬ registered_in ks s c → heap s' !! c = heap s !! c)
        ∧ instances s' = instances s.
Proof.
  revert s. induction ks as [|k ks IH]; intros s Hnd HI.
  - exists s. split; [reflexivity |]. split; [exact HI |].
    split; [intros k Hk; now apply elem_of_nil in Hk |].
    split; [reflexivity |].
    split; [| now split].
    intros c (k & key & Hk & _). now apply elem_of_nil in Hk.
  - apply NoDup_cons in Hnd as [Hnotin Hnd].
    destruct (close_table_run k s HI)
      as (s1 & E1 & I1 & Tk & To & Hin1 & Hout1 & Hi1).
    destruct (IH s1 Hnd I1) as (s' & E' & I' & Tin & Tout & Hin & Hout & Hi').
    assert (Hsame : ∀ k2, k2 ∈ ks → table k2 s1 = table k2 s).
    { intros k2 Hk2. apply To. intros ->. contradiction. }
    exists s'. split.
    { cbn [close_tables]. unfold mbind, M_bind. now rewrite E1. }
    split; [exact I' |].
    split; [| split; [| split; [| split]]].
    + intros k2 Hk2. apply elem_of_cons in Hk2 as [-> | Hk2]; [| now apply Tin].
      now rewrite (Tout k Hnotin).
    + intros k2 Hk2. apply not_elem_of_cons in Hk2 as [Hne Hk2].
      rewrite (Tout k2 Hk2). now apply To.
    + intros c (k0 & key & Hk0 & Hc).
      destruct (decide (k0 = k)) as [-> | Hne].
      * rewrite Hout; [now apply (Hin1 key) |].
        intros (k2 & key2 & Hk2 & Hc2).
        pose proof (inv_table s1 I1 _ _ _ Hc2) as Hopen.
        rewrite (Hin1 key c Hc) in Hopen. discriminate.
      * apply elem_of_cons in Hk0 as [-> | Hk0]; [done |].
        apply Hin. exists k0, key. split; [exact Hk0 |].
        now rewrite (Hsame k0 Hk0).
    + intros c Hno. rewrite Hout, Hout1; [reflexivity | |].
      * intros key Hc. apply Hno. exists k, key.
        split; [apply elem_of_cons; now left | exact Hc].
      * intros (k2 & key2 & Hk2 & Hc2). apply Hno. exists k2, key2.
        split; [apply elem_of_cons; now right |].
        now rewrite <- (Hsame k2 Hk2).
    + now rewrite Hi', Hi1.
Qed.

(** X27.  [closeClientChans], on a client whose registered channels
    are open and distinct, returns and leaves the four waiter tables
    empty.  Every channel that was registered is closed with nothing
    sent on it, so that a waiter that is still waiting receives the
    zero Result and no error, as after a success without details.  The
    channels that were not registered and the instance list are as
    before. *)
Theorem closeClientChans_releases_waiters (s : client) :
  Inv s →
  ∃ s', closeClientChans s = Ret (tt, s')
        ∧ (∀ k, table k s' = ∅)
        ∧ (∀ k key c after tie,
              table k s !! key = Some c →
              heap s' !! c = Some (mkChan [] true)
              ∧ (after < timeout k →
                 GetChanResult k (offers (heap s' !! c) after) tie key
                 = (zeroResult, None)))
        ∧ (∀ c, (∀ k key, table k s !! key ≠ Some c) →
                heap s' !! c = heap s !! c)
        ∧ instances s' = instances s.
Proof.
  intros HI.
  destruct (close_tables_run [KCmd; KEvent; KError; KStatus] s)
    as (s' & E & _ & Tin & _ & Hin & Hout & Hi'); [| exact HI |].
  { apply (bool_decide_unpack _). reflexivity. }
  assert (Hall : ∀ k, k ∈ [KCmd; KEvent; KError; KStatus]).
  { intros []; repeat (first [apply elem_of_cons; now left
                             | apply elem_of_cons; right]). }
  exists s'. split.
  { revert E. unfold closeClientChans. cbn [close_tables].
    unfold mbind, M_bind, mret, M_ret.
    destruct (close_table KCmd s) as [[[] s1]| |]; [| done | done].
    destruct (close_table KEvent s1) as [[[] s2]| |]; [| done | done].
    destruct (close_table KError s2) as [[[] s3]| |]; [| done | done].
    now destruct (close_table KStatus s3) as [[[] s4]| |]. }
  split; [intros k; now apply Tin |]. split; [| split; [| exact Hi']].
  - intros k key c after tie Hc.
    assert (Hcl : heap s' !! c = Some (mkChan [] true)).
    { apply Hin. now exists k, key. }
    split; [exact Hcl |]. intros Hlt. rewrite Hcl.
    unfold GetChanResult, offers, select_recv_after.
    apply Z.ltb_lt in Hlt. now rewrite Hlt.
  - intros c Hno. apply Hout. intros (k & key & _ & Hc). now apply (Hno k key).
Qed.

End Shutdown.

Import TestutilMoreRef AgentScenario.

Lemma handleStop_handleRestart_mark_witness :
  ∃ l, handleStop (list_byte_of_string "i1") (client_of two_running)
       = Ret (zeroResult, with_instances l (client_of two_running))
       ∧ Forall2 (marked "i1" "exited") (instances two_running) l.
Proof.
  destruct (proj1 (@handleStop_handleRestart_mark
                     bool RefLibs.ssntp commands Ref.consts
                     (list_byte_of_string "i1") "i1" (client_of two_running))
              eq_refl eq_refl) as (l & E & Hm & _).
  now exists l.
Defined.

Lemma handleDelete_first_only_witness :
  handleDelete (list_byte_of_string "i2") (client_of two_running)
  = Ret (zeroResult,
         with_instances [mkInstanceStat "i1" "active" 0 0 0]
                        (client_of two_running)).
Proof.
  apply (proj1 (@handleDelete_first_only
                  bool RefLibs.ssntp commands
                  (list_byte_of_string "i2") "i2" (client_of two_running)
                  eq_refl eq_refl)
          [mkInstanceStat "i1" "active" 0 0 0]
          (mkInstanceStat "i2" "active" 0 0 0) []).
  - reflexivity.
  - repeat constructor. discriminate.
  - reflexivity.
Defined.

Lemma start_stop_restart_delete_witness :
  handleDelete (list_byte_of_string "i3")
    (with_instances (instances two_running
                     ++ [mkInstanceStat "i3" "active" 0 0 0])
                    (client_of two_running))
  = Ret (zeroResult, client_of two_running).
Proof.
  apply (@start_stop_restart_delete
           bool RefLibs.ssntp commands Ref.consts
           (list_byte_of_string "i3") (list_byte_of_string "i3")
           (list_byte_of_string "i3") (list_byte_of_string "i3") "i3"
           (client_of two_running)); try reflexivity.
  repeat constructor; discriminate.
Defined.


Lemma handlers_set_to_fail_witness :
  fails_with handleStop StopFailure "no_instance"
             (encode_failure "i1" "no_instance")
             (list_byte_of_string "i1") stop_failing.
Proof.
  apply (proj1 (@handlers_set_to_fail
                  bool RefLibs.ssntp commands Ref.consts
                  (list_byte_of_string "i1") "i1" stop_failing
                  (TestutilFacts.Inv_set_receivers _ _
                     (TestutilFacts.Inv_register KError StopFailure agent
                        TestutilFacts.Inv_agent)))
          eq_refl eq_refl).
  intros c Hc. vm_compute in Hc. injection Hc as <-.
  apply (bool_decide_unpack _). vm_compute. exact I.
Defined.

Lemma closeClientChans_releases_waiters_witness :
  ∃ s', closeClientChans waiting = Ret (tt, s')
        ∧ CmdChans s' = ∅
        ∧ heap s' !! 0%nat = Some (mkChan [] true).
Proof.
  destruct (@closeClientChans_releases_waiters bool RefLibs.ssntp waiting
              TestutilFacts.Inv_waiting) as (s' & E & Ht & Hc & _).
  exists s'. split; [exact E |]. split; [exact (Ht KCmd) |].
  exact (proj1 (Hc KCmd AgentScenario.START 0%nat 0 true eq_refl)).
Defined.

End TestutilExtra.

Module ComputeCreateFacts.
Import Compute ComputeMore ComputeCreate ComputeCreateSpec PagerSpec.

Section Facts.
Context {W : Type} `{Backend W} `{GoLib} `{Payloads.Consts} `{WebLib}.
Context `{CreateLib W}.

Lemma servers_loop_prefix (instances : list Types.Instance) :
  ∀ (acc : list Server) (c : controller W)
    (ok rest : list Types.Instance) (wls : list Types.Workload),
    instances = ok ++ rest →
    Forall2 (workload_found (world c)) ok wls →
    (rest = [] →
     servers_loop instances acc c
     = Ret ((acc ++ zip_with server_of ok wls, None),
            called c (world c) (lookups ok)))
    ∧ (∀ bad rest' owl e,
          rest = bad :: rest' →
          GetWorkload (Types.WorkloadID bad) (world c) = (owl, Some e) →
          servers_loop instances acc c
          = Ret ((acc ++ zip_with server_of ok wls, Some e),
                 called c (world c) (lookups (ok ++ [bad])))).
Proof.
  induction instances as [|i l IH]; intros acc c ok rest wls Hl Hf.
  - symmetry in Hl. apply app_eq_nil in Hl as [-> ->]. inversion Hf; subst.
    split; [| intros; discriminate]. intros _. cbn.
    now rewrite app_nil_r, ComputeExtra.called_nil.
  - cbn [servers_loop]. destruct ok as [|i0 ok].
    + inversion Hf; subst. cbn [app] in Hl. subst rest.
      split; [intros; discriminate |].
      intros bad rest' owl e [= <- <-] Hw. run_monad.
      rewrite (PagerFacts.instanceToServer_error i owl e c Hw).
      cbn. now rewrite app_nil_r.
    + inversion Hf as [|? wl ? wls' Hw Hf']; subst.
      cbn [app] in Hl. injection Hl as <- Hl.
      run_monad. rewrite (PagerFacts.instanceToServer_found i wl c Hw).
      set (c1 := called c (world c) [CGetWorkload (Types.WorkloadID i)]).
      destruct (IH (acc ++ [server_of i wl]) c1 ok rest wls' Hl Hf')
        as [IH1 IH2].
      assert (Hc1 : ∀ l', called c1 (world c1) l'
                          = called c (world c)
                              (CGetWorkload (Types.WorkloadID i) :: l')).
      { intros l'. unfold c1. now rewrite ComputeExtra.called_called. }
      split.
      * intros Hr. rewrite (IH1 Hr), Hc1. cbn. now rewrite <- app_assoc.
      * intros bad rest' owl e Hr Hw'.
        rewrite (IH2 bad rest' owl e Hr Hw'), Hc1. cbn.
        now rewrite <- app_assoc.
Qed.

(** X28.  [createServer], for a valid token and a body that is read and
    decoded, starts the workload of the request for the tenant with a
    number of instances that is the maximum asked for if that is
    positive, else the minimum if that is positive, else 1, so at least
    one; tracing is on exactly when the request has a name, which is
    the label.  An error of [startWorkload] is answered with 500; the
    text of the error is the format of the message, which
    [returnErrorCode] passes through [fmt.Sprintf] without arguments.
    If it returns no instance and no error the handler panics on
    [instances[0]].  Otherwise the instances are turned into servers in
    order: if every workload is found the answer is 202 with the
    document of the request under the ID of the first instance, the
    count and the servers; the first lookup that fails is answered with
    500 in the same way, and the instances stay started. *)
Theorem createServer_outcomes (r : Request) (c : controller W)
        (body : string) (server : CreateServer) :
  validateToken (world c) r = Ret true →
  Body r = (body, None) →
  json_Unmarshal_CreateServer body = (server, None) →
  ∃ n,
    1 ≤ n
    ∧ (0 < c_MaxInstances server → n = c_MaxInstances server)
    ∧ (c_MaxInstances server ≤ 0 → 0 < c_MinInstances server →
       n = c_MinInstances server)
    ∧ (c_MaxInstances server ≤ 0 → c_MinInstances server ≤ 0 → n = 1)
    ∧ ∀ instances err w1,
        startWorkload (c_Workload server) (var r "tenant") n
                      (negb (String.eqb (c_Name server) "")) (c_Name server)
                      (world c)
        = ((instances, err), w1) →
        (∀ e, err = Some e →
              createServer r c
              = Ret (returnErrorCode StatusInternalServerError e [],
                     set_world w1 c))
        ∧ (err = None → instances = [] →
           ∃ msg, createServer r c = Panic msg)
        ∧ (∀ first wls,
              err = None → head instances = Some first →
              Forall2 (workload_found w1) instances wls →
              createServer r c
              = Ret (accepted
                       (json_Marshal_BuiltServers
                          {| b_Server := named_after first server;
                             b_TotalServers := Z.of_nat (length instances);
                             b_Servers := zip_with server_of instances wls |}),
                     called (set_world w1 c) w1 (lookups instances)))
        ∧ (∀ ok bad rest wls owl e,
              err = None → instances = ok ++ bad :: rest →
              Forall2 (workload_found w1) ok wls →
              GetWorkload (Types.WorkloadID bad) w1 = (owl, Some e) →
              createServer r c
              = Ret (returnErrorCode StatusInternalServerError e [],
                     called (set_world w1 c) w1 (lookups (ok ++ [bad])))).
Proof.
  intros Hv Hb Hj.
  set (n := if 0 <? c_MaxInstances server then c_MaxInstances server
            else if 0 <? c_MinInstances server then c_MinInstances server
            else 1).
  exists n. split; [| split; [| split; [| split]]].
  1-4: unfold n; destruct (Z.ltb_spec 0 (c_MaxInstances server));
       destruct (Z.ltb_spec 0 (c_MinInstances server)); lia.
  intros instances err w1 Hs.
  assert (Hrun : createServer r c
                 = (match err with
                    | Some e =>
                        mret (returnErrorCode StatusInternalServerError e [])
                    | None =>
                        '(servers, err) ← servers_loop instances [];
                        match err with
                        | Some e =>
                            mret (returnErrorCode StatusInternalServerError e [])
                        | None =>
                            first ← match instances with
                                    | i :: _ => mret i
                                    | [] => panic "index out of range"
                                    end;
                            mret (accepted
                                    (json_Marshal_BuiltServers
                                       {| b_Server := named_after first server;
                                          b_TotalServers :=
                                            Z.of_nat (length instances);
                                          b_Servers := servers |}))
                        end
                    end) (set_world w1 c)).
  { unfold createServer, dumpRequestBody, c_validateToken. run_monad.
    rewrite Hv. run_monad. cbn [negb]. rewrite Hb, Hj. fold n.
    unfold c_startWorkload. run_monad.
    destruct (String.eqb (c_Name server) "") eqn:En; cbn [negb] in *.
    - apply String.eqb_eq in En. rewrite En in Hs. rewrite Hs.
      run_monad. destruct err as [e|]; [reflexivity |].
      unfold set_world. destruct (servers_loop instances [] _) as [[[sv [e|]] c2]| |];
        try reflexivity.
      destruct instances as [|i rest]; [reflexivity |]. run_monad.
      unfold accepted, named_after. rewrite En.
      now destruct (json_Marshal_BuiltServers _) as [b [e|]].
    - rewrite Hs. run_monad. destruct err as [e|]; [reflexivity |].
      unfold set_world. destruct (servers_loop instances [] _) as [[[sv [e|]] c2]| |];
        try reflexivity.
      destruct instances as [|i rest]; [reflexivity |]. run_monad.
      unfold accepted, named_after.
      now destruct (json_Marshal_BuiltServers _) as [b [e|]]. }
  rewrite Hrun. clear Hrun. split; [| split; [| split]].
  - now intros e ->.
  - intros -> ->. cbn. run_monad. eauto.
  - intros first wls -> Hh Hf.
    destruct (servers_loop_prefix instances [] (set_world w1 c) instances []
                wls ltac:(now rewrite app_nil_r) Hf) as [Hok _].
    run_monad. rewrite (Hok eq_refl).
    destruct instances as [|i rest]; [discriminate |].
    injection Hh as ->. reflexivity.
  - intros ok bad rest wls owl e -> -> Hf Hw.
    destruct (servers_loop_prefix (ok ++ bad :: rest) [] (set_world w1 c)
                ok (bad :: rest) wls eq_refl Hf) as [_ Hbad].
    run_monad. now rewrite (Hbad bad rest owl e eq_refl Hw).
Qed.

End Facts.

Import Scenario RequestScenario ComputeCreateRef.

Lemma createServer_outcomes_witness :
  createServer (request "token-t1" "t1" "" "wl-vm 2 0 web") ctl3
  = Ret (mkResponse 202 "application/json" "2:i3,i4",
         called (set_world (Ref.dispatch "START" "web" store3) ctl3)
                (Ref.dispatch "START" "web" store3)
                [CGetWorkload "wl-vm"; CGetWorkload "wl-vm"]).
Proof.
  destruct (@createServer_outcomes
              Ref.store Ref.backend RefLibs.web lib
              (request "token-t1" "t1" "" "wl-vm 2 0 web") ctl3
              "wl-vm 2 0 web" (Build_CreateServer "" "web" "wl-vm" 2 0)
              eq_refl eq_refl eq_refl)
    as (n & _ & Hmax & _ & _ & Hrun).
  specialize (Hmax eq_refl). subst n.
  destruct (Hrun [vm_in "i3" "active"; vm_in "i4" "exited"] None
                 (Ref.dispatch "START" "web" store3) eq_refl)
    as (_ & _ & Hok & _).
  exact (Hok (vm_in "i3" "active") [vmWorkload; vmWorkload] eq_refl eq_refl
             ltac:(repeat constructor)).
Defined.

End ComputeCreateFacts.

Module FlavorFacts.
Import ComputeCreate ControllerMore.

Section Facts.
Context `{ResourceNames}.

Lemma last_requests (name : string) (r : Payloads.RequestedResource)
      (l : list Payloads.RequestedResource) (d : Z) :
  default d (Payloads.Value <$> last (requests_for name (r :: l)))
  = default (if String.eqb (Payloads.Type_ r) name then Payloads.Value r
             else d)
            (Payloads.Value <$> last (requests_for name l)).
Proof.
  unfold requests_for. rewrite filter_cons.
  destruct (String.eqb_spec (Payloads.Type_ r) name) as [E | E];
    destruct (decide (Payloads.Type_ r = name)); try contradiction;
    [| reflexivity].
  rewrite last_cons. now destruct (last (filter _ l)).
Qed.

Lemma defaults_loop_spec (l : list Payloads.RequestedResource)
      (d : FlavorDetails) :
  let d' := defaults_loop l d in
  OsFlavorAccessIsPublic d' = OsFlavorAccessIsPublic d
  ∧ f_ID d' = f_ID d ∧ Disk d' = Disk d ∧ f_Name d' = f_Name d
  ∧ Vcpus d' = default (Vcpus d)
                       (Payloads.Value <$> last (requests_for VCPUs l))
  ∧ RAM d' = default (RAM d)
                     (Payloads.Value <$> last (requests_for MemMB l)).
Proof.
  cbn zeta. revert d. induction l as [|r l IH]; intros d; [now repeat split |].
  cbn [defaults_loop]. rewrite !last_requests.
  destruct (String.eqb_spec (Payloads.Type_ r) VCPUs) as [Ev | Ev].
  - assert (Em : String.eqb (Payloads.Type_ r) MemMB = false).
    { apply String.eqb_neq. rewrite Ev. apply names_distinct. }
    rewrite Em. apply (IH (Build_FlavorDetails _ _ _ _ _ _)).
  - destruct (String.eqb_spec (Payloads.Type_ r) MemMB) as [Em | Em].
    + apply (IH (Build_FlavorDetails _ _ _ _ _ _)).
    + apply IH.
Qed.

(** X29.  [buildFlavorDetails] fails with Workload resources not set
    exactly when the workload has no defaults.  Otherwise the flavor is
    public and carries the ID of the workload, its description as the
    name and, in the field Disk, the ID of its image; Vcpus and RAM are
    the values of the last request for VCPUs and for MemMB among the
    defaults, and 0 where there is none. *)
Theorem buildFlavorDetails_spec (workload : Types.Workload)
        (description : string) :
  match Types.w_Defaults workload with
  | [] =>
      buildFlavorDetails workload description
      = (zeroFlavorDetails, Some "Workload resources not set")
  | defaults =>
      ∃ d, buildFlavorDetails workload description = (d, None)
           ∧ OsFlavorAccessIsPublic d = true
           ∧ f_ID d = Types.w_ID workload
           ∧ Disk d = Types.w_ImageID workload
           ∧ f_Name d = description
           ∧ Vcpus d = default 0 (Payloads.Value
                                    <$> last (requests_for VCPUs defaults))
           ∧ RAM d = default 0 (Payloads.Value
                                  <$> last (requests_for MemMB defaults))
  end.
Proof.
  unfold buildFlavorDetails.
  destruct (Types.w_Defaults workload) as [|r l] eqn:E; [reflexivity |].
  change (Z.of_nat (length (r :: l)) =? 0) with false. cbv iota.
  eexists. split; [reflexivity |].
  apply (defaults_loop_spec (r :: l) (Build_FlavorDetails _ _ _ _ _ _)).
Qed.

End Facts.
End FlavorFacts.

Module LibsnnetFacts.
Import Libsnnet.

Lemma prefix_empty (s : string) : String.prefix "" s = true.
Proof. now destruct s. Qed.

Lemma append_cons (a : ascii) (p r : string) :
  (String a p ++ r)%string = String a (p ++ r).
Proof. reflexivity. Qed.

Lemma prefix_app (p r : string) : String.prefix p (p ++ r) = true.
Proof.
  induction p as [|a p IH]; [apply prefix_empty |].
  rewrite append_cons. cbn.
  destruct (Ascii.ascii_dec a a) as [_ | Hne]; [exact IH | now destruct Hne].
Qed.

Lemma string_drop_app (p r : string) :
  string_drop (String.length p) (p ++ r) = r.
Proof.
  induction p as [|a p IH]; [reflexivity |]. rewrite append_cons. exact IH.
Qed.

Lemma prefix_split (p s : string) :
  String.prefix p s = true → s = (p ++ string_drop (String.length p) s)%string.
Proof.
  revert s. induction p as [|a p IH]; intros s Hp; [reflexivity |].
  destruct s as [|b s]; [discriminate |]. rewrite append_cons.
  cbn in Hp |- *.
  destruct (Ascii.ascii_dec a b) as [-> |]; [| discriminate].
  f_equal. now apply IH.
Qed.

Lemma prefix_of_app (p q r : string) :
  String.prefix p (q ++ r) = true →
  String.prefix p q = true ∨ String.prefix q p = true.
Proof.
  revert q. induction p as [|a p IH]; intros q Hp;
    [left; apply prefix_empty |].
  destruct q as [|b q]; [now right |]. rewrite append_cons in Hp.
  cbn in Hp |- *.
  destruct (Ascii.ascii_dec a b) as [-> |]; [| discriminate].
  destruct (Ascii.ascii_dec b b) as [_ | Hne]; [| now destruct Hne].
  now apply IH.
Qed.

Lemma Replace1_prefix (s old new : string) :
  String.prefix old s = true →
  strings_Replace1 s old new
  = (new ++ string_drop (String.length old) s)%string.
Proof. intros Hp. destruct s; cbn [strings_Replace1]; now rewrite Hp. Qed.

Section Facts.
Context `{VnicConsts}.

Lemma prefix_nonempty (p q : string) : String.prefix p q = false → p ≠ "".
Proof. intros Hp ->. now rewrite prefix_empty in Hp. Qed.

(** X30.  The peer of the peer of a container VNIC is the VNIC itself.
    If neither of the two prefixes begins with the other and the link
    of a container VNIC has a name with one of them, [peerName] is that
    name with the prefix exchanged for the other one, it is not empty
    and differs from the link name, and the peer name of a VNIC linked
    under that name is the link name again.  [interfaceName] of a
    container VNIC is its peer name.  For any other role [peerName] is
    the link name, and a container link with neither prefix has no peer
    name; so a VNIC that was just made, whose link is not set up, has
    the empty interface name, provided the prefixes are not empty. *)
Theorem peerName_involution (v : Vnic) :
  (Role v ≠ TenantContainer → peerName v = LinkName v)
  ∧ (prefixes_apart →
     ∀ id, interfaceName (newVnic id).1 = ""
           ∧ interfaceName (newContainerVnic id).1 = "")
  ∧ (Role v = TenantContainer →
     interfaceName v = peerName v
     ∧ (String.prefix prefixVnicHost (LinkName v) = false →
        String.prefix prefixVnicCont (LinkName v) = false →
        peerName v = "")
     ∧ (prefixes_apart →
        String.prefix prefixVnicHost (LinkName v) = true
        ∨ String.prefix prefixVnicCont (LinkName v) = true →
        peerName v ≠ "" ∧ peerName v ≠ LinkName v
        ∧ peerName (linked (peerName v) v) = LinkName v)).
Proof.
  assert (Hcv : (TenantContainer =? TenantVM)%N = false).
  { apply N.eqb_neq. intros E. symmetry in E. now apply roles_distinct in E. }
  split; [| split].
  - intros Hr. unfold peerName. apply N.eqb_neq in Hr. now rewrite Hr.
  - intros [Hhc Hch] id. unfold interfaceName, peerName, newVnic,
      newContainerVnic. cbn [fst Role LinkName].
    rewrite !N.eqb_refl, Hcv. cbn [negb]. split; [reflexivity |].
    apply prefix_nonempty in Hhc. apply prefix_nonempty in Hch.
    destruct prefixVnicHost; [done |]. now destruct prefixVnicCont.
  - intros Hr. split; [| split].
    + unfold interfaceName. rewrite Hr, N.eqb_refl.
      destruct (N.eqb_spec TenantContainer TenantVM) as [E |]; [| reflexivity].
      symmetry in E. now apply roles_distinct in E.
    + intros Hh Hc. unfold peerName. now rewrite Hr, N.eqb_refl, Hh, Hc.
    + intros [Hhc Hch] Hp.
      assert (Hcases :
                ∃ p q r, LinkName v = (p ++ r)%string
                         ∧ peerName v = (q ++ r)%string
                         ∧ String.prefix p q = false
                         ∧ String.prefix q p = false
                         ∧ peerName (linked (q ++ r) v) = (p ++ r)%string).
      { unfold peerName. cbn [linked Role LinkName].
        rewrite Hr, N.eqb_refl. cbn [negb].
        destruct (String.prefix prefixVnicHost (LinkName v)) eqn:Eh.
        - exists prefixVnicHost, prefixVnicCont,
                 (string_drop (String.length prefixVnicHost) (LinkName v)).
          split; [now apply prefix_split |].
          split; [now apply Replace1_prefix |]. split; [exact Hhc |].
          split; [exact Hch |].
          destruct (String.prefix prefixVnicHost (prefixVnicCont ++ _)) eqn:E.
          + apply prefix_of_app in E as [E | E]; congruence.
          + rewrite prefix_app, Replace1_prefix by apply prefix_app.
            now rewrite string_drop_app.
        - destruct Hp as [Hp | Hp]; [congruence |]. rewrite Hp.
          exists prefixVnicCont, prefixVnicHost,
                 (string_drop (String.length prefixVnicCont) (LinkName v)).
          split; [now apply prefix_split |].
          split; [now apply Replace1_prefix |]. split; [exact Hch |].
          split; [exact Hhc |].
          rewrite prefix_app, Replace1_prefix by apply prefix_app.
          now rewrite string_drop_app. }
      destruct Hcases as (p & q & r & Hl & Hpeer & Hpq & Hqp & Hback).
      rewrite Hpeer, Hl. split; [| split; [| exact Hback]].
      * apply prefix_nonempty in Hqp. destruct q; [done | discriminate].
      * intros E. assert (Hq : String.prefix q (p ++ r) = true)
          by (rewrite <- E; apply prefix_app).
        apply prefix_of_app in Hq as [Hq | Hq]; congruence.
Qed.

End Facts.

Lemma peerName_involution_witness :
  peerName (H := ref) (mkVnic Veth "vnic-1" 1 "svn_1234") = "cvn_1234"
  ∧ peerName (H := ref) (mkVnic Veth "vnic-1" 1 "cvn_1234") = "svn_1234".
Proof.
  destruct (proj2 (proj2 (@peerName_involution ref
                             (mkVnic Veth "vnic-1" 1 "svn_1234")))
              eq_refl) as (_ & _ & Hinv).
  destruct (Hinv ltac:(split; reflexivity) ltac:(left; reflexivity))
    as (_ & _ & Hback).
  split; [reflexivity | exact Hback].
Defined.

End LibsnnetFacts.
